(** * AutoBookmark: the sheet-extractor pipeline

    A shallow embedding of [working_sheet_extractor_py.py]: the four
    processing functions of cell 5 ([pdf_to_images], [generate_bookmarks_ai],
    [convert_ai_response_to_pdftk], [apply_bookmarks]), the orchestrator of
    cell 6 ([process_pdf_workflow]), and around them the tool finder of
    cell 3 ([find_executable]), the path generation of cell 4
    ([get_processing_paths]) and the upload handler of cell 7
    ([handle_uploaded_pdf]).  The notebook cells 8 to 10, which talk to the
    Colab upload widget and read the notebook's global variables, are not
    modelled.

    Conventions of the embedding.
    - A Python [str] is a [string]; only ASCII text is modelled.
    - A Python [int] is a [Z].
    - A function that touches the outside world runs in the monad [M]: it
      reads and updates an abstract operating-system state, returns a value
      or raises an exception, and emits the events it caused.
    - The file system, the subprocesses, Pillow, the Gemini client and the
      library functions [json.loads], [json.dumps] and [str.format] are the
      fields of the class [Env]; the program is verified for every
      implementation of them.  [shutil.which], the platform, [pathlib],
      [uuid] and the [str] of a list are the fields of the class [Host].
    - A log record keeps the level and the text of the message up to its
      first interpolated field.  [logging.debug] calls are not emitted: the
      root logger runs at level INFO. *)

From Stdlib Require Import ZArith NArith QArith List Ascii Bool Lia.
From Stdlib Require String.
From Stdlib Require Import DecimalString DecimalN DecimalZ.
From stdpp Require Import base list sorting gmap strings.

Set Warnings "-register-all".
Local Open Scope Z_scope.

(** stdpp keeps [String.append] folded; the proofs below compute with it. *)
#[local] Arguments String.append !_ _ / : simpl nomatch.

(** ** Python strings *)

Module PyStr.

(** [s.find(c)] for a one-character needle: the first index, or [-1]. *)
Fixpoint find (c : ascii) (s : string) : Z :=
  match s with
  | EmptyString => -1
  | String a s' =>
      if Ascii.eqb a c then 0
      else let r := find c s' in if r =? -1 then -1 else r + 1
  end.

(** [s.rfind(c)] for a one-character needle: the last index, or [-1]. *)
Fixpoint rfind (c : ascii) (s : string) : Z :=
  match s with
  | EmptyString => -1
  | String a s' =>
      let r := rfind c s' in
      if r =? -1 then (if Ascii.eqb a c then 0 else -1) else r + 1
  end.

Fixpoint drop (n : nat) (s : string) : string :=
  match n, s with
  | O, _ => s
  | S n', String _ s' => drop n' s'
  | S _, EmptyString => EmptyString
  end.

Fixpoint take (n : nat) (s : string) : string :=
  match n, s with
  | S n', String a s' => String a (take n' s')
  | _, _ => EmptyString
  end.

(** [s[i:j]] for [0 <= i] and [0 <= j]. *)
Definition slice (i j : Z) (s : string) : string :=
  take (Z.to_nat (j - i)) (drop (Z.to_nat i) s).

Fixpoint startswith (p s : string) : bool :=
  match p, s with
  | EmptyString, _ => true
  | String a p', String b s' => Ascii.eqb a b && startswith p' s'
  | String _ _, EmptyString => false
  end.

(** [sub in s]. *)
Fixpoint contains (sub s : string) : bool :=
  startswith sub s ||
  match s with
  | EmptyString => false
  | String _ s' => contains sub s'
  end.

Definition is_digit (c : ascii) : bool :=
  let n := nat_of_ascii c in (48 <=? n)%nat && (n <=? 57)%nat.

Definition lower_char (c : ascii) : ascii :=
  let n := nat_of_ascii c in
  if (65 <=? n)%nat && (n <=? 90)%nat then ascii_of_nat (n + 32) else c.

Definition upper_char (c : ascii) : ascii :=
  let n := nat_of_ascii c in
  if (97 <=? n)%nat && (n <=? 122)%nat then ascii_of_nat (n - 32) else c.

Fixpoint map (f : ascii -> ascii) (s : string) : string :=
  match s with
  | EmptyString => EmptyString
  | String a s' => String (f a) (map f s')
  end.

Definition lower : string -> string := map lower_char.
Definition upper : string -> string := map upper_char.

(** [s.rstrip(c)]. *)
Fixpoint rstrip (c : ascii) (s : string) : string :=
  match s with
  | EmptyString => EmptyString
  | String a s' =>
      match rstrip c s' with
      | EmptyString => if Ascii.eqb a c then EmptyString else String a EmptyString
      | r => String a r
      end
  end.

Fixpoint all (f : ascii -> bool) (s : string) : bool :=
  match s with
  | EmptyString => true
  | String a s' => f a && all f s'
  end.

(** [str(n)] for an [int]. *)
Definition of_Z (n : Z) : string := NilZero.string_of_int (Z.to_int n).

(** [str(n)] for a non-negative [int]. *)
Definition of_N (n : N) : string := NilEmpty.string_of_uint (N.to_uint n).

(** [int(s)] for a string of ASCII digits. *)
Definition to_N (s : string) : option N :=
  match s, NilEmpty.uint_of_string s with
  | String _ _, Some d => Some (N.of_uint d)
  | _, _ => None
  end.

(** ["%04d" % n] for a non-negative [n], as Ghostscript's [-sOutputFile]
    expands it. *)
Definition fmt_04d (n : N) : string :=
  let s := of_N n in
  String.concat "" (repeat "0" (4 - String.length s)%nat) +:+ s.

End PyStr.

(** ** [os.path] (posixpath) *)

Module OsPath.

Definition basename (p : string) : string :=
  PyStr.drop (Z.to_nat (PyStr.rfind "/" p + 1)) p.

Definition dirname (p : string) : string :=
  let head := PyStr.take (Z.to_nat (PyStr.rfind "/" p + 1)) p in
  if PyStr.all (Ascii.eqb "/") head then head else PyStr.rstrip "/" head.

Fixpoint endswith_char (c : ascii) (s : string) : bool :=
  match s with
  | EmptyString => false
  | String a EmptyString => Ascii.eqb a c
  | String _ s' => endswith_char c s'
  end.

(** [os.path.join(a, b)]. *)
Definition join (a b : string) : string :=
  if PyStr.startswith "/" b then b
  else if String.eqb a "" || endswith_char "/" a then a +:+ b
  else a +:+ "/" +:+ b.

(** The second component of [os.path.splitext(p)]. *)
Fixpoint only_dots_before (k : nat) (s : string) : bool :=
  match k, s with
  | O, _ => true
  | S k', String a s' => Ascii.eqb a "." && only_dots_before k' s'
  | S _, EmptyString => true
  end.

Definition splitext_ext (p : string) : string :=
  let sepIndex := PyStr.rfind "/" p in
  let dotIndex := PyStr.rfind "." p in
  if dotIndex >? sepIndex then
    let filenameIndex := Z.to_nat (sepIndex + 1) in
    if only_dots_before (Z.to_nat dotIndex - filenameIndex)%nat
                        (PyStr.drop filenameIndex p)
    then ""
    else PyStr.drop (Z.to_nat dotIndex) p
  else "".

End OsPath.

(** ** Exceptions, results, JSON values *)

(** The exception classes the program raises or catches.  [cause] is the
    [__cause__] set by [raise ... from e].  [FileNotFoundError] is a subclass
    of [OSError], [JSONDecodeError] of [ValueError]; every class below is a
    subclass of [Exception]. *)
Inductive exn : Type :=
| FileNotFoundError (msg : string)
| OSError (msg : string)
| ValueError (msg : string) (cause : option exn)
| JSONDecodeError (doc : string)
| KeyError (key : string)
| TypeError
| RuntimeError (msg : string) (cause : option exn)
| CalledProcessError (returncode : Z) (cmd : list string)
| TimeoutExpired (cmd : list string) (timeout : Z)
| OtherException (cls msg : string).

Inductive result (A : Type) : Type :=
| Ok (a : A)
| Raise (e : exn).
Arguments Ok {A} a.
Arguments Raise {A} e.

(** The outcome of a file-system call: these fail with [OSError] only. *)
Inductive os_result (A : Type) : Type :=
| OsOk (a : A)
| OsError (e : string).
Arguments OsOk {A} a.
Arguments OsError {A} e.

(** What [json.loads] returns.  A [dict] is an association list read from
    the left; a [float] is kept as its [repr]. *)
Inductive json : Type :=
| JNull
| JBool (b : bool)
| JInt (n : Z)
| JFloat (repr : string)
| JStr (s : string)
| JArr (items : list json)
| JObj (fields : list (string * json)).

Module Dict.
Fixpoint get (k : string) (d : list (string * json)) : option json :=
  match d with
  | [] => None
  | (k', v) :: d' => if String.eqb k' k then Some v else get k d'
  end.
End Dict.

Inductive level : Type := INFO | WARNING | ERROR.

(** [genai_types.Part.from_bytes(data=..., mime_type=...)]. *)
Record Part : Type := { part_data : string; part_mime_type : string }.

(** The class passed as [response_schema]. *)
Inductive response_schema_t : Type := ExtractedData.

(** [genai_types.GenerateContentConfig(...)]. *)
Record GenerateContentConfig : Type := {
  cfg_temperature : Q;
  cfg_response_mime_type : string;
  cfg_response_schema : response_schema_t;
  cfg_system_instruction : string
}.

(** What a run leaves behind, in order: log records and the calls that
    change the outside world. *)
Inductive event : Type :=
| EvLog (lvl : level) (msg : string)
| EvRun (command : list string)
| EvWrite (path content : string)
| EvMakedirs (path : string)
| EvRemove (path : string)
| EvRmtree (path : string)
| EvGenerateContent (model : string) (contents : list Part)
                    (config : GenerateContentConfig).

(** [subprocess.run(command, capture_output=True, timeout=...)] before
    [check=True] is applied. *)
Inductive proc_outcome : Type :=
| Completed (returncode : Z) (stdout stderr : string)
| TimedOut
| SpawnFailed (e : string).

(** [client.models.generate_content(...)]: an exception, or a response
    whose [text] may be missing. *)
Inductive gen_outcome : Type :=
| GenRaised (e : exn)
| GenResponse (text : option string).

(** ** The outside world *)

Class Env : Type := {
  os_state : Type;
  Client : Type;
  (** [os.path.exists], [os.path.getsize], [glob.glob] *)
  os_path_exists : string -> os_state -> bool;
  os_path_getsize : string -> os_state -> os_result Z;
  glob_glob : string -> os_state -> list string;
  (** [subprocess.run(command, ..., timeout=t)] *)
  subprocess_run : list string -> Z -> os_state -> proc_outcome * os_state;
  (** [with open(path, 'w', encoding='utf-8') as f: f.write(text)] *)
  open_write : string -> string -> os_state -> os_result unit * os_state;
  (** [with open(path, 'rb') as f: f.read()] *)
  open_read : string -> os_state -> os_result string;
  os_remove : string -> os_state -> os_result unit * os_state;
  (** [os.makedirs(path, exist_ok=True)] *)
  os_makedirs : string -> os_state -> os_result unit * os_state;
  shutil_rmtree : string -> os_state -> os_result unit * os_state;
  (** [Image.open(path).format]; [None] when Pillow raises. *)
  Image_open_format : string -> os_state -> option string;
  (** [Image.MIME.get] *)
  Image_MIME_get : string -> option string;
  generate_content :
    Client -> string -> list Part -> GenerateContentConfig -> os_state ->
    gen_outcome * os_state;
  (** [json.loads]; [None] is [JSONDecodeError]. *)
  json_loads : string -> option json;
  (** [json.dumps(obj, indent=2)] *)
  json_dumps : json -> string;
  (** [template.format(actual_total_pages=n)] *)
  str_format : string -> Z -> result string;
  (** [str] of a [list] or a [dict] *)
  str_container : json -> string
}.

(** [format(v, '')], as an f-string field renders a JSON value. *)
Definition py_str `{Env} (v : json) : string :=
  match v with
  | JNull => "None"
  | JBool true => "True"
  | JBool false => "False"
  | JInt n => PyStr.of_Z n
  | JFloat r => r
  | JStr s => s
  | JArr _ | JObj _ => str_container v
  end.

(** ** The monad of effectful code *)

Section Monad.
Context `{Env}.

Definition M (A : Type) : Type := os_state -> result A * os_state * list event.

Definition ret {A} (a : A) : M A := fun st => (Ok a, st, []).

Definition raise {A} (e : exn) : M A := fun st => (Raise e, st, []).

Definition bind {A B} (m : M A) (k : A -> M B) : M B := fun st =>
  match m st with
  | (Ok a, st1, ev1) => let '(r, st2, ev2) := k a st1 in (r, st2, ev1 ++ ev2)
  | (Raise e, st1, ev1) => (Raise e, st1, ev1)
  end.

(** [try: m except Exception as e: h e] *)
Definition try_except {A} (m : M A) (h : exn -> M A) : M A := fun st =>
  match m st with
  | (Ok a, st1, ev1) => (Ok a, st1, ev1)
  | (Raise e, st1, ev1) => let '(r, st2, ev2) := h e st1 in (r, st2, ev1 ++ ev2)
  end.

(** [try: m finally: f]: an exception raised by [f] replaces the outcome
    of [m]. *)
Definition try_finally {A} (m : M A) (f : M unit) : M A := fun st =>
  let '(r, st1, ev1) := m st in
  match f st1 with
  | (Ok _, st2, ev2) => (r, st2, ev1 ++ ev2)
  | (Raise e, st2, ev2) => (Raise e, st2, ev1 ++ ev2)
  end.

Definition emit (e : event) : M unit := fun st => (Ok tt, st, [e]).

Definition log (lvl : level) (msg : string) : M unit := emit (EvLog lvl msg).

(** Reading the state. *)
Definition observe {A} (f : os_state -> A) : M A := fun st => (Ok (f st), st, []).

(** A call that changes the state and fails with [OSError] only. *)
Definition os_call {A} (ev : event) (f : os_state -> os_result A * os_state)
  : M A := fun st =>
  match f st with
  | (OsOk a, st') => (Ok a, st', [ev])
  | (OsError e, st') => (Raise (OSError e), st', [ev])
  end.

Definition outcome {A} (x : result A * os_state * list event) : result A := x.1.1.
Definition final_state {A} (x : result A * os_state * list event) : os_state := x.1.2.
Definition events {A} (x : result A * os_state * list event) : list event := x.2.

End Monad.

Notation "'let*' x ':=' m 'in' k" := (bind m (fun x => k))
  (at level 10, x name, m at level 100, k at level 200).
Notation "m ';;' k" := (bind m (fun _ => k))
  (at level 100, k at level 200, right associativity).

(** ** Step 1: [pdf_to_images] *)

(** The line feed of Python's ["\n"]. *)
Definition nl : string := String "010" "".

(** The longest run of digits at the head of [s], and what follows it. *)
Fixpoint span_digits (s : string) : string * string :=
  match s with
  | String a s' =>
      if PyStr.is_digit a
      then let (d, r) := span_digits s' in (String a d, r)
      else ("", s)
  | EmptyString => ("", "")
  end.

(** A match of [r'page_(\d+)\.' + re.escape(ext) + '$'] that starts at the
    head of [s]; the result is group 1.  The greedy [\d+] takes the whole run
    of digits, since a digit cannot match the [\.] that follows; [$] matches
    at the end and before a final line feed.  [ext] is one of [png], [jpg],
    [img], which [re.escape] leaves as they are. *)
Definition match_page_here (ext s : string) : option string :=
  if PyStr.startswith "page_" s then
    let (ds, rest) := span_digits (PyStr.drop 5 s) in
    if negb (String.eqb ds "") &&
       (String.eqb rest ("." +:+ ext) || String.eqb rest ("." +:+ ext +:+ nl))
    then Some ds else None
  else None.

(** [re.search]: the leftmost position with a match. *)
Fixpoint re_search_page (ext s : string) : option string :=
  match match_page_here ext s with
  | Some ds => Some ds
  | None =>
      match s with
      | String _ s' => re_search_page ext s'
      | EmptyString => None
      end
  end.

(** The local function [sort_key] of [pdf_to_images]. *)
Definition sort_key (ext filepath : string) : Z :=
  match re_search_page ext (OsPath.basename filepath) with
  | Some ds =>
      match PyStr.to_N ds with
      | Some n => Z.of_N n
      | None => -1
      end
  | None => -1
  end.

Fixpoint insert_by_key {A} (key : A -> Z) (x : A) (l : list A) : list A :=
  match l with
  | [] => [x]
  | y :: l' => if key x <=? key y then x :: l else y :: insert_by_key key x l'
  end.

(** [l.sort(key=key)].  Python's sort is stable and a stable sort has one
    result; it is computed here by insertion from the right. *)
Definition list_sort_key {A} (key : A -> Z) (l : list A) : list A :=
  foldr (insert_by_key key) [] l.

(** The order [list_sort_key] sorts into. *)
Definition key_le {A} (key : A -> Z) (x y : A) : Prop := key x <= key y.

Definition image_ext (image_format : string) : string :=
  if PyStr.contains "png" image_format then "png"
  else if PyStr.contains "jpeg" image_format || PyStr.contains "jpg" image_format
       then "jpg"
       else "img".

Definition gs_command (gs_path image_format : string) (resolution : Z)
    (output_pattern pdf_path : string) : list string :=
  [ gs_path; "-dNOPAUSE"; "-dBATCH"; "-dSAFER"; "-q";
    "-sDEVICE=" +:+ image_format;
    "-r" +:+ PyStr.of_Z resolution;
    "-sOutputFile=" +:+ output_pattern;
    pdf_path ].

(** The file Ghostscript writes for page [k]: [output_pattern] with its
    [%04d] expanded. *)
Definition page_image_path (output_dir ext : string) (k : N) : string :=
  OsPath.join output_dir ("page_" +:+ PyStr.fmt_04d k +:+ "." +:+ ext).

Section Steps.
Context `{Env}.

(** [subprocess.run(command, capture_output=True, check=True, timeout=t)] *)
Definition check_run (command : list string) (t : Z) : M (string * string) :=
  fun st =>
    match subprocess_run command t st with
    | (Completed rc out err, st') =>
        if rc =? 0 then (Ok (out, err), st', [EvRun command])
        else (Raise (CalledProcessError rc command), st', [EvRun command])
    | (TimedOut, st') => (Raise (TimeoutExpired command t), st', [EvRun command])
    | (SpawnFailed e, st') => (Raise (OSError e), st', [EvRun command])
    end.

Definition pdf_to_images (pdf_path output_dir gs_path : string)
    (resolution : Z) (image_format : string) : M (list string) :=
  log INFO "Attempting PDF to image conversion for: " ;;
  let* pdf_exists := observe (os_path_exists pdf_path) in
  if negb pdf_exists
  then raise (FileNotFoundError ("Input PDF not found at: " +:+ pdf_path))
  else if String.eqb gs_path ""
  then raise (ValueError "Ghostscript path is not provided." None)
  else
    let ext := image_ext image_format in
    let output_pattern := OsPath.join output_dir ("page_%04d." +:+ ext) in
    let command :=
      gs_command gs_path image_format resolution output_pattern pdf_path in
    try_except
      (log INFO "Running Ghostscript command: " ;;
       check_run command 1200 ;;
       log INFO "Ghostscript conversion command executed successfully." ;;
       let glob_pattern := OsPath.join output_dir ("page_*." +:+ ext) in
       let* image_files := observe (glob_glob glob_pattern) in
       match image_files with
       | [] =>
           raise (RuntimeError
                    ("Ghostscript ran successfully but no images found matching pattern '"
                     +:+ glob_pattern +:+ "'. Check GS logs or input PDF.") None)
       | _ =>
           let image_files := list_sort_key (sort_key ext) image_files in
           log INFO "Found and sorted " ;;
           ret image_files
       end)
      (fun e =>
         match e with
         | CalledProcessError _ _ =>
             log ERROR "Ghostscript failed. Command: '" ;;
             raise (RuntimeError ("Ghostscript conversion failed for "
                                  +:+ OsPath.basename pdf_path) (Some e))
         | TimeoutExpired _ _ =>
             log ERROR "Ghostscript command timed out after 300 seconds for " ;;
             raise (RuntimeError ("Ghostscript timed out for "
                                  +:+ OsPath.basename pdf_path) None)
         | _ =>
             log ERROR "Unexpected error during Ghostscript conversion: " ;;
             raise (RuntimeError ("Unexpected error during image conversion for "
                                  +:+ OsPath.basename pdf_path) (Some e))
         end).

(** ** Step 2: [generate_bookmarks_ai] *)

(** The fallback on the file extension; [None] is the [ValueError] that the
    enclosing [except Exception] turns into a skipped file. *)
Definition fallback_mime_type (path : string) : option string :=
  let ext := PyStr.lower (OsPath.splitext_ext path) in
  if String.eqb ext ".png" then Some "image/png"
  else if String.eqb ext ".jpg" || String.eqb ext ".jpeg" then Some "image/jpeg"
  else if String.eqb ext ".webp" then Some "image/webp"
  else None.

(** The inner [try] of the image loop; [None] when it raises. *)
Definition mime_type_of (path : string) (st : os_state) : option string :=
  match Image_open_format path st with
  | None => None
  | Some fmt =>
      match Image_MIME_get (PyStr.upper fmt) with
      | Some "" | None => fallback_mime_type path
      | Some mime_type => Some mime_type
      end
  end.

Definition read_bytes (path : string) : M string := fun st =>
  match open_read path st with
  | OsOk b => (Ok b, st, [])
  | OsError e => (Raise (OSError e), st, [])
  end.

(** The [for i, path in enumerate(image_paths)] loop. *)
Fixpoint prepare_image_parts (image_paths : list string)
    (image_parts : list Part) : M (list Part) :=
  match image_paths with
  | [] => ret image_parts
  | path :: rest =>
      let* found := observe (os_path_exists path) in
      if negb found then
        log WARNING "Image file not found: " ;;
        prepare_image_parts rest image_parts
      else
        let* mime := observe (mime_type_of path) in
        match mime with
        | None =>
            log WARNING "Could not determine MIME type for " ;;
            prepare_image_parts rest image_parts
        | Some mime_type =>
            let* img_bytes := read_bytes path in
            prepare_image_parts rest
              (image_parts ++ [{| part_data := img_bytes;
                                  part_mime_type := mime_type |}])
        end
  end.

(** The block under [--- Clean and Parse JSON ---]. *)
Definition clean_and_parse_json (raw_text : string) : M json :=
  let start_index := PyStr.find "{" raw_text in
  let end_index := PyStr.rfind "}" raw_text in
  if (start_index =? -1) || (end_index =? -1) || (end_index <? start_index)
  then
    log ERROR "Could not find valid JSON object boundaries in response: " ;;
    raise (ValueError
             "Invalid JSON structure received from Gemini API (missing '{' or '}')."
             None)
  else
    let json_core_string := PyStr.slice start_index (end_index + 1) raw_text in
    match json_loads json_core_string with
    | None => raise (JSONDecodeError json_core_string)
    | Some parsed_data =>
        log INFO "Successfully parsed JSON response from Gemini." ;;
        ret parsed_data
    end.

Definition call_generate_content (client : Client) (model : string)
    (contents : list Part) (config : GenerateContentConfig)
  : M (option string) := fun st =>
  match generate_content client model contents config st with
  | (GenResponse text, st') =>
      (Ok text, st', [EvGenerateContent model contents config])
  | (GenRaised e, st') =>
      (Raise e, st', [EvGenerateContent model contents config])
  end.

Definition generate_bookmarks_ai (client : option Client)
    (model_name : string) (temperature : Q)
    (system_prompt_template : string) (image_paths : list string)
    (response_schema : response_schema_t) : M json :=
  log INFO "Starting AI bookmark generation for " ;;
  match client with
  | None => raise (ValueError "Gemini client is not provided." None)
  | Some client =>
  match image_paths with
  | [] => raise (ValueError "No image paths provided for AI generation." None)
  | _ =>
  let actual_total_pages := Z.of_nat (length image_paths) in
  let* image_parts :=
    try_except
      (let* image_parts := prepare_image_parts image_paths [] in
       match image_parts with
       | [] =>
           raise (RuntimeError
                    "No valid image parts could be prepared for the API call." None)
       | _ => log INFO "Prepared " ;; ret image_parts
       end)
      (fun e =>
         log ERROR "Error preparing image parts: " ;;
         raise (RuntimeError "Failed during image preparation for AI." (Some e)))
  in
  let* formatted_system_prompt :=
    match str_format system_prompt_template actual_total_pages with
    | Ok text => ret text
    | Raise (KeyError k) =>
        log ERROR "System prompt template is missing '" ;;
        raise (ValueError "Invalid system prompt template." (Some (KeyError k)))
    | Raise e => raise e
    end
  in
  let generate_content_config :=
    {| cfg_temperature := temperature;
       cfg_response_mime_type := "application/json";
       cfg_response_schema := response_schema;
       cfg_system_instruction := formatted_system_prompt |} in
  try_except
    (log INFO "Calling Gemini model '" ;;
     let* text :=
       call_generate_content client model_name image_parts
                             generate_content_config in
     match text with
     | None | Some "" =>
         log ERROR "Gemini API call succeeded but returned no text. Feedback: " ;;
         raise (RuntimeError
                  "Gemini API returned no text content. It might have been blocked or empty."
                  None)
     | Some raw_text =>
         log INFO "Gemini API call successful, attempting to parse JSON response." ;;
         clean_and_parse_json raw_text
     end)
    (fun e =>
       log ERROR "Error during Gemini API call or response parsing: " ;;
       raise (RuntimeError
                "Gemini API interaction or response processing failed." (Some e)))
  end
  end.

(** ** Step 3: [convert_ai_response_to_pdftk] *)

(** One turn of the [for page_detail in pages_data] loop. *)
Inductive entry_outcome : Type :=
| Entry (bookmark_entry : string)
| MissingPageNumber        (* [except KeyError] *)
| BadEntry.                (* [except Exception] *)

Definition bookmark_block (bookmark_title page_num : string) : string :=
  "BookmarkBegin" +:+ nl +:+
  "BookmarkTitle: " +:+ bookmark_title +:+ nl +:+
  "BookmarkLevel: 1" +:+ nl +:+
  "BookmarkPageNumber: " +:+ page_num +:+ nl +:+ nl.

Definition bookmark_entry_of (page_detail : json) : entry_outcome :=
  match page_detail with
  | JObj d =>
      match Dict.get "page_number" d with
      | None => MissingPageNumber
      | Some page_num =>
          let sheet_num :=
            default (JStr "MISSING_SHEET_NUM") (Dict.get "sheet_number" d) in
          let sheet_title :=
            default (JStr "MISSING_SHEET_TITLE") (Dict.get "sheet_title" d) in
          let bookmark_title := py_str sheet_num +:+ " " +:+ py_str sheet_title in
          Entry (bookmark_block bookmark_title (py_str page_num))
      end
  | _ => BadEntry
  end.

Fixpoint build_bookmarks (pages_data : list json)
    (pdftk_bookmarks : list string) : M (list string) :=
  match pages_data with
  | [] => ret pdftk_bookmarks
  | page_detail :: rest =>
      match bookmark_entry_of page_detail with
      | Entry bookmark_entry =>
          build_bookmarks rest (pdftk_bookmarks ++ [bookmark_entry])
      | MissingPageNumber =>
          log WARNING
            "Skipping page entry due to missing required key 'page_number': " ;;
          build_bookmarks rest pdftk_bookmarks
      | BadEntry =>
          log WARNING "Error processing page entry: " ;;
          build_bookmarks rest pdftk_bookmarks
      end
  end.

Definition write_text (path text : string) : M unit :=
  os_call (EvWrite path text) (open_write path text).

Definition is_pages_str (v : json) : bool :=
  match v with
  | JStr s => String.eqb s "pages"
  | _ => false
  end.

(** The test [if 'pages' not in response_data or not
    isinstance(response_data['pages'], list)]: the list under ['pages'],
    [None] when the test holds, or the [TypeError] of a value that cannot
    be searched or indexed. *)
Definition pages_list_of (response_data : json) : result (option (list json)) :=
  match response_data with
  | JObj d =>
      match Dict.get "pages" d with
      | Some (JArr pages_data) => Ok (Some pages_data)
      | _ => Ok None
      end
  | JArr items =>
      if existsb is_pages_str items
      then Raise TypeError
      else Ok None
  | JStr s =>
      if PyStr.contains "pages" s
      then Raise TypeError
      else Ok None
  | _ => Raise TypeError
  end.

Definition convert_ai_response_to_pdftk (response_data : json)
    (output_bmk_path : string) : M bool :=
  log INFO "Converting AI response dictionary to PDFtk format for: " ;;
  try_except
    (match pages_list_of response_data with
     | Raise e => raise e
     | Ok None =>
         log ERROR "AI response JSON is missing the 'pages' list or it's not a list." ;;
         ret false
     | Ok (Some []) =>
         log WARNING
           "AI response contained an empty 'pages' list. No bookmarks to generate." ;;
         write_text output_bmk_path "" ;;
         ret true
     | Ok (Some pages_data) =>
         let* pdftk_bookmarks := build_bookmarks pages_data [] in
         match pdftk_bookmarks with
         | [] =>
             log WARNING
               "No valid bookmark entries could be generated from the 'pages' data." ;;
             write_text output_bmk_path "" ;;
             ret true
         | _ =>
             let final_output_string := String.concat "" pdftk_bookmarks in
             os_call (EvMakedirs (OsPath.dirname output_bmk_path))
                     (os_makedirs (OsPath.dirname output_bmk_path)) ;;
             write_text output_bmk_path final_output_string ;;
             log INFO "Successfully saved PDFtk bookmarks (" ;;
             ret true
         end
     end)
    (fun e =>
       log ERROR "Error converting AI response to PDFtk format: " ;;
       ret false).

(** ** Step 4: [apply_bookmarks] *)

Definition pdftk_command (pdftk_path input_pdf_path bookmark_data_path
    output_pdf_path : string) : list string :=
  [ pdftk_path; input_pdf_path; "update_info"; bookmark_data_path;
    "output"; output_pdf_path ].

Definition getsize (path : string) : M Z := fun st =>
  match os_path_getsize path st with
  | OsOk n => (Ok n, st, [])
  | OsError e => (Raise (OSError e), st, [])
  end.

Definition is_OSError (e : exn) : bool :=
  match e with
  | OSError _ | FileNotFoundError _ => true
  | _ => false
  end.

Definition apply_bookmarks (pdftk_path input_pdf_path bookmark_data_path
    output_pdf_path : string) : M bool :=
  log INFO "Applying bookmarks from " ;;
  if String.eqb pdftk_path ""
  then raise (ValueError "PDFtk path is not provided." None)
  else
  let* input_exists := observe (os_path_exists input_pdf_path) in
  if negb input_exists
  then raise (FileNotFoundError
                ("Input PDF for bookmarking not found: " +:+ input_pdf_path))
  else
  let* data_exists := observe (os_path_exists bookmark_data_path) in
  if negb data_exists
  then raise (FileNotFoundError
                ("Bookmark data file not found: " +:+ bookmark_data_path))
  else
  let command :=
    pdftk_command pdftk_path input_pdf_path bookmark_data_path output_pdf_path in
  try_except
    (log INFO "Running PDFtk command: " ;;
     check_run command 120 ;;
     let* created := observe (os_path_exists output_pdf_path) in
     let* nonempty :=
       if created
       then let* size := getsize output_pdf_path in ret (size >? 0)
       else ret false in
     if nonempty then
       log INFO "PDFtk bookmark application successful. Output saved to: " ;;
       ret true
     else
       log ERROR "PDFtk command ran but output file '" ;;
       let* still_there := observe (os_path_exists output_pdf_path) in
       (if still_there
        then try_except
               (os_call (EvRemove output_pdf_path) (os_remove output_pdf_path))
               (fun e => if is_OSError e then ret tt else raise e)
        else ret tt) ;;
       ret false)
    (fun e =>
       match e with
       | CalledProcessError _ _ =>
           log ERROR "PDFtk failed. Command: '" ;; ret false
       | TimeoutExpired _ _ =>
           log ERROR "PDFtk command timed out after 120 seconds for " ;; ret false
       | _ =>
           log ERROR "Unexpected error running PDFtk: " ;; ret false
       end).

End Steps.

(** ** Configuration (cell 2) *)

Definition dq : string := String "034" "".

(** [AppConfig.GEMINI_SYSTEM_PROMPT_TEMPLATE], the text the Python literal
    denotes. *)
Definition GEMINI_SYSTEM_PROMPT_TEMPLATE_text : string :=
"<ROLE>

**You are an expert at finding and extracting** a `sheet_number` (aka sheet no. or plan no., etc.) and a `sheet_title` **from within the 'Title Block' of each page** (each page being an image) of a construction drawings/plans document.
    * You must first identify the 'Title Block' area.
    * DO NOT use data from the center of the page. **This is not the 'Title Block'**.

</ROLE>

<CONTEXT>

* You are processing **exactly {actual_total_pages} pages of a construction drawings document** that has been converted to {actual_total_pages} single-page images.
    * The images are provided sequentially below.
* Note: While the 'Title Block' contains the required information, its exact visual layout, positioning of elements, or surrounding
text might vary in different parts of the document set. As a hypothetical example:
    * Pgs1-49 might use 'Title_Block_Layout_1', while Pgs 50-100 might use 'Title_Block_Layout_2', etc.
    * **Title Blocks are always found on the bottom edge or right-side edge of each page**, with **`sheet_number` and `sheet_title` generally appearing along the
right-side edge or in the lower-right corner**.
    * **DO NOT use data from the top or center of the page** even if you believe it's the `sheet_title` as this data is incorrect.
    * Focus on identifying the semantic meaning of `sheet_number` and `sheet_title` within the title block area, regardless of minor layout shifts. Including:
        * Patterns in the structure of the `sheet_number` and how it relates to the corresponding `sheet_title`.

</CONTEXT>

<TERM_DEFINITIONS>

(FYI: Terms can vary slightly in these documents!)

1. `sheet_number` (aka 'Sheet No.' or similar) is the plan or drawing number and **found in the title block** on each page (image).
    * `sheet_number` hypothetical format/structure examples:
        * 'A1.1'
        * 'M2.0S1'
        * 'M-304'
        * 'S200'
        * 'A0-CS2'
        * 'BA-101'
        * There are many other alphanumerical (including decimals and hyphens) combinations!
2. `sheet_title` (aka 'Plan Title', 'Drawing Title', or similar) is the name of each Drawing/Plan and is **found in the title block** on each page (image).
    * `sheet_title` hypothetical format/structure examples:
        * '2nd Floor Plan - Area A'
        * '1st Floor Reflected Ceiling Plan'
        * 'Mechanical Schedules'
        * 'Plan and Profile'
        * More examples below!
    * ALWAYS sanitize `sheet_title` data using a combination of the following '**SANITIZATION RULES (for `sheet_title` JSON output)**':
        1. Symbols & Punctuation:
            - '-' is the only symbol allowed in the final `sheet_title` data in the JSON output.
            - '/' and '\' in the document, become '-' in the JSON output.
            - '&' in the document, becomes 'and' in the JSON output.
            - ',', '.', and '#' in the document, are removed in the JSON output.
            - '(', ')', '[', ']', '{{', and '}}' in the document, are removed in the JSON output while keeping the enclosed text.
        2. VERY IMPORTANT (to avoid failure):
            - **ALWAYS convert `sheet_title` to 'Title Case'**.
            - **Never output `sheet_title` in ALL CAPS**.
        3. Using pattern " +:+ dq +:+
"*appearance in document* :: **sanitized data for JSON output**" +:+ dq +:+
" here are some real-world sanitization examples:
            - *Detached Garage #2 & #3 Enlarged Electrical Plans* :: **Detached Garage 2 and 3 Enlarged Electrical Plans**
            - *1st, 2nd, & 3rd Floor Bldg. Plans / Notes* :: **1st 2nd and 3rd Floor Bldg Plans - Notes**
            - *Grading and SESC Plan (1 of 6)* :: **Grading and Sesc Plan 1 of 6**
            - *3rd FLOOR BUILDING PLANS* :: **3rd Floor Building Plans**
            - *1st Floor Partial Bldg. Plans - Units \" +:+ dq +:+
"D8-H\" +:+ dq +:+
" & \" +:+ dq +:+
"T1-H\" +:+ dq +:+
"* :: **1st Floor Partial Bldg Plans - Units D8-H and T1-H**

</TERM_DEFINITIONS>

<TASK>
1. You will analyze the provided pages (images) page by page (image by image), sequentially, covering all {actual_total_pages} pages.
2. For each page (image), determine the corresponding `page_number` (starting from 1 for the first image and incrementing sequentially up to {actual_total_pages} ).
3. Extract the Sheet Number and Sheet Title by visually reading the TITLE BLOCK within each page (image), disregard most if not all of the body of the pages.
4. Your output **MUST** be a single JSON **object** conforming to the specified response schema.
5. This JSON object must contain:
    * `total_num_pages_all_parts`: The total number of pages. This **MUST** equal {actual_total_pages}.
    * `pages`: A JSON array containing exactly {actual_total_pages} objects, one for each page/image processed.
        * Each object in this array must contain the `page_number`, `sheet_number`, and `sheet_title` for that specific page/image.
</TASK>

<KEYS_TO_SUCCESS>

These are your KEYS TO SUCCESS:
1. **NEVER make assumptions**
2. Every sheet number/title in your output JSON will use **REAL DATA that you visually read/extracted from the page images**
3. Do not include any bullet points, numbering, or extra commentary outside the JSON structure.
4. The `pages` array **MUST** contain exactly {actual_total_pages} entries, ordered sequentially by `page_number` starting from 1 and ending at {actual_total_pages}.
5. Ensure the value for `total_num_pages_all_parts` **MUST** be exactly {actual_total_pages}.
6. The data will be consistently located from page to page in most cases aside from cover/title sheets and oddball documents.
7. The first page (`page_number` = 1), if it's a cover/title sheet or list of drawings, will always have `sheet_number` " +:+ dq +:+
"CS" +:+ dq +:+
" or " +:+ dq +:+
"TS" +:+ dq +:+
", and `sheet_title` of " +:+ dq +:+
"Cover Sheet" +:+ dq +:+
" or " +:+ dq +:+
"Title Sheet" +:+ dq +:+
".
8. Always output " +:+ dq +:+
"pretty-printed" +:+ dq +:+
" human-readable JSON.

</KEYS_TO_SUCCESS>".

Record AppConfig : Type := {
  BASE_OUTPUT_DIR : string;
  GEMINI_API_KEY : option string;
  GEMINI_MODEL_NAME : string;
  GEMINI_TEMPERATURE : Q;
  GS_RESOLUTION : Z;
  GS_IMAGE_FORMAT : string;
  GEMINI_SYSTEM_PROMPT_TEMPLATE : string
}.

(** The class attributes of [AppConfig], for an API key [key]. *)
Definition config_with_key (key : option string) : AppConfig :=
  {| BASE_OUTPUT_DIR := "/content/drive/MyDrive/Apr11-Sheet-Extraction/";
     GEMINI_API_KEY := key;
     GEMINI_MODEL_NAME := "gemini-2.5-pro-exp-03-25";
     GEMINI_TEMPERATURE := 0%Q;
     GS_RESOLUTION := 120;
     GS_IMAGE_FORMAT := "pnggray";
     GEMINI_SYSTEM_PROMPT_TEMPLATE := GEMINI_SYSTEM_PROMPT_TEMPLATE_text |}.

(** ** The orchestrator (cell 6): [process_pdf_workflow] *)

Section Workflow.
Context `{Env}.

(** [paths[k]] *)
Definition getitem (paths : gmap string string) (k : string) : M string :=
  match paths !! k with
  | Some v => ret v
  | None => raise (KeyError k)
  end.

(** The suite of the [try]. *)
Definition workflow_steps (input_pdf_path : string)
    (paths : gmap string string) (gs_path pdftk_path : string)
    (client : option Client) (config : AppConfig) : M string :=
  let* image_output_dir := getitem paths "image_output_dir" in
  let* image_paths :=
    pdf_to_images input_pdf_path image_output_dir gs_path
                  (GS_RESOLUTION config) (GS_IMAGE_FORMAT config) in
  let* ai_response_dict :=
    generate_bookmarks_ai client (GEMINI_MODEL_NAME config)
      (GEMINI_TEMPERATURE config) (GEMINI_SYSTEM_PROMPT_TEMPLATE config)
      image_paths ExtractedData in
  try_except
    (let* response_file_path := getitem paths "response_file_path" in
     write_text response_file_path (json_dumps ai_response_dict) ;;
     log INFO "Saved raw AI response JSON to ")
    (fun write_err => log WARNING "Could not write AI response file: ") ;;
  let* bookmark_file_path := getitem paths "bookmark_file_path" in
  let* success := convert_ai_response_to_pdftk ai_response_dict bookmark_file_path in
  if negb success
  then raise (RuntimeError
                "Failed to convert AI response to PDFtk bookmark format." None)
  else
  let* bookmark_data_path := getitem paths "bookmark_file_path" in
  let* output_pdf_path := getitem paths "final_output_path" in
  let* success :=
    apply_bookmarks pdftk_path input_pdf_path bookmark_data_path output_pdf_path in
  if negb success
  then raise (RuntimeError "Failed to apply PDFtk bookmarks to the PDF." None)
  else
  log INFO "Workflow completed successfully for " ;;
  getitem paths "final_output_path".

(** The [except Exception as e] clause: two log records and a bare [raise]. *)
Definition workflow_except (e : exn) : M string :=
  log ERROR "PDF processing workflow failed for " ;;
  log ERROR "Error details: " ;;
  raise e.

(** The suite of the [finally]. *)
Definition workflow_finally (temp_dir_to_clean : string) : M unit :=
  log INFO "Initiating cleanup for temporary directory: " ;;
  let* present := observe (os_path_exists temp_dir_to_clean) in
  if negb (String.eqb temp_dir_to_clean "") && present then
    try_except
      (os_call (EvRmtree temp_dir_to_clean) (shutil_rmtree temp_dir_to_clean) ;;
       log INFO "Successfully cleaned up temporary directory: ")
      (fun e =>
         if is_OSError e
         then log ERROR "Error during temporary directory cleanup "
         else raise e)
  else
    log INFO "Temporary directory does not exist or was already cleaned up.".

Definition process_pdf_workflow (input_pdf_path : string)
    (paths : gmap string string) (gs_path pdftk_path : string)
    (client : option Client) (config : AppConfig) : M string :=
  let* temp_dir_to_clean := getitem paths "temp_dir" in
  log INFO "Starting PDF processing workflow for: " ;;
  log INFO "Intermediate files will be stored in: " ;;
  getitem paths "final_output_path" ;;
  log INFO "Final output target: " ;;
  try_finally
    (try_except
       (workflow_steps input_pdf_path paths gs_path pdftk_path client config)
       workflow_except)
    (workflow_finally temp_dir_to_clean).

End Workflow.

(** ** The rest of the outside world

    What cells 3, 4 and 7 use beyond [Env]: the search of the [PATH], the
    platform, [pathlib], [uuid] and the [str] of a list of strings. *)

Class Host `{Env} : Type := {
  (** [shutil.which] *)
  shutil_which : string -> os_state -> option string;
  COLAB_ENV : bool;
  (** [sys.platform] *)
  sys_platform : string;
  (** [str(names)] for a list of strings *)
  str_list : list string -> string;
  (** [Path(name).stem] *)
  Path_stem : string -> string;
  (** [str(Path(a) / b)] *)
  Path_div : string -> string -> string;
  (** [uuid.uuid4().hex] *)
  uuid4_hex : os_state -> string * os_state
}.

(** [s.replace(old, new)] for one-character [old] and [new]. *)
Definition replace_char (old new : ascii) (s : string) : string :=
  PyStr.map (fun c => if Ascii.eqb c old then new else c) s.

Section Cells.
Context `{Host}.

(** ** Cell 3: [find_executable] *)

(** The [for name in common_names] loop: the first path found. *)
Fixpoint which_first (common_names : list string) : M (option string) :=
  match common_names with
  | [] => ret None
  | name :: rest =>
      let* path := observe (shutil_which name) in
      match path with
      | Some (String c p) => log INFO "" ;; ret (Some (String c p))
      | _ => which_first rest
      end
  end.

Definition install_package_of (tool_name : string) : option string :=
  if String.eqb tool_name "Ghostscript" then Some "ghostscript"
  else if String.eqb tool_name "PDFtk" then Some "pdftk-java"
  else None.

(** [common_names[0]] *)
Definition first_name (common_names : list string) : M string :=
  match common_names with
  | name :: _ => ret name
  | [] => raise (OtherException "IndexError" "list index out of range")
  end.

(** The [try] of the installation attempt.  It ends the function with a
    path ([inl]) or leaves an error message ([inr]). *)
Definition install_attempt (tool_name : string) (common_names : list string)
    (install_package : string) : M (string + string) :=
  try_except
    (check_run ["apt-get"; "update"; "-qq"] 520 ;;
     check_run ["apt-get"; "install"; "-y"; "-qq"; install_package] 580 ;;
     log INFO "Installation command for " ;;
     let* check_name :=
       if String.eqb tool_name "PDFtk" then ret "pdftk"
       else first_name common_names in
     let* path_after_install := observe (shutil_which check_name) in
     match path_after_install with
     | Some (String c p) => log INFO "" ;; ret (inl (String c p))
     | _ =>
         let error_msg :=
           tool_name +:+ " installation attempted (" +:+ install_package
           +:+ "), but executable '" +:+ check_name +:+ "' still not found." in
         log ERROR error_msg ;;
         ret (inr error_msg)
     end)
    (fun e =>
       match e with
       | TimeoutExpired _ _ =>
           log ERROR "Timeout during " ;;
           ret (inr ("Timeout occurred while trying to install "
                     +:+ tool_name +:+ "."))
       | CalledProcessError _ _ =>
           log ERROR "apt-get command failed during " ;;
           ret (inr ("Installation command failed for " +:+ tool_name +:+ "."))
       | _ =>
           log ERROR "Unexpected error during " ;;
           ret (inr ("An unexpected error occurred during " +:+ tool_name
                     +:+ " installation."))
       end).

Definition find_executable (tool_name : string) (common_names : list string)
  : M string :=
  log INFO "Searching for " ;;
  let* found := which_first common_names in
  match found with
  | Some path => ret path
  | None =>
      log WARNING "" ;;
      let error_msg :=
        "Required executable '" +:+ tool_name
        +:+ "' not found in system PATH using names: "
        +:+ str_list common_names +:+ "." in
      let* attempt :=
        if COLAB_ENV && PyStr.startswith "linux" sys_platform then
          match install_package_of tool_name with
          | Some install_package =>
              log WARNING "Attempting to install " ;;
              install_attempt tool_name common_names install_package
          | None => ret (inr error_msg)
          end
        else ret (inr error_msg) in
      match attempt with
      | inl path_after_install => ret path_after_install
      | inr error_msg =>
          log ERROR error_msg ;;
          raise (FileNotFoundError error_msg)
      end
  end.

(** ** Cell 4: [get_processing_paths] *)

Definition uuid4 : M string := fun st =>
  let (hex, st') := uuid4_hex st in (Ok hex, st', []).

Definition get_processing_paths (output_base_dir original_filename : string)
  : M (gmap string string) :=
  let safe_base_filename :=
    replace_char "." "_" (replace_char " " "_" (Path_stem original_filename)) in
  let* hex := uuid4 in
  let unique_id := PyStr.take 8 hex in
  let temp_dir :=
    Path_div output_base_dir
      ("processing_" +:+ safe_base_filename +:+ "_" +:+ unique_id) in
  let image_output_dir := Path_div temp_dir "images" in
  let response_file_path :=
    Path_div temp_dir (safe_base_filename +:+ "_response.json") in
  let bookmark_file_path :=
    Path_div temp_dir (safe_base_filename +:+ "_bookmarks.txt") in
  let final_output_filename := "Autobookmarked_" +:+ original_filename in
  let final_output_path := Path_div output_base_dir final_output_filename in
  try_except
    (os_call (EvMakedirs image_output_dir) (os_makedirs image_output_dir) ;;
     os_call (EvMakedirs output_base_dir) (os_makedirs output_base_dir) ;;
     log INFO "Created temporary processing directory for intermediates: ")
    (fun e =>
       if is_OSError e
       then log ERROR "Failed to create processing directories under " ;; raise e
       else raise e) ;;
  let paths : gmap string string :=
    <["temp_dir" := temp_dir]>
    (<["image_output_dir" := image_output_dir]>
    (<["response_file_path" := response_file_path]>
    (<["bookmark_file_path" := bookmark_file_path]>
    (<["final_output_path" := final_output_path]> ∅)))) in
  log INFO "Generated processing paths for '" ;;
  ret paths.

(** ** Cell 7: [handle_uploaded_pdf] *)

Definition handle_uploaded_pdf (uploaded_pdf_path : string) (config : AppConfig)
    (gs_path pdftk_path : string) (client : option Client) : M (option string) :=
  let original_filename := OsPath.basename uploaded_pdf_path in
  log INFO "--- Starting processing request for file: " ;;
  try_except
    (let* paths := get_processing_paths (BASE_OUTPUT_DIR config) original_filename in
     let* final_pdf_path :=
       process_pdf_workflow uploaded_pdf_path paths gs_path pdftk_path client
                            config in
     log INFO "Successfully processed '" ;;
     ret (Some final_pdf_path))
    (fun e =>
       log ERROR "Processing failed for '" ;;
       ret None).

End Cells.

(** ** A small executable world

    An implementation of [Env] on which the program can be run: a file
    system held in association lists, a JSON reader for documents without
    floats, a [str.format] for templates with plain named fields, and the
    two external tools and the extraction service given as scripts. *)

Module MiniJson.

Definition is_ws (c : ascii) : bool :=
  Ascii.eqb c " " || Ascii.eqb c "010" || Ascii.eqb c "009" || Ascii.eqb c "013".

Fixpoint skip_ws (s : string) : string :=
  match s with
  | String c s' => if is_ws c then skip_ws s' else s
  | EmptyString => EmptyString
  end.

(** The text after an opening quote: the string it holds and what follows
    the closing quote. *)
Fixpoint parse_string_body (s : string) : option (string * string) :=
  match s with
  | EmptyString => None
  | String c s' =>
      if Ascii.eqb c "034" then Some (EmptyString, s')
      else if Ascii.eqb c "\" then
        match s' with
        | String e s'' =>
            let d := if Ascii.eqb e "n" then Some "010"%char
                     else if Ascii.eqb e "t" then Some "009"%char
                     else if Ascii.eqb e "034" || Ascii.eqb e "\" || Ascii.eqb e "/"
                     then Some e else None in
            match d, parse_string_body s'' with
            | Some d, Some (r, rest) => Some (String d r, rest)
            | _, _ => None
            end
        | EmptyString => None
        end
      else
        match parse_string_body s' with
        | Some (r, rest) => Some (String c r, rest)
        | None => None
        end
  end.

(** [d[k] = v] *)
Fixpoint dict_set (k : string) (v : json) (d : list (string * json))
  : list (string * json) :=
  match d with
  | [] => [(k, v)]
  | (k', v') :: d' =>
      if String.eqb k' k then (k, v) :: d' else (k', v') :: dict_set k v d'
  end.

Definition parse_int (s : string) : option (json * string) :=
  let (neg, body) :=
    match s with
    | String "-" r => (true, r)
    | _ => (false, s)
    end in
  let (ds, rest) := span_digits body in
  match PyStr.to_N ds with
  | Some n => Some (JInt (if neg then - Z.of_N n else Z.of_N n), rest)
  | None => None
  end.

Fixpoint parse_value (fuel : nat) (s : string) : option (json * string) :=
  match fuel with
  | O => None
  | S f =>
      match skip_ws s with
      | String c r =>
          if Ascii.eqb c "{" then
            match skip_ws r with
            | String "}" r' => Some (JObj [], r')
            | _ => parse_members f r []
            end
          else if Ascii.eqb c "[" then
            match skip_ws r with
            | String "]" r' => Some (JArr [], r')
            | _ => parse_elements f r []
            end
          else if Ascii.eqb c "034" then
            match parse_string_body r with
            | Some (str, rest) => Some (JStr str, rest)
            | None => None
            end
          else if PyStr.startswith "true" (String c r)
          then Some (JBool true, PyStr.drop 4 (String c r))
          else if PyStr.startswith "false" (String c r)
          then Some (JBool false, PyStr.drop 5 (String c r))
          else if PyStr.startswith "null" (String c r)
          then Some (JNull, PyStr.drop 4 (String c r))
          else parse_int (String c r)
      | EmptyString => None
      end
  end
with parse_elements (fuel : nat) (s : string) (acc : list json)
  : option (json * string) :=
  match fuel with
  | O => None
  | S f =>
      match parse_value f s with
      | Some (v, rest) =>
          match skip_ws rest with
          | String "," rest' => parse_elements f rest' (acc ++ [v])
          | String "]" rest' => Some (JArr (acc ++ [v]), rest')
          | _ => None
          end
      | None => None
      end
  end
with parse_members (fuel : nat) (s : string) (acc : list (string * json))
  : option (json * string) :=
  match fuel with
  | O => None
  | S f =>
      match skip_ws s with
      | String "034" r =>
          match parse_string_body r with
          | Some (k, rest) =>
              match skip_ws rest with
              | String ":" rest' =>
                  match parse_value f rest' with
                  | Some (v, rest'') =>
                      match skip_ws rest'' with
                      | String "," r3 => parse_members f r3 (dict_set k v acc)
                      | String "}" r3 => Some (JObj (dict_set k v acc), r3)
                      | _ => None
                      end
                  | None => None
                  end
              | _ => None
              end
          | None => None
          end
      | _ => None
      end
  end.

Definition loads (s : string) : option json :=
  match parse_value (S (String.length s)) s with
  | Some (v, rest) =>
      match skip_ws rest with
      | EmptyString => Some v
      | _ => None
      end
  | None => None
  end.

(** A compact rendering, used for both [json.dumps] and the [str] of a
    container. *)
Fixpoint dumps (v : json) : string :=
  match v with
  | JNull => "null"
  | JBool true => "true"
  | JBool false => "false"
  | JInt n => PyStr.of_Z n
  | JFloat r => r
  | JStr s => dq +:+ s +:+ dq
  | JArr items =>
      "[" +:+ String.concat ", " (List.map dumps items) +:+ "]"
  | JObj fields =>
      "{" +:+ String.concat ", "
                (List.map (fun kv => dq +:+ fst kv +:+ dq +:+ ": " +:+ dumps (snd kv))
                          fields) +:+ "}"
  end.

End MiniJson.

Module World.

(** Files with their contents, directories, and the paths that [os.remove]
    and [shutil.rmtree] are refused on. *)
Record state : Type := {
  files : list (string * string);
  dirs : list string;
  locked : list string
}.

Definition mem (p : string) (l : list string) : bool := existsb (String.eqb p) l.

Fixpoint lookup (p : string) (fs : list (string * string)) : option string :=
  match fs with
  | [] => None
  | (q, c) :: fs' => if String.eqb q p then Some c else lookup p fs'
  end.

Definition exists_ (p : string) (st : state) : bool :=
  match lookup p (files st) with
  | Some _ => true
  | None => mem p (dirs st)
  end.

Definition getsize (p : string) (st : state) : os_result Z :=
  match lookup p (files st) with
  | Some c => OsOk (Z.of_nat (String.length c))
  | None => if mem p (dirs st) then OsOk 4096 else OsError "No such file or directory"
  end.

Fixpoint endswith (suffix s : string) : bool :=
  String.eqb suffix s ||
  match s with
  | String _ s' => endswith suffix s'
  | EmptyString => false
  end.

(** [glob.glob] for a pattern with one [*] in its last component. *)
Definition glob (pattern : string) (st : state) : list string :=
  let star := PyStr.find "*" pattern in
  let pre := PyStr.take (Z.to_nat star) pattern in
  let post := PyStr.drop (Z.to_nat (star + 1)) pattern in
  List.map fst
    (List.filter
       (fun f : string * string =>
          PyStr.startswith pre (fst f) && endswith post (fst f) &&
          String.eqb (OsPath.dirname (fst f)) (OsPath.dirname pattern))
       (files st)).

Definition put (p c : string) (st : state) : state :=
  {| files := List.filter (fun f : string * string => negb (String.eqb (fst f) p))
                          (files st) ++ [(p, c)];
     dirs := dirs st;
     locked := locked st |}.

Definition write (p c : string) (st : state) : os_result unit * state :=
  if String.eqb (OsPath.dirname p) "" || mem (OsPath.dirname p) (dirs st)
  then (OsOk tt, put p c st)
  else (OsError "No such file or directory", st).

Definition read (p : string) (st : state) : os_result string :=
  match lookup p (files st) with
  | Some c => OsOk c
  | None => OsError "No such file or directory"
  end.

Definition remove (p : string) (st : state) : os_result unit * state :=
  if mem p (locked st) then (OsError "Permission denied", st)
  else match lookup p (files st) with
       | Some _ =>
           (OsOk tt,
            {| files := List.filter
                          (fun f : string * string => negb (String.eqb (fst f) p))
                          (files st);
               dirs := dirs st;
               locked := locked st |})
       | None => (OsError "No such file or directory", st)
       end.

Definition makedirs (p : string) (st : state) : os_result unit * state :=
  if String.eqb p "" then (OsError "No such file or directory", st)
  else if mem p (dirs st) then (OsOk tt, st)
  else (OsOk tt, {| files := files st; dirs := dirs st ++ [p]; locked := locked st |}).

Definition under (d p : string) : bool :=
  String.eqb p d || PyStr.startswith (d +:+ "/") p.

Definition rmtree (d : string) (st : state) : os_result unit * state :=
  if mem d (locked st) then (OsError "Permission denied", st)
  else if mem d (dirs st) then
    (OsOk tt,
     {| files := List.filter (fun f : string * string => negb (under d (fst f)))
                             (files st);
        dirs := List.filter (fun p => negb (under d p)) (dirs st);
        locked := locked st |})
  else (OsError "No such file or directory", st).

(** Pillow reads the format from the first bytes of the file. *)
Definition image_format (p : string) (st : state) : option string :=
  match lookup p (files st) with
  | Some c =>
      if PyStr.startswith "PNG" c then Some "PNG"
      else if PyStr.startswith "JPEG" c then Some "JPEG"
      else None
  | None => None
  end.

Definition mime (fmt : string) : option string :=
  if String.eqb fmt "PNG" then Some "image/png"
  else if String.eqb fmt "JPEG" then Some "image/jpeg"
  else None.

(** [template.format(actual_total_pages=n)] for templates whose fields are
    plain names. *)
Fixpoint until_close (s : string) : option (string * string) :=
  match s with
  | EmptyString => None
  | String c s' =>
      if Ascii.eqb c "}" then Some (EmptyString, s')
      else match until_close s' with
           | Some (name, rest) => Some (String c name, rest)
           | None => None
           end
  end.

Fixpoint format_go (fuel : nat) (s : string) (n : Z) : result string :=
  match fuel with
  | O => Ok EmptyString
  | S f =>
      match s with
      | EmptyString => Ok EmptyString
      | String "{" (String "{" s') =>
          match format_go f s' n with
          | Ok r => Ok (String "{" r)
          | Raise e => Raise e
          end
      | String "}" (String "}" s') =>
          match format_go f s' n with
          | Ok r => Ok (String "}" r)
          | Raise e => Raise e
          end
      | String "{" s' =>
          match until_close s' with
          | Some (name, rest) =>
              if String.eqb name "actual_total_pages" then
                match format_go f rest n with
                | Ok r => Ok (PyStr.of_Z n +:+ r)
                | Raise e => Raise e
                end
              else Raise (KeyError name)
          | None => Raise (ValueError "expected '}' before end of string" None)
          end
      | String "}" _ =>
          Raise (ValueError "Single '}' encountered in format string" None)
      | String c s' =>
          match format_go f s' n with
          | Ok r => Ok (String c r)
          | Raise e => Raise e
          end
      end
  end.

Definition format (template : string) (n : Z) : result string :=
  format_go (S (String.length template)) template n.

(** The world, for a script [tool] of the external programs and a script
    [service] of the extraction service. *)
Definition env
    (tool : list string -> state -> proc_outcome * state)
    (service : list Part -> GenerateContentConfig -> gen_outcome) : Env :=
  {| os_state := state;
     Client := unit;
     os_path_exists := exists_;
     os_path_getsize := getsize;
     glob_glob := glob;
     subprocess_run := fun command _ st => tool command st;
     open_write := write;
     open_read := read;
     os_remove := remove;
     os_makedirs := makedirs;
     shutil_rmtree := rmtree;
     Image_open_format := image_format;
     Image_MIME_get := mime;
     generate_content := fun _ _ contents config st => (service contents config, st);
     json_loads := MiniJson.loads;
     json_dumps := MiniJson.dumps;
     str_format := format;
     str_container := MiniJson.dumps |}.

(** A Ghostscript that writes one image per page number of [pages], in
    that order, into [output_dir]. *)
Definition ghostscript (output_dir : string) (pages : list N) (st : state)
  : proc_outcome * state :=
  (Completed 0 "" "",
   fold_left
     (fun st k =>
        put (page_image_path output_dir "png" k) ("PNG page " +:+ PyStr.of_N k) st)
     pages st).

(** A PDFtk that exits with [returncode] after writing [output] (when
    given) to the path that ends its command line. *)
Definition pdftk (returncode : Z) (output : option string)
    (command : list string) (st : state) : proc_outcome * state :=
  (Completed returncode "" "",
   match output with
   | Some c => put (List.last command "") c st
   | None => st
   end).

(** The two tools behind one [subprocess.run]: the command is Ghostscript's
    when it starts with [gs]. *)
Definition tools (gs : state -> proc_outcome * state)
    (tk : list string -> state -> proc_outcome * state)
    (command : list string) (st : state) : proc_outcome * state :=
  match command with
  | "gs" :: _ => gs st
  | _ => tk command st
  end.

End World.

(** ** The vocabulary of the statements *)

(** The errors of the parsing block: the [ValueError] it raises itself and
    the [JSONDecodeError] of [json.loads]. *)
Definition is_parse_error (e : exn) : bool :=
  match e with
  | ValueError _ _ | JSONDecodeError _ => true
  | _ => false
  end.

(** One block of PDFtk's bookmark format, by its three fields. *)
Definition pdftk_block (title : string) (bookmark_level page : Z) : string :=
  "BookmarkBegin" +:+ nl +:+
  "BookmarkTitle: " +:+ title +:+ nl +:+
  "BookmarkLevel: " +:+ PyStr.of_Z bookmark_level +:+ nl +:+
  "BookmarkPageNumber: " +:+ PyStr.of_Z page +:+ nl +:+ nl.

(** [page_detail] is a dictionary that holds the integer [page_number], and
    holds the strings [sheet_number] and [sheet_title] unless they are
    [None], in which case it lacks the key. *)
Definition page_record (page_detail : json)
    (r : Z * option string * option string) : Prop :=
  let '(page_number, sheet_number, sheet_title) := r in
  exists d,
    page_detail = JObj d /\
    Dict.get "page_number" d = Some (JInt page_number) /\
    Dict.get "sheet_number" d = JStr <$> sheet_number /\
    Dict.get "sheet_title" d = JStr <$> sheet_title.

(** The block of a page record: the title from its sheet number and sheet
    title, level 1, and its page number. *)
Definition block_of_record (r : Z * option string * option string) : string :=
  let '(page_number, sheet_number, sheet_title) := r in
  pdftk_block (default "MISSING_SHEET_NUM" sheet_number +:+ " " +:+
               default "MISSING_SHEET_TITLE" sheet_title)
              1 page_number.

(** The run [x] after the events [pre]. *)
Definition after {A} `{Env} (pre : list event)
    (x : result A * os_state * list event) : result A * os_state * list event :=
  (x.1.1, x.1.2, pre ++ x.2).

Definition is_log (ev : event) : Prop :=
  match ev with
  | EvLog _ _ => True
  | _ => False
  end.

(** A request for content states, through the rendered template, the page
    count [n], and carries at most [n] parts. *)
Definition declares_input_length `{Env} (template : string) (n : nat)
    (ev : event) : Prop :=
  match ev with
  | EvGenerateContent _ contents config =>
      str_format template (Z.of_nat n) = Ok (cfg_system_instruction config) /\
      (length contents <= n)%nat
  | _ => True
  end.

Definition is_remove (ev : event) : bool :=
  match ev with
  | EvRemove _ => true
  | _ => false
  end.

(** The first record of the [finally] suite. *)
Definition starts_cleanup (ev : event) : bool :=
  match ev with
  | EvLog _ msg => String.eqb msg "Initiating cleanup for temporary directory: "
  | _ => false
  end.

Definition is_rmtree (ev : event) : bool :=
  match ev with
  | EvRmtree _ => true
  | _ => false
  end.

(** An event of the teardown. *)
Definition is_teardown (ev : event) : bool := starts_cleanup ev || is_rmtree ev.

(** An event that does not belong to the teardown. *)
Definition quiet (ev : event) : Prop := is_teardown ev = false.

(** Every event of [m], from whatever state it runs, satisfies [P]. *)
Definition emits `{Env} {A} (P : event -> Prop) (m : M A) : Prop :=
  forall st, Forall P (events (m st)).

(** ** Scenarios

    Concrete runs in the executable world. *)

(** Ghostscript writes pages 10, 2, 12, 1, ... of a twelve-page PDF, in
    that order. *)
Definition gs_state : World.state :=
  {| World.files := [("/up/x.pdf", "%PDF")];
     World.dirs := ["/out"; "/out/job"; "/out/job/images"];
     World.locked := [] |}.

Definition gs_env : Env :=
  World.env
    (World.tools
       (World.ghostscript "/out/job/images" [10; 2; 12; 1; 11; 3; 9; 4; 8; 5; 7; 6]%N)
       (World.pdftk 0 None))
    (fun _ _ => GenResponse None).

(** The world of the parsing examples: no tool runs, the service is silent. *)
Definition quiet_env : Env :=
  World.env (fun _ st => (SpawnFailed "no tool", st)) (fun _ _ => GenResponse None).

Definition empty_state : World.state :=
  {| World.files := []; World.dirs := []; World.locked := [] |}.

(** A fenced response: [```json {"pages": []} ```]. *)
Definition fenced_core : string :=
  "{" +:+ dq +:+ "pages" +:+ dq +:+ ": []}".

(** Three page records: complete, without sheet number, without title. *)
Definition three_records : list (Z * option string * option string) :=
  [ (1, Some "A-101", Some "First Floor Plan");
    (2, None, Some "Roof Plan");
    (3, Some "A-103", None) ].

Definition three_pages : list json :=
  [ JObj [("page_number", JInt 1); ("sheet_number", JStr "A-101");
          ("sheet_title", JStr "First Floor Plan")];
    JObj [("page_number", JInt 2); ("sheet_title", JStr "Roof Plan")];
    JObj [("sheet_number", JStr "A-103"); ("page_number", JInt 3)] ].

Definition bookmark_state : World.state :=
  {| World.files := []; World.dirs := ["/out"; "/out/job"]; World.locked := [] |}.

(** Three images handed to the extraction step: the first is a PNG, the
    second is no image at all, the third does not exist. *)
Definition two_dropped_state : World.state :=
  {| World.files := [("/img/page_0001.png", "PNG page 1");
                     ("/img/page_0002.png", "not an image")];
     World.dirs := ["/img"];
     World.locked := [] |}.

Definition three_image_paths : list string :=
  ["/img/page_0001.png"; "/img/page_0002.png"; "/img/page_0003.png"].

(** A service that answers every request with [text]. *)
Definition answering (text : string) : Env :=
  World.env (fun _ st => (SpawnFailed "no tool", st))
            (fun _ _ => GenResponse (Some text)).

Definition page_json (page_number : Z) : json :=
  JObj [("page_number", JInt page_number); ("sheet_number", JStr "A-1");
        ("sheet_title", JStr "Plan")].

(** A response that declares four pages and lists pages 1, 2, 3. *)
Definition declares_four_lists_three : json :=
  JObj [("total_num_pages_all_parts", JInt 4);
        ("pages", JArr [page_json 1; page_json 2; page_json 3])].

(** A response for four pages whose page numbers are 1, 2, 2, 4. *)
Definition numbers_1_2_2_4 : json :=
  JObj [("total_num_pages_all_parts", JInt 4);
        ("pages", JArr [page_json 1; page_json 2; page_json 2; page_json 4])].

Definition fenced (v : json) : string :=
  "```json" +:+ nl +:+ MiniJson.dumps v +:+ nl +:+ "```".

Definition images_state (n : nat) : World.state :=
  {| World.files :=
       map (fun k => (page_image_path "/img" "png" (N.of_nat k), "PNG"))
           (seq 1 n);
     World.dirs := ["/img"];
     World.locked := [] |}.

Definition image_paths_of (n : nat) : list string :=
  map (fun k => page_image_path "/img" "png" (N.of_nat k)) (seq 1 n).

Definition apply_state : World.state :=
  {| World.files := [("/up/x.pdf", "%PDF"); ("/out/job/x_bookmarks.txt", "")];
     World.dirs := ["/up"; "/out"; "/out/job"];
     World.locked := [] |}.

(** The same, with the output path protected against removal. *)
Definition apply_state_locked : World.state :=
  {| World.files := World.files apply_state;
     World.dirs := World.dirs apply_state;
     World.locked := ["/out/Autobookmarked_x.pdf"] |}.

(** A world whose PDFtk exits with [returncode] after writing [output]. *)
Definition pdftk_env (returncode : Z) (output : option string) : Env :=
  World.env (World.pdftk returncode output) (fun _ _ => GenResponse None).

(** [apply_bookmarks] run from the state [st]. *)
Definition apply_run (returncode : Z) (output : option string) (st : World.state) :=
  @apply_bookmarks (pdftk_env returncode output) "pdftk" "/up/x.pdf"
    "/out/job/x_bookmarks.txt" "/out/Autobookmarked_x.pdf" st.

Definition job_paths : gmap string string :=
  <["temp_dir" := "/out/job"]>
  (<["image_output_dir" := "/out/job/images"]>
  (<["response_file_path" := "/out/job/x_response.json"]>
  (<["bookmark_file_path" := "/out/job/x_bookmarks.txt"]>
  (<["final_output_path" := "/out/Autobookmarked_x.pdf"]> ∅)))).

Definition job_state : World.state :=
  {| World.files := [("/up/x.pdf", "%PDF")];
     World.dirs := ["/up"; "/out"; "/out/job"; "/out/job/images"];
     World.locked := [] |}.

(** The same, with the temporary directory protected against removal. *)
Definition job_state_locked : World.state :=
  {| World.files := World.files job_state;
     World.dirs := World.dirs job_state;
     World.locked := ["/out/job"] |}.

(** A complete response for three pages. *)
Definition three_page_response : json :=
  JObj [("total_num_pages_all_parts", JInt 3);
        ("pages", JArr [page_json 1; page_json 2; page_json 3])].

(** A job whose Ghostscript is [gs], whose PDFtk exits with [returncode]
    after writing [output], and whose service returns the response above. *)
Definition job_env (gs : World.state -> proc_outcome * World.state)
    (returncode : Z) (output : option string) : Env :=
  World.env (World.tools gs (World.pdftk returncode output))
            (fun _ _ => GenResponse (Some (fenced three_page_response))).

Definition gs_three_pages : World.state -> proc_outcome * World.state :=
  World.ghostscript "/out/job/images" [3; 1; 2]%N.

Definition gs_exits_one (st : World.state) : proc_outcome * World.state :=
  (Completed 1 "" "Error: /undefinedfilename", st).

Definition job_config : AppConfig := config_with_key (Some "key").

(** The job run from the state [st]. *)
Definition job_run (gs : World.state -> proc_outcome * World.state)
    (returncode : Z) (output : option string) (st : World.state) :=
  @process_pdf_workflow (job_env gs returncode output) "/up/x.pdf" job_paths
    "gs" "pdftk" (Some tt) job_config st.

(** ** Vocabulary and scenarios of the further properties *)

(** A call of an external program. *)
Definition is_run (ev : event) : bool :=
  match ev with
  | EvRun _ => true
  | _ => false
  end.

(** A request to the extraction service. *)
Definition is_request (ev : event) : bool :=
  match ev with
  | EvGenerateContent _ _ _ => true
  | _ => false
  end.

(** The messages of [pdf_to_images]. *)
Definition no_images_error (glob_pattern : string) : exn :=
  RuntimeError
    ("Ghostscript ran successfully but no images found matching pattern '"
     +:+ glob_pattern +:+ "'. Check GS logs or input PDF.") None.

Definition unexpected_conversion_error (pdf_path : string) (cause : exn) : exn :=
  RuntimeError
    ("Unexpected error during image conversion for " +:+ OsPath.basename pdf_path)
    (Some cause).

(** What [pdf_to_images] raises for a Ghostscript that ended as [r] when run
    as [command]: nothing for the exit code zero; for another exit code the
    "conversion failed" error, caused by the [CalledProcessError]; for a
    timeout the "timed out" error, without cause; for a Ghostscript that
    could not be started the "unexpected error", caused by the [OSError]. *)
Definition ghostscript_failure (pdf_path : string) (command : list string)
    (r : proc_outcome) : option exn :=
  match r with
  | Completed rc _ _ =>
      if rc =? 0 then None
      else Some (RuntimeError
                   ("Ghostscript conversion failed for " +:+ OsPath.basename pdf_path)
                   (Some (CalledProcessError rc command)))
  | TimedOut =>
      Some (RuntimeError
              ("Ghostscript timed out for " +:+ OsPath.basename pdf_path) None)
  | SpawnFailed e => Some (unexpected_conversion_error pdf_path (OSError e))
  end.

(** The conversion of the twelve-page PDF of [gs_state]. *)
Definition gs_run :=
  @pdf_to_images gs_env "/up/x.pdf" "/out/job/images" "gs" 120 "pnggray" gs_state.

(** A world whose every external program behaves as [tool]. *)
Definition tool_env (tool : World.state -> proc_outcome * World.state) : Env :=
  World.env (fun _ => tool) (fun _ _ => GenResponse None).

(** The same conversion with [tool] in the place of Ghostscript. *)
Definition conversion_run (tool : World.state -> proc_outcome * World.state) :=
  @pdf_to_images (tool_env tool) "/up/x.pdf" "/out/job/images" "gs" 120 "pnggray"
    gs_state.

Definition exits_zero (st : World.state) : proc_outcome * World.state :=
  (Completed 0 "" "", st).

Definition times_out (st : World.state) : proc_outcome * World.state :=
  (TimedOut, st).

(** The errors of [generate_bookmarks_ai]. *)
Definition preparation_failed (cause : exn) : exn :=
  RuntimeError "Failed during image preparation for AI." (Some cause).

Definition no_valid_parts : exn :=
  RuntimeError "No valid image parts could be prepared for the API call." None.

Definition interaction_failed (cause : exn) : exn :=
  RuntimeError "Gemini API interaction or response processing failed." (Some cause).

Definition no_text_content : exn :=
  RuntimeError
    "Gemini API returned no text content. It might have been blocked or empty." None.

(** The configuration [generate_bookmarks_ai] builds for the rendered
    [prompt]. *)
Definition request_config (temperature : Q) (response_schema : response_schema_t)
    (prompt : string) : GenerateContentConfig :=
  {| cfg_temperature := temperature;
     cfg_response_mime_type := "application/json";
     cfg_response_schema := response_schema;
     cfg_system_instruction := prompt |}.

(** [path] is dropped by the image loop in the state [st]: it does not
    exist, or its type cannot be identified. *)
Definition dropped `{Env} (st : os_state) (path : string) : Prop :=
  os_path_exists path st = false \/ mime_type_of path st = None.

(** [path] gives the part [part] in the state [st]. *)
Definition gives_part `{Env} (st : os_state) (path : string) (part : Part) : Prop :=
  os_path_exists path st = true /\
  mime_type_of path st = Some (part_mime_type part) /\
  open_read path st = OsOk (part_data part).

(** [path] exists and is identified in the state [st], and cannot be read. *)
Definition unreadable `{Env} (st : os_state) (path : string) : Prop :=
  os_path_exists path st = true /\
  mime_type_of path st <> None /\
  exists e, open_read path st = OsError e.

(** What an answer without text amounts to: the exception of the call, or
    the error raised for a missing or empty text. *)
Definition answer_error (answer : gen_outcome) : option exn :=
  match answer with
  | GenRaised e => Some e
  | GenResponse None | GenResponse (Some "") => Some no_text_content
  | GenResponse (Some _) => None
  end.

(** The world of [quiet_env] with files that cannot be opened for
    reading. *)
Definition unreadable_env : Env :=
  {| os_state := World.state;
     Client := unit;
     os_path_exists := World.exists_;
     os_path_getsize := World.getsize;
     glob_glob := World.glob;
     subprocess_run := fun _ _ st => (SpawnFailed "no tool", st);
     open_write := World.write;
     open_read := fun _ _ => OsError "Permission denied";
     os_remove := World.remove;
     os_makedirs := World.makedirs;
     shutil_rmtree := World.rmtree;
     Image_open_format := World.image_format;
     Image_MIME_get := World.mime;
     generate_content := fun _ _ _ _ st => (GenResponse None, st);
     json_loads := MiniJson.loads;
     json_dumps := MiniJson.dumps;
     str_format := World.format;
     str_container := MiniJson.dumps |}.

(** A world without tools whose service gives [answer] to every request. *)
Definition answer_env (answer : gen_outcome) : Env :=
  World.env (fun _ st => (SpawnFailed "no tool", st)) (fun _ _ => answer).

(** The extraction step in that world, for a template of three words. *)
Definition extraction_run (answer : gen_outcome) (image_paths : list string)
    (st : World.state) :=
  @generate_bookmarks_ai (answer_env answer) (Some tt) "gemini" 0%Q
    "{actual_total_pages} pages" image_paths ExtractedData st.

(** The same where files cannot be opened. *)
Definition unreadable_run (image_paths : list string) (st : World.state) :=
  @generate_bookmarks_ai unreadable_env (Some tt) "gemini" 0%Q
    "{actual_total_pages} pages" image_paths ExtractedData st.

Definition png_part : Part := {| part_data := "PNG"; part_mime_type := "image/png" |}.

(** [page_detail] is a dictionary with the key [page_number]. *)
Definition has_page_number (page_detail : json) : bool :=
  match page_detail with
  | JObj d =>
      match Dict.get "page_number" d with
      | Some _ => true
      | None => false
      end
  | _ => false
  end.

(** A call on the outside world, as opposed to a log record. *)
Definition is_action (ev : event) : bool :=
  match ev with
  | EvLog _ _ => false
  | _ => true
  end.

Definition is_write (ev : event) : bool :=
  match ev with
  | EvWrite _ _ => true
  | _ => false
  end.

(** Five entries of a response: a complete one, one without page number,
    one that is no dictionary, and two more complete ones. *)
Definition five_entries : list json :=
  [ JObj [("page_number", JInt 1); ("sheet_number", JStr "A-101");
          ("sheet_title", JStr "First Floor Plan")];
    JObj [("sheet_number", JStr "A-102"); ("sheet_title", JStr "Lost Plan")];
    JStr "page 3";
    JObj [("page_number", JInt 2); ("sheet_title", JStr "Roof Plan")];
    JObj [("sheet_number", JStr "A-103"); ("page_number", JInt 3)] ].

(** The conversion of the response [response_data] in a world where the
    directory of the bookmark file exists. *)
Definition convert_run (response_data : json) :=
  @convert_ai_response_to_pdftk quiet_env response_data "/out/job/x_bookmarks.txt"
    bookmark_state.

(** A call of an external program or of the extraction service. *)
Definition is_call (ev : event) : bool := is_run ev || is_request ev.

(** The number of events of [l] that satisfy [f]. *)
Definition count_events (f : event -> bool) (l : list event) : nat :=
  length (List.filter f l).

(** No run of [m] has more than [n] events that satisfy [f]. *)
Definition at_most `{Env} {A} (f : event -> bool) (n : nat) (m : M A) : Prop :=
  forall st, (count_events f (events (m st)) <= n)%nat.

(** No event of [m] satisfies [f]. *)
Definition never `{Env} {A} (f : event -> bool) (m : M A) : Prop :=
  emits (fun ev => f ev = false) m.

(** ** A host for the executable world

    [shutil.which] finds the programs of [/usr/bin]; [pathlib] is given for
    names and paths without redundant separators; the random identifier is
    a constant. *)

Module HostWorld.

Definition which (name : string) (st : World.state) : option string :=
  if World.exists_ ("/usr/bin/" +:+ name) st
  then Some ("/usr/bin/" +:+ name)
  else None.

(** [str] of a list of strings without quotes or escapes. *)
Definition quoted_list (names : list string) : string :=
  "[" +:+ String.concat ", " (map (fun s => "'" +:+ s +:+ "'") names) +:+ "]".

Definition stem (name : string) : string :=
  let base := OsPath.basename name in
  let dot := PyStr.rfind "." base in
  if dot >? 0 then PyStr.take (Z.to_nat dot) base else base.

Definition host (E : Env) (which : string -> @os_state E -> option string)
    (colab : bool) (platform hex : string) : @Host E :=
  {| shutil_which := which;
     COLAB_ENV := colab;
     sys_platform := platform;
     str_list := quoted_list;
     Path_stem := stem;
     Path_div := OsPath.join;
     uuid4_hex := fun st => (hex, st) |}.

End HostWorld.

(** The job of [job_run] as [handle_uploaded_pdf] sets it up for the upload
    [/up/x.pdf], with the output directory [/out]. *)
Definition upload_config : AppConfig :=
  {| BASE_OUTPUT_DIR := "/out";
     GEMINI_API_KEY := Some "key";
     GEMINI_MODEL_NAME := GEMINI_MODEL_NAME job_config;
     GEMINI_TEMPERATURE := GEMINI_TEMPERATURE job_config;
     GS_RESOLUTION := GS_RESOLUTION job_config;
     GS_IMAGE_FORMAT := GS_IMAGE_FORMAT job_config;
     GEMINI_SYSTEM_PROMPT_TEMPLATE := GEMINI_SYSTEM_PROMPT_TEMPLATE job_config |}.

Definition upload_images : string := "/out/processing_x_0123abcd/images".

Definition upload_env (gs : World.state -> proc_outcome * World.state) : Env :=
  job_env gs 0 (Some "%PDF-1.7 with outline").

Definition upload_host (gs : World.state -> proc_outcome * World.state)
  : @Host (upload_env gs) :=
  HostWorld.host (upload_env gs) HostWorld.which false "linux"
    "0123abcd4567ef0189ab0123abcd4567".

Definition upload_state : World.state :=
  {| World.files := [("/up/x.pdf", "%PDF")];
     World.dirs := ["/up"];
     World.locked := [] |}.

Definition upload_paths_run :=
  @get_processing_paths (upload_env gs_exits_one) (upload_host gs_exits_one)
    "/out" "x.pdf" upload_state.

Definition upload_run (gs : World.state -> proc_outcome * World.state) :=
  @handle_uploaded_pdf (upload_env gs) (upload_host gs) "/up/x.pdf" upload_config
    "gs" "pdftk" (Some tt) upload_state.

(** The dictionary made for the upload [x.pdf]. *)
Definition job_upload_paths : gmap string string :=
  <["temp_dir" := "/out/processing_x_0123abcd"]>
  (<["image_output_dir" := "/out/processing_x_0123abcd/images"]>
  (<["response_file_path" := "/out/processing_x_0123abcd/x_response.json"]>
  (<["bookmark_file_path" := "/out/processing_x_0123abcd/x_bookmarks.txt"]>
  (<["final_output_path" := "/out/Autobookmarked_x.pdf"]> ∅)))).

(** [shutil.which] finds nothing under [name] in the state [st]: it returns
    [None], or a path that is empty and so counts as not found. *)
Definition not_found `{Host} (st : os_state) (name : string) : Prop :=
  shutil_which name st = None \/ shutil_which name st = Some "".

(** The two commands of the installation attempt. *)
Definition apt_get_update : list string := ["apt-get"; "update"; "-qq"].

Definition apt_get_install (install_package : string) : list string :=
  ["apt-get"; "install"; "-y"; "-qq"; install_package].

(** The message for an [apt-get] that did not end with exit code zero. *)
Definition install_failure_message (tool_name : string) (r : proc_outcome)
  : string :=
  match r with
  | Completed _ _ _ => "Installation command failed for " +:+ tool_name +:+ "."
  | TimedOut => "Timeout occurred while trying to install " +:+ tool_name +:+ "."
  | SpawnFailed _ =>
      "An unexpected error occurred during " +:+ tool_name +:+ " installation."
  end.

Definition exited_zero (r : proc_outcome) : bool :=
  match r with
  | Completed rc _ _ => rc =? 0
  | _ => false
  end.

(** The record logged for it. *)
Definition install_failure_record (r : proc_outcome) : string :=
  match r with
  | Completed _ _ _ => "apt-get command failed during "
  | TimedOut => "Timeout during "
  | SpawnFailed _ => "Unexpected error during "
  end.

(** The name searched for after the installation: [pdftk] for PDFtk, the
    first of [common_names] for any other tool. *)
Definition name_after_install (tool_name : string) (common_names : list string)
  : option string :=
  if String.eqb tool_name "PDFtk" then Some "pdftk" else head common_names.

Definition still_not_found (tool_name install_package check_name : string)
  : string :=
  tool_name +:+ " installation attempted (" +:+ install_package
  +:+ "), but executable '" +:+ check_name +:+ "' still not found.".

Definition not_in_path `{Host} (tool_name : string) (common_names : list string)
  : string :=
  "Required executable '" +:+ tool_name
  +:+ "' not found in system PATH using names: "
  +:+ str_list common_names +:+ ".".

(** An [apt-get] whose [install] puts a program at the path [installed],
    when one is given. *)
Definition apt_get (installed : option string) (command : list string)
    (st : World.state) : proc_outcome * World.state :=
  match command with
  | "apt-get" :: "install" :: _ =>
      (Completed 0 "" "",
       match installed with
       | Some p => World.put p "ELF" st
       | None => st
       end)
  | _ => (Completed 0 "" "", st)
  end.

Definition colab_env (installed : option string) : Env :=
  World.env (apt_get installed) (fun _ _ => GenResponse None).

(** A host that is Colab on Linux, or a desktop. *)
Definition colab_host (installed : option string) (colab : bool)
  : @Host (colab_env installed) :=
  HostWorld.host (colab_env installed) HostWorld.which colab "linux"
    "0123abcd4567ef0189ab0123abcd4567".

(** The search for Ghostscript under its two names. *)
Definition find_gs_run (installed : option string) (colab : bool)
    (st : World.state) :=
  @find_executable (colab_env installed) (colab_host installed colab)
    "Ghostscript" ["gs"; "gswin64c"] st.

(** A machine with the Windows name of Ghostscript on its path. *)
Definition gswin_state : World.state :=
  {| World.files := [("/usr/bin/gswin64c", "ELF")];
     World.dirs := ["/usr/bin"];
     World.locked := [] |}.

(** Colab with an [apt-get] that exits with code one. *)
Definition broken_apt_host : @Host (tool_env gs_exits_one) :=
  HostWorld.host (tool_env gs_exits_one) HostWorld.which true "linux"
    "0123abcd4567ef0189ab0123abcd4567".

Definition broken_apt_run :=
  @find_executable (tool_env gs_exits_one) broken_apt_host "PDFtk" ["pdftk"]
    empty_state.

(** * Properties *)

(** ** Strings and paths *)

Lemma rfind_lower c s : -1 <= PyStr.rfind c s.
Proof.
  induction s as [|a s IH]; simpl; [lia|].
  destruct (PyStr.rfind c s =? -1); [destruct (Ascii.eqb a c)|]; lia.
Qed.

Lemma find_lower c s : -1 <= PyStr.find c s.
Proof.
  induction s as [|a s IH]; simpl; [lia|].
  destruct (Ascii.eqb a c); [lia|].
  destruct (PyStr.find c s =? -1); lia.
Qed.

Lemma rfind_app_absent c a b :
  PyStr.rfind c b = -1 -> PyStr.rfind c (a +:+ b) = PyStr.rfind c a.
Proof.
  intros Hb. induction a as [|x a IH]; simpl; [done|]. by rewrite IH.
Qed.

Lemma rfind_absent_all f c s :
  PyStr.all f s = true -> f c = false -> PyStr.rfind c s = -1.
Proof.
  intros Hs Hc. induction s as [|a s IH]; simpl in *; [done|].
  apply andb_true_iff in Hs as [Ha Hs]. rewrite (IH Hs). simpl.
  destruct (Ascii.eqb_spec a c) as [->|]; [congruence|done].
Qed.

Lemma rfind_endswith c a :
  OsPath.endswith_char c a = true ->
  PyStr.rfind c a = Z.of_nat (String.length a) - 1.
Proof.
  induction a as [|x a IH]; [done|].
  destruct a as [|y a].
  - simpl. intros ->. done.
  - intros Hend. change (OsPath.endswith_char c (String y a) = true) in Hend.
    specialize (IH Hend).
    change (PyStr.rfind c (String x (String y a)))
      with (let r := PyStr.rfind c (String y a) in
            if r =? -1 then (if Ascii.eqb x c then 0 else -1) else r + 1).
    cbv zeta. rewrite IH.
    change (String.length (String x (String y a)))
      with (S (String.length (String y a))).
    destruct (Z.eqb_spec (Z.of_nat (String.length (String y a)) - 1) (-1)) as [E|E].
    + simpl in E. lia.
    + lia.
Qed.

Lemma str_drop_app a b : PyStr.drop (String.length a) (a +:+ b) = b.
Proof. induction a as [|x a IH]; [by destruct b|exact IH]. Qed.

Lemma str_append_assoc (a b c : string) : (a +:+ b) +:+ c = a +:+ (b +:+ c).
Proof. induction a as [|x a IH]; simpl; [done|by rewrite IH]. Qed.

Lemma str_length_append (a b : string) :
  String.length (a +:+ b) = (String.length a + String.length b)%nat.
Proof. induction a as [|x a IH]; simpl; [done|by rewrite IH]. Qed.

Lemma endswith_char_snoc c a : OsPath.endswith_char c (a +:+ String c "") = true.
Proof.
  induction a as [|x a IH]; simpl; [apply Ascii.eqb_refl|].
  destruct (a +:+ String c "") eqn:E; [by destruct a|exact IH].
Qed.

Lemma basename_after_sep a b :
  PyStr.rfind "/" b = -1 ->
  a = "" \/ OsPath.endswith_char "/" a = true ->
  OsPath.basename (a +:+ b) = b.
Proof.
  intros Hb Ha. unfold OsPath.basename. rewrite rfind_app_absent by done.
  destruct Ha as [->|Ha].
  - done.
  - rewrite (rfind_endswith _ _ Ha).
    replace (Z.to_nat (Z.of_nat (String.length a) - 1 + 1))
      with (String.length a) by lia.
    apply str_drop_app.
Qed.

Lemma startswith_sep_rfind b :
  PyStr.rfind "/" b = -1 -> PyStr.startswith "/" b = false.
Proof.
  destruct b as [|x b]; [done|].
  cbn [PyStr.rfind PyStr.startswith].
  pose proof (rfind_lower "/" b).
  rewrite (Ascii.eqb_sym "/" x).
  destruct (PyStr.rfind "/" b =? -1) eqn:E.
  - destruct (Ascii.eqb x "/"); [intros [=]|done].
  - apply Z.eqb_neq in E. lia.
Qed.

(** The base name of a file joined to a directory is the file's name. *)
Lemma basename_join dir name :
  PyStr.rfind "/" name = -1 -> OsPath.basename (OsPath.join dir name) = name.
Proof.
  intros Hn. unfold OsPath.join. rewrite (startswith_sep_rfind _ Hn).
  destruct (String.eqb_spec dir "") as [->|Hd]; cbn [orb].
  - by apply basename_after_sep; [|left].
  - destruct (OsPath.endswith_char "/" dir) eqn:E.
    + by apply basename_after_sep; [|right].
    + rewrite <- str_append_assoc. apply basename_after_sep; [done|right].
      apply endswith_char_snoc.
Qed.

(** ** Page numbers in file names *)

Lemma digits_of_uint d : PyStr.all PyStr.is_digit (NilEmpty.string_of_uint d) = true.
Proof. induction d; simpl; auto. Qed.

Lemma all_append f a b :
  PyStr.all f (a +:+ b) = PyStr.all f a && PyStr.all f b.
Proof.
  induction a as [|x a IH]; simpl; [done|]. by rewrite IH, andb_assoc.
Qed.

Lemma zeros_digits n :
  PyStr.all PyStr.is_digit (String.concat "" (repeat "0" n)) = true.
Proof.
  induction n as [|n IH]; [done|].
  destruct n; [done|]. simpl in *. exact IH.
Qed.

Lemma fmt_04d_digits k : PyStr.all PyStr.is_digit (PyStr.fmt_04d k) = true.
Proof.
  unfold PyStr.fmt_04d, PyStr.of_N.
  by rewrite all_append, zeros_digits, digits_of_uint.
Qed.

Lemma uint_of_zeros n s :
  NilEmpty.uint_of_string (String.concat "" (repeat "0" n) +:+ s) =
  option_map (Nat.iter n Decimal.D0) (NilEmpty.uint_of_string s).
Proof.
  induction n as [|n IH]; [simpl; by destruct (NilEmpty.uint_of_string s)|].
  assert (String.concat "" (repeat "0" (S n)) = String "0" (String.concat "" (repeat "0" n))) as ->.
  { destruct n; done. }
  simpl. rewrite IH. by destruct (NilEmpty.uint_of_string s).
Qed.

Lemma of_uint_zeros n d : N.of_uint (Nat.iter n Decimal.D0 d) = N.of_uint d.
Proof. induction n as [|n IH]; [done|]. simpl. exact IH. Qed.

Lemma fmt_04d_nonempty k : PyStr.fmt_04d k <> "".
Proof.
  unfold PyStr.fmt_04d, PyStr.of_N. intros E.
  apply (f_equal String.length) in E. rewrite str_length_append in E.
  assert (String.length (NilEmpty.string_of_uint (N.to_uint k)) <> 0%nat); [|simpl in E; lia].
  destruct k as [|p]; [done|]. simpl.
  intros E'. 
  assert (NilEmpty.string_of_uint (Pos.to_uint p) = "") as E'' by (by destruct (NilEmpty.string_of_uint (Pos.to_uint p))).
  pose proof (NilEmpty.usu (Pos.to_uint p)) as U. rewrite E'' in U. simpl in U.
  injection U as U. 
  pose proof (DecimalPos.Unsigned.of_to p) as V. rewrite <- U in V. done.
Qed.

(** Reading back the zero-padded page index gives the page number. *)
Lemma to_N_fmt_04d k : PyStr.to_N (PyStr.fmt_04d k) = Some k.
Proof.
  pose proof (fmt_04d_nonempty k) as Hne.
  unfold PyStr.to_N. destruct (PyStr.fmt_04d k) as [|c r] eqn:E; [done|].
  rewrite <- E. unfold PyStr.fmt_04d, PyStr.of_N.
  rewrite uint_of_zeros, NilEmpty.usu. simpl.
  by rewrite of_uint_zeros, DecimalN.Unsigned.of_to.
Qed.

Lemma span_digits_stop ds c r :
  PyStr.all PyStr.is_digit ds = true -> PyStr.is_digit c = false ->
  span_digits (ds +:+ String c r) = (ds, String c r).
Proof.
  intros Hds Hc. induction ds as [|a ds IH]; simpl in *.
  - by rewrite Hc.
  - apply andb_true_iff in Hds as [Ha Hds]. by rewrite Ha, (IH Hds).
Qed.

Lemma page_name_no_sep ext k :
  PyStr.rfind "/" ext = -1 ->
  PyStr.rfind "/" ("page_" +:+ PyStr.fmt_04d k +:+ "." +:+ ext) = -1.
Proof.
  intros Hext.
  assert (PyStr.rfind "/" ("." +:+ ext) = -1) as H1
    by (by rewrite rfind_app_absent).
  assert (PyStr.rfind "/" (PyStr.fmt_04d k +:+ "." +:+ ext) = -1) as H2.
  { rewrite rfind_app_absent by done.
    by apply (rfind_absent_all PyStr.is_digit); [apply fmt_04d_digits|]. }
  by rewrite rfind_app_absent.
Qed.

(** [sort_key] reads the page number off the file Ghostscript wrote. *)
Lemma sort_key_page_image output_dir ext k :
  PyStr.rfind "/" ext = -1 ->
  sort_key ext (page_image_path output_dir ext k) = Z.of_N k.
Proof.
  intros Hext. unfold sort_key, page_image_path.
  rewrite basename_join by by apply page_name_no_sep.
  assert (match_page_here ext ("page_" +:+ PyStr.fmt_04d k +:+ "." +:+ ext)
          = Some (PyStr.fmt_04d k)) as Hm.
  { unfold match_page_here.
    change (PyStr.startswith "page_" ("page_" +:+ PyStr.fmt_04d k +:+ "." +:+ ext))
      with true.
    change (PyStr.drop 5 ("page_" +:+ PyStr.fmt_04d k +:+ "." +:+ ext))
      with (PyStr.fmt_04d k +:+ String "." ext).
    rewrite span_digits_stop by (done || apply fmt_04d_digits).
    destruct (String.eqb_spec (PyStr.fmt_04d k) "") as [E|_];
      [by apply fmt_04d_nonempty in E|].
    change ("." +:+ ext) with (String "." ext).
    by rewrite String.eqb_refl. }
  change (re_search_page ext ("page_" +:+ PyStr.fmt_04d k +:+ "." +:+ ext))
    with (match match_page_here ext ("page_" +:+ PyStr.fmt_04d k +:+ "." +:+ ext) with
          | Some ds => Some ds
          | None => re_search_page ext ("age_" +:+ PyStr.fmt_04d k +:+ "." +:+ ext)
          end).
  by rewrite Hm, to_N_fmt_04d.
Qed.

(** ** Sorting by key *)

Section SortByKey.
Context {A : Type} (key : A -> Z).

Lemma insert_by_key_perm x l : insert_by_key key x l ≡ₚ x :: l.
Proof.
  induction l as [|y l IH]; simpl; [done|].
  destruct (key x <=? key y); [done|]. rewrite IH. apply perm_swap.
Qed.

Lemma list_sort_key_perm l : list_sort_key key l ≡ₚ l.
Proof.
  induction l as [|x l IH]; simpl; [done|].
  by rewrite insert_by_key_perm, IH.
Qed.

Lemma insert_by_key_sorted x l :
  Sorted (key_le key) l -> Sorted (key_le key) (insert_by_key key x l).
Proof.
  induction 1 as [|y l Hl IH Hy]; simpl; [by repeat constructor|].
  destruct (Z.leb_spec (key x) (key y)) as [Hxy|Hxy].
  - repeat constructor; done.
  - constructor; [done|].
    destruct Hy as [|z l Hyz]; simpl.
    + constructor. unfold key_le. lia.
    + destruct (key x <=? key z); constructor; unfold key_le in *; lia.
Qed.

Lemma list_sort_key_sorted l : Sorted (key_le key) (list_sort_key key l).
Proof.
  induction l as [|x l IH]; simpl; [constructor|].
  by apply insert_by_key_sorted.
Qed.

#[local] Instance key_le_trans : Transitive (key_le key).
Proof. unfold key_le. intros x y z ??. lia. Qed.

(** A list whose keys are pairwise different has one arrangement in key
    order: sorting any permutation of it gives that arrangement. *)
Lemma list_sort_key_unique l t :
  l ≡ₚ t -> StronglySorted (key_le key) t ->
  (forall x y, x ∈ t -> y ∈ t -> key x = key y -> x = y) ->
  list_sort_key key l = t.
Proof.
  intros Hperm Ht Hinj.
  apply (StronglySorted_unique_strong (key_le key)); [|
    apply Sorted_StronglySorted; [apply _|apply list_sort_key_sorted] |
    done | by rewrite list_sort_key_perm].
  intros x y Hx Hy Hxy Hyx. apply Hinj; [|done|unfold key_le in *; lia].
  by rewrite <- Hperm, <- (list_sort_key_perm l).
Qed.

End SortByKey.

Lemma page_images_sorted output_dir ext start n :
  PyStr.rfind "/" ext = -1 ->
  StronglySorted (key_le (sort_key ext))
    (map (fun k => page_image_path output_dir ext (N.of_nat k)) (seq start n)).
Proof.
  intros Hext. revert start. induction n as [|n IH]; intros start; simpl.
  - constructor.
  - constructor; [apply IH|].
    apply Forall_forall. intros x Hx.
    apply list_elem_of_fmap in Hx as (k & -> & Hk).
    apply list_elem_of_In, in_seq in Hk.
    unfold key_le. rewrite !sort_key_page_image by done. lia.
Qed.

Lemma page_images_key_inj output_dir ext start n x y :
  PyStr.rfind "/" ext = -1 ->
  let t := map (fun k => page_image_path output_dir ext (N.of_nat k)) (seq start n) in
  x ∈ t -> y ∈ t -> sort_key ext x = sort_key ext y -> x = y.
Proof.
  intros Hext t Hx Hy.
  apply list_elem_of_fmap in Hx as (k1 & -> & _).
  apply list_elem_of_fmap in Hy as (k2 & -> & _).
  rewrite !sort_key_page_image by done. intros E.
  by replace k2 with k1 by lia.
Qed.

Lemma image_ext_no_sep image_format : PyStr.rfind "/" (image_ext image_format) = -1.
Proof.
  unfold image_ext.
  destruct (PyStr.contains "png" image_format); [done|].
  by destruct (PyStr.contains "jpeg" image_format || PyStr.contains "jpg" image_format).
Qed.

(** C3. When Ghostscript exits with code zero and [glob] finds, in whatever
    order, exactly the images of pages 1 to [n] of a PDF of [n >= 1] pages,
    [pdf_to_images] returns [n] paths and the [k]-th of them is the image of
    page [k]: the order is that of the page numbers, not of the names. *)
Theorem pdf_to_images_page_order `{Env}
    (pdf_path output_dir gs_path : string) (resolution : Z)
    (image_format : string) (n : nat) (st st' : os_state) (out err : string) :
  let ext := image_ext image_format in
  let page k := page_image_path output_dir ext (N.of_nat k) in
  (1 <= n)%nat ->
  os_path_exists pdf_path st = true ->
  gs_path <> "" ->
  subprocess_run
    (gs_command gs_path image_format resolution
       (OsPath.join output_dir ("page_%04d." +:+ ext)) pdf_path) 1200 st
  = (Completed 0 out err, st') ->
  glob_glob (OsPath.join output_dir ("page_*." +:+ ext)) st' ≡ₚ map page (seq 1 n) ->
  exists image_files,
    outcome (pdf_to_images pdf_path output_dir gs_path resolution image_format st)
    = Ok image_files /\
    length image_files = n /\
    forall k, (1 <= k <= n)%nat -> image_files !! (k - 1)%nat = Some (page k).
Proof.
  intros ext page Hn Hpdf Hgs Hrun Hglob.
  exists (map page (seq 1 n)). split; [|split].
  - unfold pdf_to_images, outcome, bind, log, emit, observe, try_except, check_run.
    rewrite Hpdf. cbn [negb].
    destruct (String.eqb_spec gs_path "") as [|_]; [done|].
    fold ext. rewrite Hrun. cbn [Z.eqb].
    destruct (glob_glob (OsPath.join output_dir ("page_*." +:+ ext)) st')
      as [|f fs] eqn:Hfs.
    { apply Permutation_nil_l in Hglob. destruct n; [lia|done]. }
    cbn -[list_sort_key]. f_equal. rewrite <- Hfs.
    apply list_sort_key_unique; [by rewrite Hfs| |].
    + apply page_images_sorted, image_ext_no_sep.
    + intros x y. apply page_images_key_inj, image_ext_no_sep.
  - by rewrite length_map, length_seq.
  - intros k Hk. rewrite list_lookup_fmap, lookup_seq_lt by lia. simpl.
    by replace (S (k - 1)) with k by lia.
Qed.

Lemma pdf_to_images_page_order_witness :
  exists image_files,
    outcome (@pdf_to_images gs_env "/up/x.pdf" "/out/job/images" "gs" 120 "pnggray"
               gs_state) = Ok image_files /\
    length image_files = 12%nat /\
    forall k, (1 <= k <= 12)%nat ->
      image_files !! (k - 1)%nat
      = Some (page_image_path "/out/job/images" "png" (N.of_nat k)).
Proof.
  eapply (@pdf_to_images_page_order gs_env "/up/x.pdf" "/out/job/images" "gs" 120
            "pnggray" 12 gs_state).
  - lia.
  - reflexivity.
  - discriminate.
  - vm_compute. reflexivity.
  - etransitivity; [symmetry; apply (list_sort_key_perm (sort_key "png"))|].
    vm_compute. reflexivity.
Defined.

(** Page 10000 sorts after page 9999, where the order of the names has it
    first. *)
Example sort_is_by_page_number :
  list_sort_key (sort_key "png")
    ["/out/job/images/page_10000.png"; "/out/job/images/page_9999.png"]
  = ["/out/job/images/page_9999.png"; "/out/job/images/page_10000.png"].
Proof. vm_compute. reflexivity. Qed.

(** ** Step 2: the response text *)

Lemma find_app_first c pre r :
  PyStr.find c pre = -1 ->
  PyStr.find c (pre +:+ String c r) = Z.of_nat (String.length pre).
Proof.
  induction pre as [|x pre IH]; cbn [PyStr.find String.append String.length].
  - by rewrite Ascii.eqb_refl.
  - destruct (Ascii.eqb x c); [intros [=]|].
    pose proof (find_lower c pre).
    destruct (Z.eqb_spec (PyStr.find c pre) (-1)) as [E|E]; [|lia].
    intros _. rewrite (IH E).
    destruct (Z.eqb_spec (Z.of_nat (String.length pre)) (-1)); lia.
Qed.

Lemma endswith_char_app c a b :
  OsPath.endswith_char c b = true -> OsPath.endswith_char c (a +:+ b) = true.
Proof.
  intros Hb. induction a as [|x a IH]; [done|].
  cbn [String.append]. destruct (a +:+ b) eqn:E; [|exact IH].
  by destruct a, b.
Qed.

Lemma str_take_app a b : PyStr.take (String.length a) (a +:+ b) = a.
Proof.
  induction a as [|x a IH]; [by destruct b|].
  cbn [String.append String.length PyStr.take]. by rewrite IH.
Qed.

(** Text before the first brace and after the last one does not reach the
    parser. *)
Lemma json_core_of_decorated pre core post :
  PyStr.find "{" pre = -1 -> PyStr.rfind "}" post = -1 ->
  PyStr.startswith "{" core = true -> OsPath.endswith_char "}" core = true ->
  let raw_text := pre +:+ core +:+ post in
  let start_index := PyStr.find "{" raw_text in
  let end_index := PyStr.rfind "}" raw_text in
  0 <= start_index <= end_index /\
  PyStr.slice start_index (end_index + 1) raw_text = core.
Proof.
  intros Hpre Hpost Hs He raw_text start_index end_index.
  destruct core as [|c body]; [done|].
  cbn [PyStr.startswith] in Hs. apply andb_true_iff in Hs as [Hc _].
  apply Ascii.eqb_eq in Hc. subst c.
  assert (start_index = Z.of_nat (String.length pre)) as ->.
  { unfold start_index, raw_text. cbn [String.append]. by apply find_app_first. }
  assert (end_index
          = Z.of_nat (String.length pre + String.length (String "{" body)) - 1) as ->.
  { unfold end_index, raw_text. rewrite <- str_append_assoc.
    rewrite rfind_app_absent by done.
    rewrite rfind_endswith by by apply endswith_char_app.
    by rewrite str_length_append. }
  split; [cbn [String.length]; lia|].
  unfold PyStr.slice, raw_text.
  rewrite Nat2Z.id, str_drop_app.
  replace (Z.to_nat _) with (String.length (String "{" body)) by lia.
  apply str_take_app.
Qed.

(** C5. The block that cleans and parses the response reads the text from
    its first opening brace to its last closing brace, and nothing else:
    it returns what [json.loads] makes of that span; it raises a parse error
    (the [ValueError] of the missing boundaries or [JSONDecodeError]) exactly
    when there is no opening brace, no closing brace, the last closing brace
    comes before the first opening one, or the span is not JSON; and text
    around a span that starts with an opening and ends with a closing brace
    does not change the outcome. *)
Theorem clean_and_parse_json_span `{Env} (raw_text : string) (st : os_state) :
  let start_index := PyStr.find "{" raw_text in
  let end_index := PyStr.rfind "}" raw_text in
  let no_boundaries := start_index = -1 \/ end_index = -1 \/ end_index < start_index in
  let span := PyStr.slice start_index (end_index + 1) raw_text in
  let run := clean_and_parse_json raw_text st in
  (forall parsed_data,
     outcome run = Ok parsed_data <->
     ~ no_boundaries /\ json_loads span = Some parsed_data) /\
  ((exists e, outcome run = Raise e /\ is_parse_error e = true) <->
   no_boundaries \/ json_loads span = None) /\
  (forall e, outcome run = Raise e -> is_parse_error e = true) /\
  (forall pre core post,
     PyStr.find "{" pre = -1 -> PyStr.rfind "}" post = -1 ->
     PyStr.startswith "{" core = true -> OsPath.endswith_char "}" core = true ->
     raw_text = pre +:+ core +:+ post ->
     outcome run = match json_loads core with
                   | Some parsed_data => Ok parsed_data
                   | None => Raise (JSONDecodeError core)
                   end).
Proof.
  intros start_index end_index no_boundaries span run.
  assert (Hrun : outcome run =
                 if (start_index =? -1) || (end_index =? -1) || (end_index <? start_index)
                 then Raise (ValueError
                        "Invalid JSON structure received from Gemini API (missing '{' or '}')."
                        None)
                 else match json_loads span with
                      | Some parsed_data => Ok parsed_data
                      | None => Raise (JSONDecodeError span)
                      end).
  { unfold run, clean_and_parse_json. fold start_index end_index span.
    destruct ((start_index =? -1) || (end_index =? -1) || (end_index <? start_index));
      [done|].
    by destruct (json_loads span). }
  assert (Hb : (start_index =? -1) || (end_index =? -1) || (end_index <? start_index)
               = true <-> no_boundaries).
  { unfold no_boundaries.
    rewrite !orb_true_iff, !Z.eqb_eq, Z.ltb_lt. tauto. }
  rewrite Hrun. clear Hrun.
  destruct ((start_index =? -1) || (end_index =? -1) || (end_index <? start_index))
    eqn:Hc.
  - assert no_boundaries as Hnb by by apply Hb.
    split; [|split; [|split]].
    + intros d. split; [done|]. intros [Hn _]. by destruct Hn.
    + split; [by left|]. intros _. by eexists.
    + by intros e [= <-].
    + intros pre core post H1 H2 H3 H4 ->.
      destruct (json_core_of_decorated pre core post H1 H2 H3 H4) as [Hidx _].
      fold start_index end_index in Hidx. unfold no_boundaries in Hnb. lia.
  - assert (~ no_boundaries) as Hnb by (rewrite <- Hb; congruence).
    split; [|split; [|split]].
    + intros d. split.
      * destruct (json_loads span); [|done]. by intros [= ->].
      * by intros [_ ->].
    + split.
      * intros (e & He & _). right. by destruct (json_loads span).
      * intros [Hn|Hn]; [done|]. rewrite Hn. by eexists.
    + intros e. destruct (json_loads span); [done|]. by intros [= <-].
    + intros pre core post H1 H2 H3 H4 E.
      destruct (json_core_of_decorated pre core post H1 H2 H3 H4) as [_ Hcore].
      unfold span, start_index, end_index. rewrite E, Hcore.
      done.
Qed.


Lemma clean_and_parse_json_span_witness :
  outcome (@clean_and_parse_json quiet_env
             ("```json " +:+ fenced_core +:+ " ```") empty_state)
  = Ok (JObj [("pages", JArr [])]).
Proof.
  pose proof (@clean_and_parse_json_span quiet_env
                ("```json " +:+ fenced_core +:+ " ```") empty_state) as Hspec.
  cbv zeta in Hspec. destruct Hspec as (_ & _ & _ & Hdecorated).
  apply (Hdecorated "```json " fenced_core " ```"); reflexivity.
Defined.

(** ** Step 3: the bookmark file *)

(** C8. Given an empty ['pages'] list, [convert_ai_response_to_pdftk] writes
    the empty text to the bookmark file, does nothing else to the outside
    world, and returns [True], provided the file can be written. *)
Theorem convert_empty_pages `{Env} (d : list (string * json))
    (output_bmk_path : string) (st st' : os_state) :
  Dict.get "pages" d = Some (JArr []) ->
  open_write output_bmk_path "" st = (OsOk tt, st') ->
  convert_ai_response_to_pdftk (JObj d) output_bmk_path st
  = (Ok true, st',
     [ EvLog INFO "Converting AI response dictionary to PDFtk format for: ";
       EvLog WARNING
         "AI response contained an empty 'pages' list. No bookmarks to generate.";
       EvWrite output_bmk_path "" ]).
Proof.
  intros Hpages Hwrite.
  unfold convert_ai_response_to_pdftk, pages_list_of, write_text, os_call,
    try_except, bind, log, emit, ret.
  rewrite Hpages, Hwrite. reflexivity.
Qed.

Lemma convert_empty_pages_witness :
  @convert_ai_response_to_pdftk quiet_env
    (JObj [("total_num_pages_all_parts", JInt 0); ("pages", JArr [])])
    "/out/job/x_bookmarks.txt" bookmark_state
  = (Ok true,
     World.put "/out/job/x_bookmarks.txt" "" bookmark_state,
     [ EvLog INFO "Converting AI response dictionary to PDFtk format for: ";
       EvLog WARNING
         "AI response contained an empty 'pages' list. No bookmarks to generate.";
       EvWrite "/out/job/x_bookmarks.txt" "" ]).
Proof.
  apply (@convert_empty_pages quiet_env); reflexivity.
Defined.

Lemma bookmark_entry_of_record `{Env} page_detail r :
  page_record page_detail r ->
  bookmark_entry_of page_detail = Entry (block_of_record r).
Proof.
  destruct r as [[page_number sheet_number] sheet_title].
  intros (d & -> & Hp & Hn & Ht). unfold bookmark_entry_of.
  rewrite Hp, Hn, Ht. by destruct sheet_number, sheet_title.
Qed.

Lemma build_bookmarks_records `{Env} pages_data records acc st :
  Forall2 page_record pages_data records ->
  build_bookmarks pages_data acc st
  = (Ok (acc ++ map block_of_record records), st, []).
Proof.
  intros Hrec. revert acc.
  induction Hrec as [|page_detail r pages_data records Hr _ IH]; intros acc.
  - simpl. by rewrite app_nil_r.
  - cbn [build_bookmarks map]. rewrite (bookmark_entry_of_record _ _ Hr).
    by rewrite IH, <- app_assoc.
Qed.

(** C7. For page records that hold a page number, [convert_ai_response_to_pdftk]
    writes one block per record, in the order of the records: the title is
    the sheet number, one space and the sheet title, the level is 1 and the
    page is the record's page number; where the sheet number or the sheet
    title is missing, [MISSING_SHEET_NUM] or [MISSING_SHEET_TITLE] stands in
    and the function still returns [True]. *)
Theorem convert_writes_one_block_per_record `{Env} (d : list (string * json))
    (pages_data : list json)
    (records : list (Z * option string * option string))
    (output_bmk_path : string) (st st1 st2 : os_state) :
  let text := String.concat "" (map block_of_record records) in
  Dict.get "pages" d = Some (JArr pages_data) ->
  Forall2 page_record pages_data records ->
  pages_data <> [] ->
  os_makedirs (OsPath.dirname output_bmk_path) st = (OsOk tt, st1) ->
  open_write output_bmk_path text st1 = (OsOk tt, st2) ->
  convert_ai_response_to_pdftk (JObj d) output_bmk_path st
  = (Ok true, st2,
     [ EvLog INFO "Converting AI response dictionary to PDFtk format for: ";
       EvMakedirs (OsPath.dirname output_bmk_path);
       EvWrite output_bmk_path text;
       EvLog INFO "Successfully saved PDFtk bookmarks (" ]) /\
  forall i page_number sheet_number sheet_title,
    records !! i = Some (page_number, sheet_number, sheet_title) ->
    map block_of_record records !! i
    = Some (pdftk_block
              (default "MISSING_SHEET_NUM" sheet_number +:+ " " +:+
               default "MISSING_SHEET_TITLE" sheet_title)
              1 page_number).
Proof.
  intros text Hpages Hrec Hne Hmk Hwr. subst text. split.
  - unfold convert_ai_response_to_pdftk, pages_list_of. rewrite Hpages.
    destruct pages_data as [|page_detail rest]; [done|].
    unfold try_except, bind at 1, log, emit.
    unfold bind at 1. rewrite (build_bookmarks_records _ _ _ _ Hrec).
    cbn [app].
    destruct records as [|r records]; [by apply Forall2_length in Hrec|].
    cbn [map] in *. unfold write_text, os_call, bind, ret.
    rewrite Hmk.
    match goal with
    | |- context [open_write ?p ?t ?s] =>
        replace (open_write p t s) with (OsOk tt, st2) by (symmetry; exact Hwr)
    end.
    reflexivity.
  - intros i page_number sheet_number sheet_title Hi.
    by rewrite list_lookup_fmap, Hi.
Qed.

Lemma convert_writes_one_block_per_record_witness :
  @convert_ai_response_to_pdftk quiet_env
    (JObj [("total_num_pages_all_parts", JInt 3); ("pages", JArr three_pages)])
    "/out/job/x_bookmarks.txt" bookmark_state
  = (Ok true,
     World.put "/out/job/x_bookmarks.txt"
       (String.concat "" (map block_of_record three_records)) bookmark_state,
     [ EvLog INFO "Converting AI response dictionary to PDFtk format for: ";
       EvMakedirs "/out/job";
       EvWrite "/out/job/x_bookmarks.txt"
         (String.concat "" (map block_of_record three_records));
       EvLog INFO "Successfully saved PDFtk bookmarks (" ]) /\
  map block_of_record three_records !! 1%nat
  = Some (pdftk_block "MISSING_SHEET_NUM Roof Plan" 1 2).
Proof.
  destruct (@convert_writes_one_block_per_record quiet_env
              [("total_num_pages_all_parts", JInt 3); ("pages", JArr three_pages)]
              three_pages three_records "/out/job/x_bookmarks.txt"
              bookmark_state bookmark_state
              (World.put "/out/job/x_bookmarks.txt"
                 (String.concat "" (map block_of_record three_records))
                 bookmark_state))
    as [Hrun Hblock].
  - reflexivity.
  - repeat constructor; eexists; repeat split; reflexivity.
  - discriminate.
  - reflexivity.
  - reflexivity.
  - split; [exact Hrun|]. apply (Hblock 1%nat 2 None (Some "Roof Plan")).
    reflexivity.
Defined.

(** ** Running the monad *)

#[local] Arguments outcome : simpl never.
#[local] Arguments final_state : simpl never.
#[local] Arguments events : simpl never.
#[local] Arguments after : simpl never.

Section Run.
Context `{Env}.

Lemma outcome_mk {A} (r : result A) (st : os_state) ev : outcome (r, st, ev) = r.
Proof. done. Qed.

Lemma final_state_mk {A} (r : result A) (st : os_state) ev :
  final_state (r, st, ev) = st.
Proof. done. Qed.

Lemma events_mk {A} (r : result A) (st : os_state) ev : events (r, st, ev) = ev.
Proof. done. Qed.

Lemma ret_mk {A} (a : A) (st : os_state) : ret a st = (Ok a, st, []).
Proof. done. Qed.

Lemma raise_mk {A} e (st : os_state) : @raise _ A e st = (Raise e, st, []).
Proof. done. Qed.

Lemma log_mk lvl msg (st : os_state) : log lvl msg st = (Ok tt, st, [EvLog lvl msg]).
Proof. done. Qed.

Lemma after_mk {A} pre (r : result A) (st : os_state) ev :
  after pre (r, st, ev) = (r, st, pre ++ ev).
Proof. done. Qed.

Lemma outcome_after {A} pre (x : result A * os_state * list event) :
  outcome (after pre x) = outcome x.
Proof. done. Qed.

Lemma final_state_after {A} pre (x : result A * os_state * list event) :
  final_state (after pre x) = final_state x.
Proof. done. Qed.

Lemma events_after {A} pre (x : result A * os_state * list event) :
  events (after pre x) = pre ++ events x.
Proof. done. Qed.

Lemma after_nil {A} (x : result A * os_state * list event) : after [] x = x.
Proof. by destruct x as [[r st] ev]. Qed.

Lemma after_after {A} pre1 pre2 (x : result A * os_state * list event) :
  after pre1 (after pre2 x) = after (pre1 ++ pre2) x.
Proof. unfold after. cbn. by rewrite app_assoc. Qed.

Lemma run_bind {A B} (m : M A) (k : A -> M B) st :
  bind m k st =
  match outcome (m st) with
  | Ok a => after (events (m st)) (k a (final_state (m st)))
  | Raise e => (Raise e, final_state (m st), events (m st))
  end.
Proof.
  unfold bind, outcome, final_state, events, after.
  destruct (m st) as [[[a|e] st1] ev1]; cbn; [|done].
  by destruct (k a st1) as [[r st2] ev2].
Qed.

Lemma run_observe {A B} (f : os_state -> A) (k : A -> M B) st :
  bind (observe f) k st = k (f st) st.
Proof. rewrite run_bind. cbn. apply after_nil. Qed.

Lemma run_log {B} lvl msg (k : unit -> M B) st :
  bind (log lvl msg) k st = after [EvLog lvl msg] (k tt st).
Proof. by rewrite run_bind. Qed.

Lemma run_ret {A B} (a : A) (k : A -> M B) st : bind (ret a) k st = k a st.
Proof. rewrite run_bind. cbn. apply after_nil. Qed.

Lemma run_raise {A B} e (k : A -> M B) st :
  bind (raise e) k st = (Raise e, st, []).
Proof. by rewrite run_bind. Qed.

Lemma run_try_except {A} (m : M A) (h : exn -> M A) st :
  try_except m h st =
  match outcome (m st) with
  | Ok a => m st
  | Raise e => after (events (m st)) (h e (final_state (m st)))
  end.
Proof.
  unfold try_except, outcome, final_state, events, after.
  destruct (m st) as [[[a|e] st1] ev1]; cbn; [done|].
  by destruct (h e st1) as [[r st2] ev2].
Qed.

Lemma run_read_bytes {B} path (k : string -> M B) st :
  bind (read_bytes path) k st =
  match open_read path st with
  | OsOk b => k b st
  | OsError e => (Raise (OSError e), st, [])
  end.
Proof.
  rewrite run_bind. unfold read_bytes.
  destruct (open_read path st); cbn; [apply after_nil|done].
Qed.

Lemma run_getsize {B} path (k : Z -> M B) st :
  bind (getsize path) k st =
  match os_path_getsize path st with
  | OsOk n => k n st
  | OsError e => (Raise (OSError e), st, [])
  end.
Proof.
  rewrite run_bind. unfold getsize.
  destruct (os_path_getsize path st); cbn; [apply after_nil|done].
Qed.

Lemma run_os_call {A B} ev (f : os_state -> os_result A * os_state)
    (k : A -> M B) st :
  bind (os_call ev f) k st =
  match f st with
  | (OsOk a, st') => after [ev] (k a st')
  | (OsError e, st') => (Raise (OSError e), st', [ev])
  end.
Proof.
  rewrite run_bind. unfold os_call. by destruct (f st) as [[a|e] st'].
Qed.

Lemma run_check_run {B} command t (k : string * string -> M B) st :
  bind (check_run command t) k st =
  match subprocess_run command t st with
  | (Completed rc out err, st') =>
      if rc =? 0 then after [EvRun command] (k (out, err) st')
      else (Raise (CalledProcessError rc command), st', [EvRun command])
  | (TimedOut, st') => (Raise (TimeoutExpired command t), st', [EvRun command])
  | (SpawnFailed e, st') => (Raise (OSError e), st', [EvRun command])
  end.
Proof.
  rewrite run_bind. unfold check_run.
  destruct (subprocess_run command t st) as [[rc out err| |e] st']; [|done..].
  by destruct (rc =? 0).
Qed.

Lemma run_call_generate_content {B} client model contents config
    (k : option string -> M B) st :
  bind (call_generate_content client model contents config) k st =
  match generate_content client model contents config st with
  | (GenResponse text, st') =>
      after [EvGenerateContent model contents config] (k text st')
  | (GenRaised e, st') =>
      (Raise e, st', [EvGenerateContent model contents config])
  end.
Proof.
  rewrite run_bind. unfold call_generate_content.
  by destruct (generate_content client model contents config st) as [[e|text] st'].
Qed.

End Run.

Create Rewrite HintDb run.
#[local] Hint Rewrite @outcome_mk @final_state_mk @events_mk @after_mk
  @ret_mk @raise_mk @log_mk
  @outcome_after @final_state_after @events_after @after_nil
  @run_observe @run_log @run_ret @run_raise @run_read_bytes @run_getsize
  @run_os_call @run_check_run @run_call_generate_content : run.

(** One step of a run: rewrite with the equations of the monad. *)
Ltac run_step := repeat (cbv beta; progress autorewrite with run).

(** ** Step 2: the request *)

Lemma prepare_image_parts_run `{Env} image_paths image_parts st :
  final_state (prepare_image_parts image_paths image_parts st) = st /\
  Forall is_log (events (prepare_image_parts image_paths image_parts st)) /\
  forall parts,
    outcome (prepare_image_parts image_paths image_parts st) = Ok parts ->
    (length parts <= length image_parts + length image_paths)%nat.
Proof.
  revert image_parts.
  induction image_paths as [|path rest IH]; intros image_parts.
  - cbn. split; [done|]. split; [constructor|]. intros parts [= <-]. lia.
  - cbn [prepare_image_parts]. rewrite run_observe.
    destruct (os_path_exists path st); cbn [negb].
    + rewrite run_observe.
      destruct (mime_type_of path st) as [mime_type|].
      * rewrite run_read_bytes.
        destruct (open_read path st) as [img_bytes|e].
        -- destruct (IH (image_parts ++ [{| part_data := img_bytes;
                                            part_mime_type := mime_type |}]))
             as (Hst & Hev & Hlen).
           split; [done|]. split; [done|].
           intros parts Hp. specialize (Hlen parts Hp).
           rewrite length_app in Hlen. simpl in *. lia.
        -- split; [done|]. split; [constructor|]. done.
      * rewrite run_log, final_state_after, events_after, outcome_after.
        destruct (IH image_parts) as (Hst & Hev & Hlen).
        split; [done|]. split; [by constructor|].
        intros parts Hp. specialize (Hlen parts Hp). simpl. lia.
    + rewrite run_log, final_state_after, events_after, outcome_after.
      destruct (IH image_parts) as (Hst & Hev & Hlen).
      split; [done|]. split; [by constructor|].
      intros parts Hp. specialize (Hlen parts Hp). simpl. lia.
Qed.

Lemma clean_and_parse_json_logs `{Env} raw_text st :
  Forall is_log (events (clean_and_parse_json raw_text st)).
Proof.
  unfold clean_and_parse_json.
  destruct ((_ =? -1) || (_ =? -1) || (_ <? _)).
  - cbn. by repeat constructor.
  - destruct (json_loads _); cbn; by repeat constructor.
Qed.

Lemma elem_of_logs ev l : Forall is_log l -> ev ∈ l -> is_log ev.
Proof. intros Hl Hev. by eapply Forall_forall in Hl. Qed.

(** Closes [Forall P (l1 ++ ... ++ ln)] from hypotheses on the parts that
    are variables and by computation on the parts that are given. *)
Ltac forall_parts :=
  rewrite ?Forall_app;
  repeat split;
  first [ assumption | by repeat constructor ].

Section Request.
Context `{Env}.

Lemma logs_declare template n l :
  Forall is_log l -> Forall (declares_input_length template n) l.
Proof. intros Hl. eapply Forall_impl; [exact Hl|]. by intros []. Qed.

Lemma generate_bookmarks_ai_requests client model_name temperature template
    image_paths response_schema st :
  Forall (declares_input_length template (length image_paths))
    (events (generate_bookmarks_ai client model_name temperature template
               image_paths response_schema st)).
Proof.
  unfold generate_bookmarks_ai. run_step.
  apply Forall_app. split; [by repeat constructor|].
  destruct client as [client|]; [|run_step; constructor].
  destruct (prepare_image_parts_run image_paths [] st) as (Hst & Hev & Hlen).
  apply (logs_declare template (length image_paths)) in Hev.
  destruct image_paths as [|path0 rest] eqn:Hpaths; [run_step; constructor|].
  rewrite <- Hpaths in *. clear Hpaths path0 rest.
  rewrite run_bind, run_try_except, run_bind.
  destruct (prepare_image_parts image_paths [] st) as [[[parts|e] st1] ev1];
    autorewrite with run in *.
  2: { run_step. forall_parts. }
  subst st1. specialize (Hlen parts eq_refl).
  destruct parts as [|part parts'] eqn:Hparts.
  { run_step. forall_parts. }
  rewrite <- Hparts in *. clear Hparts part parts'.
  run_step. apply Forall_app. split; [forall_parts|].
  destruct (str_format template (Z.of_nat (length image_paths)))
    as [prompt|e] eqn:Hfmt.
  2: { destruct e; run_step; by repeat constructor. }
  rewrite run_ret, run_try_except. run_step.
  set (config := {| cfg_temperature := temperature;
                    cfg_response_mime_type := "application/json";
                    cfg_response_schema := response_schema;
                    cfg_system_instruction := prompt |}).
  destruct (generate_content client model_name parts config st)
    as [[e|text] st2]; run_step.
  { by repeat constructor. }
  assert (Hreq : declares_input_length template (length image_paths)
                   (EvGenerateContent model_name parts config)).
  { split; [done|]. simpl in Hlen. lia. }
  destruct text as [raw_text|]; [destruct raw_text as [|c raw_text]|]; run_step.
  - by repeat constructor.
  - pose proof (clean_and_parse_json_logs (String c raw_text) st2) as Hlogs.
    apply (logs_declare template (length image_paths)) in Hlogs.
    destruct (clean_and_parse_json (String c raw_text) st2) as [[[a|e] st3] ev3];
      run_step; autorewrite with run in Hlogs.
    + by repeat constructor.
    + repeat (constructor; [done|]). forall_parts.
  - by repeat constructor.
Qed.

End Request.

(** C10. Every request [generate_bookmarks_ai] sends carries the system
    prompt rendered for the length of [image_paths] as it was given, and at
    most that many image parts; and there is a run in which the prompt
    declares three pages while one image part is sent, the two other images
    having been dropped. *)
Theorem request_declares_length_of_input :
  (forall (E : Env) client model_name temperature template image_paths
          response_schema st model contents config,
     EvGenerateContent model contents config
       ∈ events (generate_bookmarks_ai client model_name temperature template
                   image_paths response_schema st) ->
     str_format template (Z.of_nat (length image_paths))
     = Ok (cfg_system_instruction config) /\
     (length contents <= length image_paths)%nat) /\
  (exists model contents config,
     EvGenerateContent model contents config
       ∈ events (@generate_bookmarks_ai (answering "{}") (Some tt) "gemini" 0%Q
                   "exactly {actual_total_pages} pages" three_image_paths
                   ExtractedData two_dropped_state) /\
     cfg_system_instruction config = "exactly 3 pages" /\
     length three_image_paths = 3%nat /\ length contents = 1%nat).
Proof.
  split.
  - intros E client model_name temperature template image_paths response_schema
      st model contents config Hin.
    pose proof (generate_bookmarks_ai_requests client model_name temperature
                  template image_paths response_schema st) as Hall.
    rewrite Forall_forall in Hall. exact (Hall _ Hin).
  - exists "gemini",
      [{| part_data := "PNG page 1"; part_mime_type := "image/png" |}],
      {| cfg_temperature := 0%Q;
         cfg_response_mime_type := "application/json";
         cfg_response_schema := ExtractedData;
         cfg_system_instruction := "exactly 3 pages" |}.
    split; [|done].
    apply list_elem_of_In. vm_compute. auto 10.
Qed.

Lemma request_declares_length_of_input_witness :
  @str_format (answering "{}") "exactly {actual_total_pages} pages"
    (Z.of_nat (length three_image_paths))
  = Ok "exactly 3 pages" /\
  (length [{| part_data := "PNG page 1"; part_mime_type := "image/png" |}]
   <= length three_image_paths)%nat.
Proof.
  apply (proj1 request_declares_length_of_input (answering "{}") (Some tt)
           "gemini" 0%Q "exactly {actual_total_pages} pages" three_image_paths
           ExtractedData two_dropped_state "gemini"
           [{| part_data := "PNG page 1"; part_mime_type := "image/png" |}]
           {| cfg_temperature := 0%Q;
              cfg_response_mime_type := "application/json";
              cfg_response_schema := ExtractedData;
              cfg_system_instruction := "exactly 3 pages" |}).
  apply list_elem_of_In. vm_compute. auto 10.
Defined.

(** After a response with text, the outcome of [generate_bookmarks_ai] is
    that of the parsing block: its value as it is, or its error as the cause
    of a [RuntimeError]. *)
Lemma generate_bookmarks_ai_parses_response `{Env}
    (client : Client) (model_name : string) (temperature : Q)
    (system_prompt_template : string) (image_paths : list string)
    (response_schema : response_schema_t) (st st2 : os_state)
    (image_parts : list Part) (prompt raw_text : string) :
  outcome (prepare_image_parts image_paths [] st) = Ok image_parts ->
  image_parts <> [] ->
  str_format system_prompt_template (Z.of_nat (length image_paths)) = Ok prompt ->
  generate_content client model_name image_parts
    {| cfg_temperature := temperature;
       cfg_response_mime_type := "application/json";
       cfg_response_schema := response_schema;
       cfg_system_instruction := prompt |} st
  = (GenResponse (Some raw_text), st2) ->
  raw_text <> "" ->
  outcome (generate_bookmarks_ai (Some client) model_name temperature
             system_prompt_template image_paths response_schema st)
  = match outcome (clean_and_parse_json raw_text st2) with
    | Ok parsed_data => Ok parsed_data
    | Raise e =>
        Raise (RuntimeError
                 "Gemini API interaction or response processing failed." (Some e))
    end.
Proof.
  intros Hprep Hne Hfmt Hgen Htext.
  destruct (prepare_image_parts_run image_paths [] st) as (Hst & _ & _).
  unfold generate_bookmarks_ai. run_step.
  destruct image_paths as [|path0 rest] eqn:Hpaths.
  { cbn in Hprep. autorewrite with run in Hprep. congruence. }
  rewrite <- Hpaths in *. clear Hpaths path0 rest.
  rewrite run_bind, run_try_except, run_bind.
  destruct (prepare_image_parts image_paths [] st) as [[r st1] ev1].
  autorewrite with run in *. subst r st1.
  destruct image_parts as [|part parts'] eqn:Hparts; [done|].
  rewrite <- Hparts in *. clear Hparts part parts' Hne.
  run_step. rewrite Hfmt, run_ret, run_try_except. run_step. rewrite Hgen.
  destruct raw_text as [|c raw_text]; [done|].
  run_step.
  destruct (clean_and_parse_json (String c raw_text) st2) as [[[d|e] st3] ev3];
    by run_step.
Qed.

(** C1, as the code has it.  [generate_bookmarks_ai] compares nothing with
    the expected page count: when the image parts were prepared, the prompt
    was rendered and the service answered with a text whose span from the
    first opening to the last closing brace parses, the parsed value is
    returned as it is, whatever total it declares and whatever pages it
    lists. *)
Theorem generate_bookmarks_ai_returns_parsed_unchecked `{Env}
    (client : Client) (model_name : string) (temperature : Q)
    (system_prompt_template : string) (image_paths : list string)
    (response_schema : response_schema_t) (st st2 : os_state)
    (image_parts : list Part) (prompt raw_text : string) (parsed_data : json) :
  outcome (prepare_image_parts image_paths [] st) = Ok image_parts ->
  image_parts <> [] ->
  str_format system_prompt_template (Z.of_nat (length image_paths)) = Ok prompt ->
  generate_content client model_name image_parts
    {| cfg_temperature := temperature;
       cfg_response_mime_type := "application/json";
       cfg_response_schema := response_schema;
       cfg_system_instruction := prompt |} st
  = (GenResponse (Some raw_text), st2) ->
  outcome (clean_and_parse_json raw_text st2) = Ok parsed_data ->
  outcome (generate_bookmarks_ai (Some client) model_name temperature
             system_prompt_template image_paths response_schema st)
  = Ok parsed_data.
Proof.
  intros Hprep Hne Hfmt Hgen Hparse.
  assert (raw_text <> "") as Htext.
  { intros ->. cbn in Hparse. autorewrite with run in Hparse. done. }
  rewrite (generate_bookmarks_ai_parses_response _ _ _ _ _ _ _ _ _ _ _
             Hprep Hne Hfmt Hgen Htext).
  by rewrite Hparse.
Qed.

Lemma generate_bookmarks_ai_returns_parsed_unchecked_witness :
  outcome (@generate_bookmarks_ai (answering (fenced declares_four_lists_three))
             (Some tt) "gemini" 0%Q GEMINI_SYSTEM_PROMPT_TEMPLATE_text
             (image_paths_of 3) ExtractedData (images_state 3))
  = Ok declares_four_lists_three.
Proof.
  eapply (@generate_bookmarks_ai_returns_parsed_unchecked
            (answering (fenced declares_four_lists_three)) tt "gemini" 0%Q
            GEMINI_SYSTEM_PROMPT_TEMPLATE_text (image_paths_of 3) ExtractedData
            (images_state 3) (images_state 3)
            [ {| part_data := "PNG"; part_mime_type := "image/png" |};
              {| part_data := "PNG"; part_mime_type := "image/png" |};
              {| part_data := "PNG"; part_mime_type := "image/png" |} ]).
  - vm_compute. reflexivity.
  - discriminate.
  - vm_compute. reflexivity.
  - reflexivity.
  - vm_compute. reflexivity.
Defined.

(** C1, as stated, fails.  For three images a response that declares four
    pages and lists three is returned, not rejected; for four images a
    response whose page numbers are 1, 2, 2, 4 is returned, not rejected. *)
Lemma generate_bookmarks_ai_accepts_contract_violations :
  (length (image_paths_of 3) = 3%nat /\
   Dict.get "total_num_pages_all_parts"
     [("total_num_pages_all_parts", JInt 4);
      ("pages", JArr [page_json 1; page_json 2; page_json 3])] = Some (JInt 4) /\
   outcome (@generate_bookmarks_ai (answering (fenced declares_four_lists_three))
              (Some tt) "gemini" 0%Q GEMINI_SYSTEM_PROMPT_TEMPLATE_text
              (image_paths_of 3) ExtractedData (images_state 3))
   = Ok declares_four_lists_three) /\
  (length (image_paths_of 4) = 4%nat /\
   outcome (@generate_bookmarks_ai (answering (fenced numbers_1_2_2_4))
              (Some tt) "gemini" 0%Q GEMINI_SYSTEM_PROMPT_TEMPLATE_text
              (image_paths_of 4) ExtractedData (images_state 4))
   = Ok numbers_1_2_2_4).
Proof. repeat split; vm_compute; reflexivity. Qed.

(** ** Step 4: [apply_bookmarks] *)

Lemma run_bind_assoc `{Env} {A B C} (m : M A) (k1 : A -> M B) (k2 : B -> M C) st :
  bind (bind m k1) k2 st = bind m (fun a => bind (k1 a) k2) st.
Proof.
  unfold bind. destruct (m st) as [[[a|e] st1] ev1]; [|done].
  destruct (k1 a st1) as [[[b|e] st2] ev2]; [|done].
  destruct (k2 b st2) as [[r st3] ev3]. by rewrite app_assoc.
Qed.

#[local] Hint Rewrite @run_bind_assoc : run.

Lemma apply_bookmarks_run `{Env}
    (pdftk_path input_pdf_path bookmark_data_path output_pdf_path : string)
    (st : os_state) :
  let command :=
    pdftk_command pdftk_path input_pdf_path bookmark_data_path output_pdf_path in
  pdftk_path <> "" ->
  os_path_exists input_pdf_path st = true ->
  os_path_exists bookmark_data_path st = true ->
  apply_bookmarks pdftk_path input_pdf_path bookmark_data_path output_pdf_path st
  = after [ EvLog INFO "Applying bookmarks from ";
            EvLog INFO "Running PDFtk command: ";
            EvRun command ]
      match subprocess_run command 120 st with
      | (Completed rc out err, st') =>
          if rc =? 0 then
            if os_path_exists output_pdf_path st' then
              match os_path_getsize output_pdf_path st' with
              | OsOk size =>
                  if size >? 0 then
                    (Ok true, st',
                     [EvLog INFO
                        "PDFtk bookmark application successful. Output saved to: "])
                  else
                    (Ok false, (os_remove output_pdf_path st').2,
                     [EvLog ERROR "PDFtk command ran but output file '";
                      EvRemove output_pdf_path])
              | OsError e =>
                  (Ok false, st', [EvLog ERROR "Unexpected error running PDFtk: "])
              end
            else
              (Ok false, st', [EvLog ERROR "PDFtk command ran but output file '"])
          else (Ok false, st', [EvLog ERROR "PDFtk failed. Command: '"])
      | (TimedOut, st') =>
          (Ok false, st',
           [EvLog ERROR "PDFtk command timed out after 120 seconds for "])
      | (SpawnFailed e, st') =>
          (Ok false, st', [EvLog ERROR "Unexpected error running PDFtk: "])
      end.
Proof.
  intros command Hpath Hin Hdata. unfold apply_bookmarks. run_step.
  destruct (String.eqb_spec pdftk_path "") as [|_]; [done|].
  run_step. rewrite Hin. cbn [negb]. run_step. rewrite Hdata. cbn [negb].
  rewrite run_try_except. run_step. fold command.
  destruct (subprocess_run command 120 st) as [[rc out err| |e] st'];
    [|by run_step..].
  destruct (rc =? 0); [|by run_step].
  run_step.
  destruct (os_path_exists output_pdf_path st') eqn:Hex.
  - run_step.
    destruct (os_path_getsize output_pdf_path st') as [size|e]; [|by run_step].
    run_step. destruct (size >? 0); run_step; [done|].
    rewrite Hex. rewrite run_bind, run_try_except. unfold os_call.
    destruct (os_remove output_pdf_path st') as [[[]|e] st'']; by run_step.
  - run_step. rewrite Hex. by run_step.
Qed.

(** C6, as the code has it.  With a PDFtk path and both input files in
    place, [apply_bookmarks] never raises; it returns [True] exactly when
    PDFtk exits with code zero and the output then exists with a size above
    zero.  When PDFtk exits with code zero and the output exists with size
    zero, [os.remove] is called on it once and the state is the one that
    call leaves, removed or not.  When PDFtk does not exit with code zero,
    nothing is removed: the state is the one PDFtk left. *)
Theorem apply_bookmarks_outcome `{Env}
    (pdftk_path input_pdf_path bookmark_data_path output_pdf_path : string)
    (st : os_state) :
  let command :=
    pdftk_command pdftk_path input_pdf_path bookmark_data_path output_pdf_path in
  let tool := subprocess_run command 120 st in
  let st' := tool.2 in
  let exited_zero := exists out err, tool.1 = Completed 0 out err in
  let run :=
    apply_bookmarks pdftk_path input_pdf_path bookmark_data_path
                    output_pdf_path st in
  pdftk_path <> "" ->
  os_path_exists input_pdf_path st = true ->
  os_path_exists bookmark_data_path st = true ->
  (exists success, outcome run = Ok success) /\
  (outcome run = Ok true <->
   exited_zero /\ os_path_exists output_pdf_path st' = true /\
   exists size, os_path_getsize output_pdf_path st' = OsOk size /\ 0 < size) /\
  (exited_zero -> os_path_exists output_pdf_path st' = true ->
   (exists size, os_path_getsize output_pdf_path st' = OsOk size /\ size <= 0) ->
   outcome run = Ok false /\
   final_state run = (os_remove output_pdf_path st').2 /\
   List.filter is_remove (events run) = [EvRemove output_pdf_path]) /\
  (~ exited_zero ->
   outcome run = Ok false /\ final_state run = st' /\
   Forall (fun ev => ev <> EvRemove output_pdf_path) (events run)).
Proof.
  intros command tool st' exited_zero run Hpath Hin Hdata.
  subst run. rewrite (apply_bookmarks_run _ _ _ _ _ Hpath Hin Hdata).
  fold command. subst exited_zero st' tool.
  destruct (subprocess_run command 120 st) as [[rc out err| |e] st'];
    cbn [fst snd]; run_step.
  - destruct (Z.eqb_spec rc 0) as [->|Hrc].
    + assert (exists out0 err0, Completed 0 out err = Completed 0 out0 err0)
        as Hzero by by exists out, err.
      destruct (os_path_exists output_pdf_path st').
      * destruct (os_path_getsize output_pdf_path st') as [size|e].
        -- destruct (Z.gtb_spec size 0) as [Hsize|Hsize]; run_step.
           ++ split; [by eexists|]. split; [|split].
              ** split; [|done]. intros _. split; [done|]. split; [done|].
                 by exists size.
              ** intros _ _ (size' & [= <-] & ?). lia.
              ** by intros [].
           ++ split; [by eexists|]. split; [|split].
              ** split; [done|]. intros (_ & _ & size' & [= <-] & ?). lia.
              ** done.
              ** by intros [].
        -- run_step. split; [by eexists|]. split; [|split].
           ++ split; [done|]. by intros (_ & _ & size' & [=] & _).
           ++ by intros _ _ (size' & [=] & _).
           ++ by intros [].
      * run_step. split; [by eexists|]. split; [|split].
        -- split; [done|]. by intros (_ & [=] & _).
        -- done.
        -- by intros [].
    + run_step. split; [by eexists|].
      assert (~ exists out0 err0, Completed rc out err = Completed 0 out0 err0)
        as Hnz by (intros (? & ? & [= -> _ _]); done).
      split; [|split].
      * split; [done|]. by intros [? _].
      * by intros ?.
      * intros _. split; [done|]. split; [done|]. by repeat constructor.
  - split; [by eexists|]. split; [|split].
    + split; [done|]. by intros [(? & ? & [=]) _].
    + by intros (? & ? & [=]).
    + intros _. split; [done|]. split; [done|]. by repeat constructor.
  - split; [by eexists|]. split; [|split].
    + split; [done|]. by intros [(? & ? & [=]) _].
    + by intros (? & ? & [=]).
    + intros _. split; [done|]. split; [done|]. by repeat constructor.
Qed.

Lemma apply_bookmarks_outcome_witness :
  outcome (apply_run 0 (Some "%PDF-1.7 with outline") apply_state) = Ok true.
Proof.
  unfold apply_run.
  destruct (@apply_bookmarks_outcome (pdftk_env 0 (Some "%PDF-1.7 with outline"))
              "pdftk" "/up/x.pdf" "/out/job/x_bookmarks.txt"
              "/out/Autobookmarked_x.pdf" apply_state)
    as (_ & Hsuccess & _).
  - discriminate.
  - reflexivity.
  - reflexivity.
  - apply Hsuccess. split; [by eexists _, _|]. split; [reflexivity|].
    eexists. split; [reflexivity|]. vm_compute. reflexivity.
Defined.

(** C6, as stated, fails.  PDFtk exits with code zero and leaves an empty
    output that [os.remove] is refused on: [apply_bookmarks] returns [False]
    and the empty file is still there.  PDFtk exits with code one and leaves
    an empty output: [apply_bookmarks] returns [False], calls no [os.remove],
    and the empty file is still there. *)
Lemma apply_bookmarks_leaves_empty_output :
  (outcome (apply_run 0 (Some "") apply_state_locked) = Ok false /\
   World.getsize "/out/Autobookmarked_x.pdf"
     (final_state (apply_run 0 (Some "") apply_state_locked)) = OsOk 0) /\
  (outcome (apply_run 1 (Some "") apply_state) = Ok false /\
   World.getsize "/out/Autobookmarked_x.pdf"
     (final_state (apply_run 1 (Some "") apply_state)) = OsOk 0 /\
   List.filter is_remove (events (apply_run 1 (Some "") apply_state)) = []).
Proof. repeat split; vm_compute; reflexivity. Qed.

(** ** What the steps emit *)

Section Emits.
Context `{Env} (P : event -> Prop).

Lemma emits_ret {A} (a : A) : emits P (ret a).
Proof. intros st. constructor. Qed.

Lemma emits_raise {A} e : emits P (@raise _ A e).
Proof. intros st. constructor. Qed.

Lemma emits_observe {A} (f : os_state -> A) : emits P (observe f).
Proof. intros st. constructor. Qed.

Lemma emits_log lvl msg : P (EvLog lvl msg) -> emits P (log lvl msg).
Proof. intros HP st. by repeat constructor. Qed.

Lemma emits_bind {A B} (m : M A) (k : A -> M B) :
  emits P m -> (forall a, emits P (k a)) -> emits P (bind m k).
Proof.
  intros Hm Hk st. rewrite run_bind. specialize (Hm st).
  destruct (outcome (m st)) as [a|e]; [|done].
  rewrite events_after. apply Forall_app. split; [done|apply Hk].
Qed.

Lemma emits_try_except {A} (m : M A) (h : exn -> M A) :
  emits P m -> (forall e, emits P (h e)) -> emits P (try_except m h).
Proof.
  intros Hm Hh st. rewrite run_try_except. specialize (Hm st).
  destruct (outcome (m st)) as [a|e]; [done|].
  rewrite events_after. apply Forall_app. split; [done|apply Hh].
Qed.

Lemma emits_os_call {A} ev (f : os_state -> os_result A * os_state) :
  P ev -> emits P (os_call ev f).
Proof.
  intros HP st. unfold os_call.
  destruct (f st) as [[a|e] st']; by repeat constructor.
Qed.

Lemma emits_check_run command t : P (EvRun command) -> emits P (check_run command t).
Proof.
  intros HP st. unfold check_run.
  destruct (subprocess_run command t st) as [[rc out err| |e] st'];
    [destruct (rc =? 0)|..]; by repeat constructor.
Qed.

Lemma emits_read_bytes path : emits P (read_bytes path).
Proof. intros st. unfold read_bytes. destruct (open_read path st); constructor. Qed.

Lemma emits_getsize path : emits P (getsize path).
Proof.
  intros st. unfold getsize. destruct (os_path_getsize path st); constructor.
Qed.

Lemma emits_call_generate_content client model contents config :
  P (EvGenerateContent model contents config) ->
  emits P (call_generate_content client model contents config).
Proof.
  intros HP st. unfold call_generate_content.
  destruct (generate_content client model contents config st) as [[e|text] st'];
    by repeat constructor.
Qed.

Lemma emits_getitem paths k : emits P (getitem paths k).
Proof. unfold getitem. destruct (paths !! k); [apply emits_ret|apply emits_raise]. Qed.

End Emits.

(** Breaks [emits P m] along the structure of [m]; what is left are the
    conditions on the events [m] names. *)
Ltac emits_step :=
  match goal with
  | |- emits _ (bind _ _) => apply emits_bind; [|intros ?]
  | |- emits _ (try_except _ _) => apply emits_try_except; [|intros ?]
  | |- emits _ (ret _) => apply emits_ret
  | |- emits _ (raise _) => apply emits_raise
  | |- emits _ (observe _) => apply emits_observe
  | |- emits _ (log _ _) => apply emits_log
  | |- emits _ (os_call _ _) => apply emits_os_call
  | |- emits _ (write_text _ _) => apply emits_os_call
  | |- emits _ (check_run _ _) => apply emits_check_run
  | |- emits _ (read_bytes _) => apply emits_read_bytes
  | |- emits _ (getsize _) => apply emits_getsize
  | |- emits _ (getitem _ _) => apply emits_getitem
  | |- emits _ (call_generate_content _ _ _ _) => apply emits_call_generate_content
  | |- emits _ (if ?b then _ else _) => destruct b
  | |- emits _ (match ?x with _ => _ end) => destruct x
  end.

Section NoTeardown.
Context `{Env}.

Lemma pdf_to_images_quiet pdf_path output_dir gs_path resolution image_format :
  emits quiet (pdf_to_images pdf_path output_dir gs_path resolution image_format).
Proof. unfold pdf_to_images. cbv zeta. repeat emits_step; done. Qed.

Lemma prepare_image_parts_quiet image_paths image_parts :
  emits quiet (prepare_image_parts image_paths image_parts).
Proof.
  revert image_parts. induction image_paths as [|path rest IH]; intros image_parts.
  - apply emits_ret.
  - cbn [prepare_image_parts]. repeat emits_step; done || apply IH.
Qed.

Lemma clean_and_parse_json_quiet raw_text : emits quiet (clean_and_parse_json raw_text).
Proof. unfold clean_and_parse_json. cbv zeta. repeat emits_step; done. Qed.

Lemma generate_bookmarks_ai_quiet client model_name temperature template
    image_paths response_schema :
  emits quiet (generate_bookmarks_ai client model_name temperature template
                 image_paths response_schema).
Proof.
  unfold generate_bookmarks_ai. cbv zeta.
  repeat emits_step;
    done || apply prepare_image_parts_quiet || apply clean_and_parse_json_quiet.
Qed.

Lemma build_bookmarks_quiet pages_data pdftk_bookmarks :
  emits quiet (build_bookmarks pages_data pdftk_bookmarks).
Proof.
  revert pdftk_bookmarks.
  induction pages_data as [|page_detail rest IH]; intros pdftk_bookmarks.
  - apply emits_ret.
  - cbn [build_bookmarks]. repeat emits_step; done || apply IH.
Qed.

Lemma convert_ai_response_to_pdftk_quiet response_data output_bmk_path :
  emits quiet (convert_ai_response_to_pdftk response_data output_bmk_path).
Proof.
  unfold convert_ai_response_to_pdftk. cbv zeta.
  repeat emits_step; done || apply build_bookmarks_quiet.
Qed.

Lemma apply_bookmarks_quiet pdftk_path input_pdf_path bookmark_data_path
    output_pdf_path :
  emits quiet (apply_bookmarks pdftk_path input_pdf_path bookmark_data_path
                 output_pdf_path).
Proof. unfold apply_bookmarks. cbv zeta. repeat emits_step; done. Qed.

Lemma workflow_steps_quiet input_pdf_path paths gs_path pdftk_path client config :
  emits quiet
    (try_except
       (workflow_steps input_pdf_path paths gs_path pdftk_path client config)
       workflow_except).
Proof.
  unfold workflow_steps, workflow_except.
  repeat emits_step;
    done || apply pdf_to_images_quiet || apply generate_bookmarks_ai_quiet
    || apply convert_ai_response_to_pdftk_quiet || apply apply_bookmarks_quiet.
Qed.

End NoTeardown.

(** ** The orchestrator *)

Section Orchestrator.
Context `{Env}.

(** The [finally] suite never raises; it calls [shutil.rmtree] when the
    directory is named and exists, and records the outcome. *)
Lemma workflow_finally_run temp_dir_to_clean st :
  workflow_finally temp_dir_to_clean st =
  after [EvLog INFO "Initiating cleanup for temporary directory: "]
    (if negb (String.eqb temp_dir_to_clean "") && os_path_exists temp_dir_to_clean st
     then match shutil_rmtree temp_dir_to_clean st with
          | (OsOk _, st') =>
              (Ok tt, st',
               [EvRmtree temp_dir_to_clean;
                EvLog INFO "Successfully cleaned up temporary directory: "])
          | (OsError _, st') =>
              (Ok tt, st',
               [EvRmtree temp_dir_to_clean;
                EvLog ERROR "Error during temporary directory cleanup "])
          end
     else (Ok tt, st,
           [EvLog INFO "Temporary directory does not exist or was already cleaned up."])).
Proof.
  unfold workflow_finally. run_step.
  destruct (negb (String.eqb temp_dir_to_clean "") && os_path_exists temp_dir_to_clean st).
  - rewrite run_try_except. run_step.
    destruct (shutil_rmtree temp_dir_to_clean st) as [[[]|e] st']; by run_step.
  - by run_step.
Qed.

(** The [except] clause hands on what the [try] suite raised. *)
Lemma workflow_except_outcome (m : M string) st :
  outcome (try_except m workflow_except st) = outcome (m st).
Proof.
  rewrite run_try_except. destruct (outcome (m st)) as [a|e] eqn:E; [done|].
  unfold workflow_except. by run_step.
Qed.

Lemma process_pdf_workflow_run input_pdf_path paths gs_path pdftk_path client
    config st temp_dir final_output_path :
  paths !! "temp_dir" = Some temp_dir ->
  paths !! "final_output_path" = Some final_output_path ->
  let body :=
    try_except
      (workflow_steps input_pdf_path paths gs_path pdftk_path client config)
      workflow_except st in
  let cleanup := workflow_finally temp_dir (final_state body) in
  process_pdf_workflow input_pdf_path paths gs_path pdftk_path client config st
  = (outcome body, final_state cleanup,
     [ EvLog INFO "Starting PDF processing workflow for: ";
       EvLog INFO "Intermediate files will be stored in: ";
       EvLog INFO "Final output target: " ]
     ++ events body ++ events cleanup).
Proof.
  intros Htd Hfo body cleanup.
  unfold process_pdf_workflow, getitem. rewrite Htd, Hfo. run_step.
  unfold try_finally. fold body.
  destruct body as [[r st1] ev1] eqn:Hbody. subst cleanup.
  autorewrite with run. rewrite workflow_finally_run.
  destruct (negb (String.eqb temp_dir "") && os_path_exists temp_dir st1);
    [destruct (shutil_rmtree temp_dir st1) as [[[]|e] st2]|]; by run_step.
Qed.

End Orchestrator.

Lemma filter_quiet (f : event -> bool) l :
  (forall ev, f ev = true -> is_teardown ev = true) ->
  Forall (fun ev => is_teardown ev = false) l -> List.filter f l = [].
Proof.
  intros Hf Hl. induction Hl as [|ev l Hev _ IH]; [done|]. simpl.
  destruct (f ev) eqn:E; [|done]. apply Hf in E. congruence.
Qed.

(** C4. Given the [temp_dir] and [final_output_path] entries of [paths],
    every run of [process_pdf_workflow] ends with the [finally] suite and
    enters it once: the events are those of the [try] and [except] part,
    none of which belongs to the teardown, followed by the record that
    starts the cleanup and by its tail.  The tail is one call of
    [shutil.rmtree] on the temporary directory with the record of its
    success, or with the error record of its failure, or, when the
    directory is unnamed or absent, one record that says so.  In each case
    the run returns or raises what the [try] suite returned or raised. *)
Theorem process_pdf_workflow_teardown `{Env}
    (input_pdf_path : string) (paths : gmap string string)
    (gs_path pdftk_path : string) (client : option Client) (config : AppConfig)
    (st : os_state) (temp_dir final_output_path : string) :
  paths !! "temp_dir" = Some temp_dir ->
  paths !! "final_output_path" = Some final_output_path ->
  let steps :=
    workflow_steps input_pdf_path paths gs_path pdftk_path client config in
  let st1 := final_state (try_except steps workflow_except st) in
  let run :=
    process_pdf_workflow input_pdf_path paths gs_path pdftk_path client config st in
  let named_and_present :=
    negb (String.eqb temp_dir "") && os_path_exists temp_dir st1 in
  outcome run = outcome (steps st) /\
  length (List.filter starts_cleanup (events run)) = 1%nat /\
  (length (List.filter is_rmtree (events run)) <= 1)%nat /\
  exists before tail,
    events run
    = before ++ EvLog INFO "Initiating cleanup for temporary directory: " :: tail /\
    Forall (fun ev => is_teardown ev = false) before /\
    ((named_and_present = true /\
      exists st2, shutil_rmtree temp_dir st1 = (OsOk tt, st2) /\
        final_state run = st2 /\
        tail = [EvRmtree temp_dir;
                EvLog INFO "Successfully cleaned up temporary directory: "]) \/
     (named_and_present = true /\
      exists e st2, shutil_rmtree temp_dir st1 = (OsError e, st2) /\
        final_state run = st2 /\
        tail = [EvRmtree temp_dir;
                EvLog ERROR "Error during temporary directory cleanup "]) \/
     (named_and_present = false /\
      final_state run = st1 /\
      tail = [EvLog INFO
                "Temporary directory does not exist or was already cleaned up."])).
Proof.
  intros Htd Hfo steps st1 run named_and_present.
  subst run. rewrite (process_pdf_workflow_run _ _ _ _ _ _ _ _ _ Htd Hfo).
  fold steps. fold st1. autorewrite with run.
  pose proof (workflow_steps_quiet input_pdf_path paths gs_path pdftk_path client
                config st) as Hquiet.
  fold steps in Hquiet. cbv zeta in Hquiet.
  set (before := [ EvLog INFO "Starting PDF processing workflow for: ";
                   EvLog INFO "Intermediate files will be stored in: ";
                   EvLog INFO "Final output target: " ]
                 ++ events (try_except steps workflow_except st)).
  assert (Hbefore : Forall (fun ev => is_teardown ev = false) before).
  { apply Forall_app. split; [by repeat constructor|done]. }
  assert (Hstart : List.filter starts_cleanup before = []).
  { apply filter_quiet; [|done]. intros ev Hev. unfold is_teardown. by rewrite Hev. }
  assert (Hrm : List.filter is_rmtree before = []).
  { apply filter_quiet; [|done]. intros ev Hev. unfold is_teardown.
    rewrite Hev. apply orb_true_r. }
  rewrite workflow_finally_run. fold named_and_present.
  split; [apply workflow_except_outcome|].
  rewrite (app_assoc _ (events (try_except steps workflow_except st))).
  fold before.
  destruct named_and_present eqn:Hnp.
  - destruct (shutil_rmtree temp_dir st1) as [[[]|e] st2] eqn:Hrmtree;
      autorewrite with run; rewrite !List.filter_app, Hstart, Hrm;
      (split; [done|]); (split; [simpl; lia|]);
      exists before; eexists; (split; [done|]); (split; [done|]).
    + left. split; [done|]. by exists st2.
    + right. left. split; [done|]. by exists e, st2.
  - autorewrite with run. rewrite !List.filter_app, Hstart, Hrm.
    split; [done|]. split; [simpl; lia|].
    exists before. eexists. split; [done|]. split; [done|].
    right. right. done.
Qed.

Lemma process_pdf_workflow_teardown_witness :
  outcome (job_run gs_exits_one 0 None job_state_locked)
  = Raise (RuntimeError "Ghostscript conversion failed for x.pdf"
             (Some (CalledProcessError 1
                      (gs_command "gs" "pnggray" 120
                         "/out/job/images/page_%04d.png" "/up/x.pdf")))) /\
  length (List.filter starts_cleanup
            (events (job_run gs_exits_one 0 None job_state_locked))) = 1%nat.
Proof.
  unfold job_run.
  destruct (@process_pdf_workflow_teardown (job_env gs_exits_one 0 None)
              "/up/x.pdf" job_paths "gs" "pdftk" (Some tt) job_config
              job_state_locked "/out/job" "/out/Autobookmarked_x.pdf")
    as (Houtcome & Honce & _).
  - reflexivity.
  - reflexivity.
  - split; [|exact Honce]. rewrite Houtcome. vm_compute. reflexivity.
Defined.

(** A whole job: three pages, a complete response, a PDFtk that writes the
    output.  The path of the output is returned, the output is there and
    the temporary directory is gone. *)
Example whole_job_succeeds :
  outcome (job_run gs_three_pages 0 (Some "%PDF-1.7 with outline") job_state)
  = Ok "/out/Autobookmarked_x.pdf" /\
  World.exists_ "/out/Autobookmarked_x.pdf"
    (final_state (job_run gs_three_pages 0 (Some "%PDF-1.7 with outline") job_state))
  = true /\
  World.exists_ "/out/job"
    (final_state (job_run gs_three_pages 0 (Some "%PDF-1.7 with outline") job_state))
  = false.
Proof. repeat split; vm_compute; reflexivity. Qed.

(** * Further properties *)

(** ** [pdf_to_images] *)

Lemma pdf_to_images_missing_input `{Env} pdf_path output_dir gs_path resolution
    image_format st :
  os_path_exists pdf_path st = false ->
  pdf_to_images pdf_path output_dir gs_path resolution image_format st
  = (Raise (FileNotFoundError ("Input PDF not found at: " +:+ pdf_path)), st,
     [EvLog INFO "Attempting PDF to image conversion for: "]).
Proof.
  intros Hpdf. unfold pdf_to_images, bind, log, emit, observe, raise.
  by rewrite Hpdf.
Qed.

Lemma pdf_to_images_no_gs_path `{Env} pdf_path output_dir resolution
    image_format st :
  os_path_exists pdf_path st = true ->
  pdf_to_images pdf_path output_dir "" resolution image_format st
  = (Raise (ValueError "Ghostscript path is not provided." None), st,
     [EvLog INFO "Attempting PDF to image conversion for: "]).
Proof.
  intros Hpdf. unfold pdf_to_images, bind, log, emit, observe, raise.
  by rewrite Hpdf.
Qed.

(** The run of [pdf_to_images] once its arguments are accepted: one call of
    Ghostscript, then what its outcome decides. *)
Lemma pdf_to_images_run `{Env}
    (pdf_path output_dir gs_path : string) (resolution : Z)
    (image_format : string) (st : os_state) :
  let ext := image_ext image_format in
  let command :=
    gs_command gs_path image_format resolution
      (OsPath.join output_dir ("page_%04d." +:+ ext)) pdf_path in
  let glob_pattern := OsPath.join output_dir ("page_*." +:+ ext) in
  os_path_exists pdf_path st = true ->
  gs_path <> "" ->
  pdf_to_images pdf_path output_dir gs_path resolution image_format st
  = after [ EvLog INFO "Attempting PDF to image conversion for: ";
            EvLog INFO "Running Ghostscript command: ";
            EvRun command ]
      match subprocess_run command 1200 st with
      | (Completed rc out err, st') =>
          if rc =? 0 then
            match glob_glob glob_pattern st' with
            | [] =>
                (Raise (unexpected_conversion_error pdf_path
                          (no_images_error glob_pattern)),
                 st',
                 [EvLog INFO "Ghostscript conversion command executed successfully.";
                  EvLog ERROR "Unexpected error during Ghostscript conversion: "])
            | image_files =>
                (Ok (list_sort_key (sort_key ext) image_files), st',
                 [EvLog INFO "Ghostscript conversion command executed successfully.";
                  EvLog INFO "Found and sorted "])
            end
          else
            (Raise (RuntimeError
                      ("Ghostscript conversion failed for "
                       +:+ OsPath.basename pdf_path)
                      (Some (CalledProcessError rc command))),
             st', [EvLog ERROR "Ghostscript failed. Command: '"])
      | (TimedOut, st') =>
          (Raise (RuntimeError
                    ("Ghostscript timed out for " +:+ OsPath.basename pdf_path)
                    None),
           st', [EvLog ERROR "Ghostscript command timed out after 300 seconds for "])
      | (SpawnFailed e, st') =>
          (Raise (unexpected_conversion_error pdf_path (OSError e)), st',
           [EvLog ERROR "Unexpected error during Ghostscript conversion: "])
      end.
Proof.
  intros ext command glob_pattern Hpdf Hgs.
  unfold pdf_to_images, bind at 1, log at 1, emit, bind at 1, observe at 1.
  rewrite Hpdf. cbn [negb].
  destruct (String.eqb_spec gs_path "") as [|_]; [done|].
  cbv zeta. fold ext. fold command. fold glob_pattern.
  unfold try_except, bind at 1, log at 1, emit, bind at 1, check_run.
  destruct (subprocess_run command 1200 st) as [[rc out err| |e] st'];
    [|done..].
  destruct (rc =? 0); [|done].
  unfold bind, log, emit, observe, ret, raise.
  by destruct (glob_glob glob_pattern st') as [|f fs].
Qed.

(** X1. [pdf_to_images] checks its two arguments before anything runs: a
    missing input is a [FileNotFoundError], an empty [gs_path] a
    [ValueError], both with the world untouched and no program called.
    Otherwise Ghostscript is called exactly once, and the world is left as
    that call left it. *)
Theorem pdf_to_images_calls_ghostscript_once `{Env}
    (pdf_path output_dir gs_path : string) (resolution : Z)
    (image_format : string) (st : os_state) :
  let run := pdf_to_images pdf_path output_dir gs_path resolution image_format st in
  let command :=
    gs_command gs_path image_format resolution
      (OsPath.join output_dir ("page_%04d." +:+ image_ext image_format)) pdf_path in
  if os_path_exists pdf_path st then
    if String.eqb gs_path "" then
      outcome run = Raise (ValueError "Ghostscript path is not provided." None) /\
      final_state run = st /\
      List.filter is_run (events run) = []
    else
      List.filter is_run (events run) = [EvRun command] /\
      final_state run = (subprocess_run command 1200 st).2
  else
    outcome run = Raise (FileNotFoundError ("Input PDF not found at: " +:+ pdf_path)) /\
    final_state run = st /\
    List.filter is_run (events run) = [].
Proof.
  intros run command.
  destruct (os_path_exists pdf_path st) eqn:Hpdf;
    [destruct (String.eqb_spec gs_path "") as [Hgs|Hgs]|].
  - subst run. rewrite Hgs, pdf_to_images_no_gs_path by done.
    by autorewrite with run.
  - subst run command. rewrite pdf_to_images_run by done.
    destruct (subprocess_run _ 1200 st) as [[rc out err| |e] st'];
      [destruct (rc =? 0); [destruct (glob_glob _ st')|]|..];
      by autorewrite with run.
  - subst run. rewrite pdf_to_images_missing_input by done.
    by autorewrite with run.
Qed.

(** X2. What [pdf_to_images] returns is never empty; it is the list that
    [glob] found after the conversion, rearranged, and in ascending order
    of [sort_key]. *)
Theorem pdf_to_images_result_sorted `{Env}
    (pdf_path output_dir gs_path : string) (resolution : Z)
    (image_format : string) (st : os_state) (image_files : list string) :
  let run := pdf_to_images pdf_path output_dir gs_path resolution image_format st in
  let ext := image_ext image_format in
  outcome run = Ok image_files ->
  image_files <> [] /\
  image_files ≡ₚ glob_glob (OsPath.join output_dir ("page_*." +:+ ext)) (final_state run) /\
  Sorted (key_le (sort_key ext)) image_files.
Proof.
  intros run ext. subst run.
  destruct (os_path_exists pdf_path st) eqn:Hpdf;
    [destruct (String.eqb_spec gs_path "") as [Hgs|Hgs]|].
  - rewrite Hgs, pdf_to_images_no_gs_path by done. by autorewrite with run.
  - rewrite pdf_to_images_run by done. fold ext.
    destruct (subprocess_run _ 1200 st) as [[rc out err| |e] st'];
      [destruct (rc =? 0);
         [destruct (glob_glob _ st') as [|f fs] eqn:Hglob|]|..];
      autorewrite with run; try done.
    intros [= <-]. rewrite Hglob. split; [|split].
    + intros Hnil.
      pose proof (Permutation_length
                    (list_sort_key_perm (sort_key ext) (f :: fs))) as Hp.
      apply (f_equal length) in Hnil.
      pose proof (eq_trans (eq_sym Hp) Hnil) as Hlen. discriminate Hlen.
    + apply (list_sort_key_perm (sort_key ext) (f :: fs)).
    + apply (list_sort_key_sorted (sort_key ext) (f :: fs)).
  - rewrite pdf_to_images_missing_input by done. by autorewrite with run.
Qed.

Lemma pdf_to_images_result_sorted_witness :
  exists image_files,
    outcome gs_run = Ok image_files /\
    image_files <> [] /\
    image_files ≡ₚ @glob_glob gs_env "/out/job/images/page_*.png" (final_state gs_run) /\
    Sorted (key_le (sort_key "png")) image_files.
Proof.
  eexists. split; [vm_compute; reflexivity|].
  apply (@pdf_to_images_result_sorted gs_env "/up/x.pdf" "/out/job/images" "gs" 120
           "pnggray" gs_state).
  vm_compute. reflexivity.
Defined.

(** X3. [pdf_to_images] raises nothing but the [FileNotFoundError] and the
    [ValueError] of its argument checks and [RuntimeError]: the
    [CalledProcessError] and [TimeoutExpired] of the call of Ghostscript
    never reach the caller. *)
Theorem pdf_to_images_raises_only `{Env}
    (pdf_path output_dir gs_path : string) (resolution : Z)
    (image_format : string) (st : os_state) (e : exn) :
  outcome (pdf_to_images pdf_path output_dir gs_path resolution image_format st)
  = Raise e ->
  e = FileNotFoundError ("Input PDF not found at: " +:+ pdf_path) \/
  e = ValueError "Ghostscript path is not provided." None \/
  exists msg cause, e = RuntimeError msg cause.
Proof.
  destruct (os_path_exists pdf_path st) eqn:Hpdf;
    [destruct (String.eqb_spec gs_path "") as [Hgs|Hgs]|].
  - rewrite Hgs, pdf_to_images_no_gs_path by done. autorewrite with run.
    intros [= <-]. by right; left.
  - rewrite pdf_to_images_run by done.
    destruct (subprocess_run _ 1200 st) as [[rc out err| |e'] st'];
      [destruct (rc =? 0); [destruct (glob_glob _ st')|]|..];
      autorewrite with run; try done; intros [= <-]; right; right;
      by eexists _, _.
  - rewrite pdf_to_images_missing_input by done. autorewrite with run.
    intros [= <-]. by left.
Qed.

Lemma pdf_to_images_raises_only_witness :
  RuntimeError "Ghostscript timed out for x.pdf" None
  = FileNotFoundError ("Input PDF not found at: " +:+ "/up/x.pdf") \/
  RuntimeError "Ghostscript timed out for x.pdf" None
  = ValueError "Ghostscript path is not provided." None \/
  exists msg cause, RuntimeError "Ghostscript timed out for x.pdf" None
                    = RuntimeError msg cause.
Proof.
  apply (@pdf_to_images_raises_only (tool_env times_out) "/up/x.pdf"
           "/out/job/images" "gs" 120 "pnggray" gs_state).
  vm_compute. reflexivity.
Defined.

(** X4. A Ghostscript that exits with code zero and leaves no file that
    matches [page_*.<ext>] is a failure.  The [RuntimeError] raised for it
    inside the [try] is caught by the function's own [except Exception]:
    the caller receives the "unexpected error" [RuntimeError], with the
    "no images found" one as its cause. *)
Theorem pdf_to_images_no_images `{Env}
    (pdf_path output_dir gs_path : string) (resolution : Z)
    (image_format : string) (st st' : os_state) (out err : string) :
  let ext := image_ext image_format in
  let glob_pattern := OsPath.join output_dir ("page_*." +:+ ext) in
  let run := pdf_to_images pdf_path output_dir gs_path resolution image_format st in
  os_path_exists pdf_path st = true ->
  gs_path <> "" ->
  subprocess_run
    (gs_command gs_path image_format resolution
       (OsPath.join output_dir ("page_%04d." +:+ ext)) pdf_path) 1200 st
  = (Completed 0 out err, st') ->
  glob_glob glob_pattern st' = [] ->
  outcome run
  = Raise (unexpected_conversion_error pdf_path (no_images_error glob_pattern)) /\
  last (events run)
  = Some (EvLog ERROR "Unexpected error during Ghostscript conversion: ").
Proof.
  intros ext glob_pattern run Hpdf Hgs Hrun Hglob. subst run.
  rewrite pdf_to_images_run by done. fold ext. rewrite Hrun. cbn [Z.eqb].
  fold glob_pattern. rewrite Hglob. by autorewrite with run.
Qed.

Lemma pdf_to_images_no_images_witness :
  outcome (conversion_run exits_zero)
  = Raise (unexpected_conversion_error "/up/x.pdf"
             (no_images_error "/out/job/images/page_*.png")) /\
  last (events (conversion_run exits_zero))
  = Some (EvLog ERROR "Unexpected error during Ghostscript conversion: ").
Proof.
  apply (@pdf_to_images_no_images (tool_env exits_zero) "/up/x.pdf"
           "/out/job/images" "gs" 120 "pnggray" gs_state gs_state "" "");
    [reflexivity|discriminate|reflexivity|vm_compute; reflexivity].
Defined.

(** X5. Ghostscript is given 1200 seconds.  When it exceeds them the caller
    receives a [RuntimeError] without cause that names the input file, and
    the record logged for it says 300 seconds. *)
Theorem pdf_to_images_timeout `{Env}
    (pdf_path output_dir gs_path : string) (resolution : Z)
    (image_format : string) (st st' : os_state) :
  let run := pdf_to_images pdf_path output_dir gs_path resolution image_format st in
  os_path_exists pdf_path st = true ->
  gs_path <> "" ->
  subprocess_run
    (gs_command gs_path image_format resolution
       (OsPath.join output_dir ("page_%04d." +:+ image_ext image_format)) pdf_path)
    1200 st
  = (TimedOut, st') ->
  outcome run
  = Raise (RuntimeError ("Ghostscript timed out for " +:+ OsPath.basename pdf_path)
             None) /\
  last (events run)
  = Some (EvLog ERROR "Ghostscript command timed out after 300 seconds for ").
Proof.
  intros run Hpdf Hgs Hrun. subst run.
  rewrite pdf_to_images_run by done. rewrite Hrun. by autorewrite with run.
Qed.

Lemma pdf_to_images_timeout_witness :
  outcome (conversion_run times_out)
  = Raise (RuntimeError ("Ghostscript timed out for " +:+ OsPath.basename "/up/x.pdf")
             None) /\
  last (events (conversion_run times_out))
  = Some (EvLog ERROR "Ghostscript command timed out after 300 seconds for ").
Proof.
  apply (@pdf_to_images_timeout (tool_env times_out) "/up/x.pdf"
           "/out/job/images" "gs" 120 "pnggray" gs_state gs_state);
    [reflexivity|discriminate|reflexivity].
Defined.

(** ** [generate_bookmarks_ai] *)

Lemma filter_logs (f : event -> bool) l :
  (forall lvl msg, f (EvLog lvl msg) = false) ->
  Forall is_log l -> List.filter f l = [].
Proof.
  intros Hf Hl. induction Hl as [|ev l Hev _ IH]; [done|].
  destruct ev; try done. simpl. by rewrite Hf.
Qed.

(** Computes [List.filter f] over a list of events given by its parts,
    those that are variables being known to hold log records only. *)
Ltac filter_parts :=
  rewrite ?List.filter_app;
  repeat match goal with
  | Hl : Forall is_log ?l |- context [List.filter ?f ?l] =>
      rewrite (filter_logs f l (fun _ _ => eq_refl) Hl)
  end;
  reflexivity.

(** The image loop over dropped paths adds nothing. *)
Lemma prepare_image_parts_dropped `{Env} image_paths image_parts st :
  Forall (dropped st) image_paths ->
  outcome (prepare_image_parts image_paths image_parts st) = Ok image_parts.
Proof.
  intros Hall. induction Hall as [|path rest Hpath _ IH]; [done|].
  cbn [prepare_image_parts]. rewrite run_observe.
  destruct (os_path_exists path st) eqn:Hex; cbn [negb].
  - destruct Hpath as [|Hmime]; [congruence|]. rewrite run_observe, Hmime.
    by run_step.
  - by run_step.
Qed.

(** The image loop over usable paths adds their parts, in order. *)
Lemma prepare_image_parts_all `{Env} image_paths parts image_parts st :
  Forall2 (gives_part st) image_paths parts ->
  outcome (prepare_image_parts image_paths image_parts st)
  = Ok (image_parts ++ parts).
Proof.
  intros Hall. revert image_parts.
  induction Hall as [|path part rest parts (Hex & Hmime & Hread) _ IH];
    intros image_parts.
  - by rewrite app_nil_r.
  - cbn [prepare_image_parts]. rewrite run_observe, Hex. cbn [negb].
    rewrite run_observe, Hmime, run_read_bytes, Hread.
    destruct part as [data mime_type]. cbn [part_data part_mime_type].
    by rewrite IH, <- app_assoc.
Qed.

(** The image loop stops at the first path that cannot be read. *)
Lemma prepare_image_parts_unreadable `{Env} image_paths image_parts st :
  Exists (unreadable st) image_paths ->
  exists e, outcome (prepare_image_parts image_paths image_parts st)
            = Raise (OSError e).
Proof.
  intros Hex. revert image_parts.
  induction image_paths as [|path rest IH]; intros image_parts.
  { by apply Exists_nil in Hex. }
  cbn [prepare_image_parts]. rewrite run_observe.
  destruct (os_path_exists path st) eqn:Hpath; cbn [negb].
  - rewrite run_observe.
    destruct (mime_type_of path st) as [mime_type|] eqn:Hmime.
    + rewrite run_read_bytes.
      destruct (open_read path st) as [img_bytes|e] eqn:Hread.
      * apply Exists_cons in Hex as [(_ & _ & e & He)|Hex]; [congruence|].
        by apply IH.
      * by exists e.
    + apply Exists_cons in Hex as [(_ & Hm & _)|Hex]; [done|].
      run_step. by apply IH.
  - apply Exists_cons in Hex as [(Hp & _)|Hex]; [congruence|].
    run_step. by apply IH.
Qed.

(** The run of [generate_bookmarks_ai] when the image loop fails or leaves
    no part. *)
Lemma generate_bookmarks_ai_preparation_run `{Env}
    (client : Client) (model_name : string) (temperature : Q)
    (system_prompt_template : string) (image_paths : list string)
    (response_schema : response_schema_t) (st : os_state) (cause : exn) :
  image_paths <> [] ->
  match outcome (prepare_image_parts image_paths [] st) with
  | Ok [] => cause = no_valid_parts
  | Ok _ => False
  | Raise e => cause = e
  end ->
  let run := generate_bookmarks_ai (Some client) model_name temperature
               system_prompt_template image_paths response_schema st in
  outcome run = Raise (preparation_failed cause) /\
  final_state run = st /\
  Forall is_log (events run).
Proof.
  intros Hne Hprep run.
  destruct (prepare_image_parts_run image_paths [] st) as (Hst & Hev & _).
  assert (Hrun : exists ev,
            run = (Raise (preparation_failed cause), st, ev) /\ Forall is_log ev).
  { subst run. unfold generate_bookmarks_ai.
    destruct image_paths as [|path0 rest] eqn:Hpaths; [done|].
    rewrite <- Hpaths in *. clear Hpaths path0 rest Hne.
    unfold bind, try_except, log, emit, ret, raise.
    destruct (prepare_image_parts image_paths [] st) as [[[parts|e] st1] ev1];
      autorewrite with run in Hst, Hev, Hprep; subst st1.
    - destruct parts; [|done]. subst cause. eexists. split; [reflexivity|].
      constructor; [done|]. forall_parts.
    - subst cause. eexists. split; [reflexivity|].
      constructor; [done|]. forall_parts. }
  destruct Hrun as (ev & -> & Hlogs). by autorewrite with run.
Qed.

(** The run of [generate_bookmarks_ai] once the parts are prepared and the
    prompt is rendered: one request, then what the answer decides. *)
Lemma generate_bookmarks_ai_request_run `{Env}
    (client : Client) (model_name : string) (temperature : Q)
    (system_prompt_template : string) (image_paths : list string)
    (response_schema : response_schema_t) (st : os_state)
    (image_parts : list Part) (prompt : string) :
  let config := request_config temperature response_schema prompt in
  let run := generate_bookmarks_ai (Some client) model_name temperature
               system_prompt_template image_paths response_schema st in
  let answer := generate_content client model_name image_parts config st in
  outcome (prepare_image_parts image_paths [] st) = Ok image_parts ->
  image_parts <> [] ->
  str_format system_prompt_template (Z.of_nat (length image_paths)) = Ok prompt ->
  outcome run
  = match answer.1 with
    | GenRaised e => Raise (interaction_failed e)
    | GenResponse None | GenResponse (Some "") =>
        Raise (interaction_failed no_text_content)
    | GenResponse (Some raw_text) =>
        match outcome (clean_and_parse_json raw_text answer.2) with
        | Ok parsed_data => Ok parsed_data
        | Raise e => Raise (interaction_failed e)
        end
    end /\
  final_state run = answer.2 /\
  List.filter is_request (events run)
  = [EvGenerateContent model_name image_parts config].
Proof.
  intros config run answer Hprep Hne Hfmt.
  destruct (prepare_image_parts_run image_paths [] st) as (Hst & Hev & _).
  assert (Hclean : forall raw_text st2, exists r ev,
    clean_and_parse_json raw_text st2 = (r, st2, ev) /\ Forall is_log ev).
  { intros raw_text st2.
    pose proof (clean_and_parse_json_logs raw_text st2) as Hlogs.
    assert (final_state (clean_and_parse_json raw_text st2) = st2) as Hst2.
    { unfold clean_and_parse_json.
      destruct ((_ =? -1) || (_ =? -1) || (_ <? _)); [done|].
      by destruct (json_loads _). }
    destruct (clean_and_parse_json raw_text st2) as [[r st3] ev].
    autorewrite with run in *. subst st3. by exists r, ev. }
  assert (Hrun : exists ev1 ev2,
    run = (match answer.1 with
           | GenRaised e => Raise (interaction_failed e)
           | GenResponse None | GenResponse (Some "") =>
               Raise (interaction_failed no_text_content)
           | GenResponse (Some raw_text) =>
               match outcome (clean_and_parse_json raw_text answer.2) with
               | Ok parsed_data => Ok parsed_data
               | Raise e => Raise (interaction_failed e)
               end
           end, answer.2,
           ev1 ++ EvGenerateContent model_name image_parts config :: ev2) /\
    Forall is_log ev1 /\ Forall is_log ev2).
  { subst run answer. unfold generate_bookmarks_ai.
    destruct image_paths as [|path0 rest] eqn:Hpaths.
    { cbn in Hprep. autorewrite with run in Hprep. congruence. }
    rewrite <- Hpaths in *. clear Hpaths path0 rest. rewrite Hfmt.
    unfold bind, try_except, log, emit, ret, raise, call_generate_content.
    destruct (prepare_image_parts image_paths [] st) as [[r st1] ev1].
    autorewrite with run in Hst, Hev, Hprep. subst r st1.
    destruct image_parts as [|part parts'] eqn:Hparts; [done|].
    rewrite <- Hparts in *. clear Hparts part parts' Hne.
    fold (request_config temperature response_schema prompt). fold config.
    destruct (generate_content client model_name image_parts config st)
      as [[e|text] st2]; cbn [fst snd].
    { exists ([EvLog INFO "Starting AI bookmark generation for "]
              ++ (ev1 ++ [EvLog INFO "Prepared "])
              ++ [EvLog INFO "Calling Gemini model '"]). eexists.
      split; [by rewrite <- !app_assoc|]. split; by forall_parts. }
    destruct text as [[|c raw_text]|].
    - exists ([EvLog INFO "Starting AI bookmark generation for "]
              ++ (ev1 ++ [EvLog INFO "Prepared "])
              ++ [EvLog INFO "Calling Gemini model '"]). eexists.
      split; [by rewrite <- !app_assoc|]. split; by forall_parts.
    - destruct (Hclean (String c raw_text) st2) as (r & ev3 & -> & Hlogs).
      autorewrite with run.
      exists ([EvLog INFO "Starting AI bookmark generation for "]
              ++ (ev1 ++ [EvLog INFO "Prepared "])
              ++ [EvLog INFO "Calling Gemini model '"]).
      destruct r as [d|e]; eexists;
        (split; [by rewrite <- !app_assoc|]); split; by forall_parts.
    - exists ([EvLog INFO "Starting AI bookmark generation for "]
              ++ (ev1 ++ [EvLog INFO "Prepared "])
              ++ [EvLog INFO "Calling Gemini model '"]). eexists.
      split; [by rewrite <- !app_assoc|]. split; by forall_parts. }
  destruct Hrun as (ev1 & ev2 & -> & Hlogs1 & Hlogs2). autorewrite with run.
  split; [done|]. split; [done|].
  rewrite List.filter_app. cbn [List.filter is_request].
  by rewrite (filter_logs _ ev1), (filter_logs _ ev2).
Qed.

(** X6. When every image is missing or of a type that cannot be identified,
    [generate_bookmarks_ai] fails with the "image preparation"
    [RuntimeError], caused by the "no valid image parts" one; no request is
    sent and the world is untouched. *)
Theorem generate_bookmarks_ai_all_images_dropped `{Env}
    (client : Client) (model_name : string) (temperature : Q)
    (system_prompt_template : string) (image_paths : list string)
    (response_schema : response_schema_t) (st : os_state) :
  let run := generate_bookmarks_ai (Some client) model_name temperature
               system_prompt_template image_paths response_schema st in
  image_paths <> [] ->
  Forall (dropped st) image_paths ->
  outcome run = Raise (preparation_failed no_valid_parts) /\
  final_state run = st /\
  List.filter is_request (events run) = [].
Proof.
  intros run Hne Hall.
  destruct (generate_bookmarks_ai_preparation_run client model_name temperature
              system_prompt_template image_paths response_schema st
              no_valid_parts Hne) as (Hout & Hst & Hev).
  { by rewrite prepare_image_parts_dropped. }
  split; [done|]. split; [done|]. by apply filter_logs.
Qed.

Lemma generate_bookmarks_ai_all_images_dropped_witness :
  outcome (extraction_run (GenResponse (Some "{}"))
             ["/img/page_0002.png"; "/img/page_0003.png"] two_dropped_state)
  = Raise (preparation_failed no_valid_parts) /\
  final_state (extraction_run (GenResponse (Some "{}"))
                 ["/img/page_0002.png"; "/img/page_0003.png"] two_dropped_state)
  = two_dropped_state /\
  List.filter is_request
    (events (extraction_run (GenResponse (Some "{}"))
               ["/img/page_0002.png"; "/img/page_0003.png"] two_dropped_state))
  = [].
Proof.
  apply (@generate_bookmarks_ai_all_images_dropped (answer_env (GenResponse (Some "{}"))) tt "gemini" 0%Q
           "{actual_total_pages} pages"
           ["/img/page_0002.png"; "/img/page_0003.png"] ExtractedData
           two_dropped_state).
  - discriminate.
  - constructor; [right; vm_compute; reflexivity|].
    constructor; [left; vm_compute; reflexivity|constructor].
Defined.

(** X7. When every image exists, is identified and can be read, the one
    request [generate_bookmarks_ai] sends carries one part per image, in the
    order of [image_paths], each with the bytes and the type of its image. *)
Theorem generate_bookmarks_ai_sends_images_in_order `{Env}
    (client : Client) (model_name : string) (temperature : Q)
    (system_prompt_template : string) (image_paths : list string)
    (response_schema : response_schema_t) (st : os_state)
    (image_parts : list Part) (prompt : string) :
  let run := generate_bookmarks_ai (Some client) model_name temperature
               system_prompt_template image_paths response_schema st in
  image_paths <> [] ->
  Forall2 (gives_part st) image_paths image_parts ->
  str_format system_prompt_template (Z.of_nat (length image_paths)) = Ok prompt ->
  List.filter is_request (events run)
  = [EvGenerateContent model_name image_parts
       (request_config temperature response_schema prompt)].
Proof.
  intros run Hne Hall Hfmt.
  apply generate_bookmarks_ai_request_run; [| |done].
  - by rewrite (prepare_image_parts_all image_paths image_parts).
  - intros ->. apply Forall2_nil_inv_r in Hall. done.
Qed.

Lemma generate_bookmarks_ai_sends_images_in_order_witness :
  List.filter is_request
    (events (extraction_run (GenResponse (Some "{}")) (image_paths_of 3) (images_state 3)))
  = [EvGenerateContent "gemini" [png_part; png_part; png_part]
       (request_config 0%Q ExtractedData "3 pages")].
Proof.
  apply (@generate_bookmarks_ai_sends_images_in_order (answer_env (GenResponse (Some "{}"))) tt "gemini"
           0%Q "{actual_total_pages} pages" (image_paths_of 3) ExtractedData
           (images_state 3) [png_part; png_part; png_part] "3 pages").
  - discriminate.
  - repeat constructor.
  - vm_compute. reflexivity.
Defined.

(** X8. An image that exists and is identified but cannot be opened for
    reading is not dropped: the [OSError] of [open] ends the image loop, and
    [generate_bookmarks_ai] fails with the "image preparation"
    [RuntimeError] caused by it, without a request. *)
Theorem generate_bookmarks_ai_unreadable_image `{Env}
    (client : Client) (model_name : string) (temperature : Q)
    (system_prompt_template : string) (image_paths : list string)
    (response_schema : response_schema_t) (st : os_state) :
  let run := generate_bookmarks_ai (Some client) model_name temperature
               system_prompt_template image_paths response_schema st in
  Exists (unreadable st) image_paths ->
  exists e,
    outcome run = Raise (preparation_failed (OSError e)) /\
    final_state run = st /\
    List.filter is_request (events run) = [].
Proof.
  intros run Hex.
  destruct (prepare_image_parts_unreadable image_paths [] st Hex) as [e He].
  exists e.
  destruct (generate_bookmarks_ai_preparation_run client model_name temperature
              system_prompt_template image_paths response_schema st
              (OSError e)) as (Hout & Hst & Hev).
  - intros ->. by apply Exists_nil in Hex.
  - by rewrite He.
  - split; [done|]. split; [done|]. by apply filter_logs.
Qed.

Lemma generate_bookmarks_ai_unreadable_image_witness :
  exists e,
    outcome (unreadable_run (image_paths_of 3) (images_state 3))
    = Raise (preparation_failed (OSError e)) /\
    final_state (unreadable_run (image_paths_of 3) (images_state 3))
    = images_state 3 /\
    List.filter is_request
      (events (unreadable_run (image_paths_of 3) (images_state 3)))
    = [].
Proof.
  apply (@generate_bookmarks_ai_unreadable_image unreadable_env tt "gemini" 0%Q
           "{actual_total_pages} pages" (image_paths_of 3) ExtractedData
           (images_state 3)).
  apply Exists_cons_hd. split; [reflexivity|]. split; [discriminate|].
  by exists "Permission denied".
Defined.

(** X9. With the parts prepared and the prompt rendered, an answer without
    text ends [generate_bookmarks_ai] with the "interaction failed"
    [RuntimeError]: caused by the exception of the call when the call
    raised, and by the "no text content" [RuntimeError] when the text is
    missing or empty.  The request is sent once and not repeated. *)
Theorem generate_bookmarks_ai_service_failure `{Env}
    (client : Client) (model_name : string) (temperature : Q)
    (system_prompt_template : string) (image_paths : list string)
    (response_schema : response_schema_t) (st : os_state)
    (image_parts : list Part) (prompt : string) (cause : exn) :
  let config := request_config temperature response_schema prompt in
  let run := generate_bookmarks_ai (Some client) model_name temperature
               system_prompt_template image_paths response_schema st in
  let answer := generate_content client model_name image_parts config st in
  outcome (prepare_image_parts image_paths [] st) = Ok image_parts ->
  image_parts <> [] ->
  str_format system_prompt_template (Z.of_nat (length image_paths)) = Ok prompt ->
  answer_error answer.1 = Some cause ->
  outcome run = Raise (interaction_failed cause) /\
  final_state run = answer.2 /\
  List.filter is_request (events run)
  = [EvGenerateContent model_name image_parts config].
Proof.
  intros config run answer Hprep Hne Hfmt Hanswer.
  destruct (generate_bookmarks_ai_request_run client model_name temperature
              system_prompt_template image_paths response_schema st image_parts
              prompt Hprep Hne Hfmt) as (Hout & Hst & Hev).
  split; [|done]. subst run. rewrite Hout. fold config answer.
  destruct answer.1 as [e|[[|c raw_text]|]]; cbn in Hanswer; congruence.
Qed.

Lemma generate_bookmarks_ai_service_failure_witness :
  outcome (extraction_run (GenResponse None) (image_paths_of 3) (images_state 3))
  = Raise (interaction_failed no_text_content) /\
  final_state (extraction_run (GenResponse None) (image_paths_of 3) (images_state 3))
  = (@generate_content (answer_env (GenResponse None)) tt "gemini" [png_part; png_part; png_part]
       (request_config 0%Q ExtractedData "3 pages") (images_state 3)).2 /\
  List.filter is_request
    (events (extraction_run (GenResponse None) (image_paths_of 3) (images_state 3)))
  = [EvGenerateContent "gemini" [png_part; png_part; png_part]
       (request_config 0%Q ExtractedData "3 pages")].
Proof.
  apply (@generate_bookmarks_ai_service_failure (answer_env (GenResponse None)) tt "gemini" 0%Q
           "{actual_total_pages} pages" (image_paths_of 3) ExtractedData
           (images_state 3) [png_part; png_part; png_part] "3 pages"
           no_text_content).
  - vm_compute. reflexivity.
  - discriminate.
  - vm_compute. reflexivity.
  - reflexivity.
Defined.



(** ** [convert_ai_response_to_pdftk] *)

Lemma bookmark_entry_of_no_page_number `{Env} page_detail :
  has_page_number page_detail = false ->
  bookmark_entry_of page_detail = MissingPageNumber \/
  bookmark_entry_of page_detail = BadEntry.
Proof.
  destruct page_detail as [| | | | | |d]; cbn; auto.
  destruct (Dict.get "page_number" d); [done|auto].
Qed.

(** The loop over the entries never raises and leaves the world as it is. *)
Lemma build_bookmarks_total `{Env} pages_data acc st :
  exists pdftk_bookmarks ev,
    build_bookmarks pages_data acc st = (Ok pdftk_bookmarks, st, ev) /\
    Forall is_log ev.
Proof.
  revert acc. induction pages_data as [|page_detail rest IH]; intros acc.
  - by exists acc, [].
  - cbn [build_bookmarks].
    destruct (bookmark_entry_of page_detail) as [bookmark_entry| |].
    + apply IH.
    + destruct (IH acc) as (blocks & ev & Hrun & Hev).
      eexists blocks, _. rewrite run_log, Hrun. run_step.
      split; [done|]. by constructor.
    + destruct (IH acc) as (blocks & ev & Hrun & Hev).
      eexists blocks, _. rewrite run_log, Hrun. run_step.
      split; [done|]. by constructor.
Qed.

(** The loop keeps the entries that have a page number, in their order. *)
Lemma build_bookmarks_kept `{Env} pages_data records acc st :
  Forall2 page_record (List.filter has_page_number pages_data) records ->
  outcome (build_bookmarks pages_data acc st)
  = Ok (acc ++ map block_of_record records).
Proof.
  revert records acc.
  induction pages_data as [|page_detail rest IH]; intros records acc Hrec.
  - apply Forall2_nil_inv_l in Hrec as ->. cbn. by rewrite app_nil_r.
  - cbn [build_bookmarks List.filter] in *.
    destruct (has_page_number page_detail) eqn:Hp.
    + apply Forall2_cons_inv_l in Hrec as (r & records' & Hr & Hrec & ->).
      rewrite (bookmark_entry_of_record _ _ Hr). cbn [map].
      by rewrite (IH records'), <- app_assoc.
    + destruct (bookmark_entry_of_no_page_number _ Hp) as [-> | ->];
        rewrite run_log, outcome_after; by apply IH.
Qed.

(** A [try] whose handler returns, returns. *)
Lemma try_except_total `{Env} {A} (m : M A) (h : exn -> M A) st :
  (forall e st', exists a, outcome (h e st') = Ok a) ->
  exists a, outcome (try_except m h st) = Ok a.
Proof.
  intros Hh. unfold try_except.
  destruct (m st) as [[[a|e] st1] ev1]; [by exists a|].
  destruct (Hh e st1) as [a Ha]. exists a.
  destruct (h e st1) as [[r st2] ev2]. by autorewrite with run in *.
Qed.

(** X11. [convert_ai_response_to_pdftk] never raises.  When the response is
    not a dictionary whose [pages] entry is a list, be it a list, a string,
    a number or a dictionary without that key, it returns [False] and
    leaves the world untouched. *)
Theorem convert_without_pages_list `{Env} (response_data : json)
    (output_bmk_path : string) (st : os_state) :
  let run := convert_ai_response_to_pdftk response_data output_bmk_path st in
  (exists success, outcome run = Ok success) /\
  ((forall d pages_data,
      response_data = JObj d -> Dict.get "pages" d <> Some (JArr pages_data)) ->
   outcome run = Ok false /\ final_state run = st /\ Forall is_log (events run)).
Proof.
  intros run. subst run. split.
  - unfold convert_ai_response_to_pdftk. rewrite run_log, outcome_after.
    apply try_except_total. intros e st'. exists false. by run_step.
  - intros Hno. unfold convert_ai_response_to_pdftk. rewrite run_log.
    rewrite run_try_except.
    assert (Hcase : pages_list_of response_data = Ok None \/
                    pages_list_of response_data = Raise TypeError).
    { destruct response_data as [| | | |s|items|d]; cbn; auto.
      - destruct (PyStr.contains "pages" s); auto.
      - destruct (existsb is_pages_str items); auto.
      - destruct (Dict.get "pages" d) as [[]|] eqn:Hp; auto.
        by destruct (Hno d items). }
    destruct Hcase as [-> | ->]; run_step;
      (split; [done|]); (split; [done|]); by repeat constructor.
Qed.

Lemma convert_without_pages_list_witness :
  (exists success, outcome (convert_run (JArr [JStr "pages"])) = Ok success) /\
  outcome (convert_run (JArr [JStr "pages"])) = Ok false /\
  final_state (convert_run (JArr [JStr "pages"])) = bookmark_state /\
  Forall is_log (events (convert_run (JArr [JStr "pages"]))).
Proof.
  destruct (@convert_without_pages_list quiet_env (JArr [JStr "pages"])
              "/out/job/x_bookmarks.txt" bookmark_state) as [Hok Hno].
  split; [exact Hok|]. apply Hno. discriminate.
Defined.

(** X12. Entries of the [pages] list that are no dictionary or have no
    [page_number] are left out, and the call goes on: the blocks of the
    entries that have one are written, in their order, and the function
    returns [True]. *)
Theorem convert_drops_entries_without_page_number `{Env}
    (d : list (string * json)) (pages_data : list json)
    (records : list (Z * option string * option string))
    (output_bmk_path : string) (st st1 st2 : os_state) :
  let text := String.concat "" (map block_of_record records) in
  let run := convert_ai_response_to_pdftk (JObj d) output_bmk_path st in
  Dict.get "pages" d = Some (JArr pages_data) ->
  Forall2 page_record (List.filter has_page_number pages_data) records ->
  records <> [] ->
  os_makedirs (OsPath.dirname output_bmk_path) st = (OsOk tt, st1) ->
  open_write output_bmk_path text st1 = (OsOk tt, st2) ->
  outcome run = Ok true /\
  final_state run = st2 /\
  List.filter is_write (events run) = [EvWrite output_bmk_path text].
Proof.
  intros text run Hpages Hrec Hne Hmk Hwr. subst run text.
  pose proof (build_bookmarks_kept pages_data records [] st Hrec) as Hkept.
  destruct (build_bookmarks_total pages_data [] st) as (blocks & ev & Hrun & Hev).
  rewrite Hrun in Hkept. autorewrite with run in Hkept.
  injection Hkept as ->. cbn [app] in Hrun.
  unfold convert_ai_response_to_pdftk, pages_list_of. rewrite Hpages.
  destruct pages_data as [|page_detail rest] eqn:Hpd.
  { apply Forall2_nil_inv_l in Hrec. done. }
  rewrite <- Hpd in *. clear Hpd page_detail rest.
  rewrite run_log, run_try_except, run_bind, Hrun. run_step.
  destruct records as [|r records']; [done|].
  cbn [map] in *. unfold write_text. run_step.
  rewrite Hmk. run_step. rewrite Hwr. run_step.
  split; [done|]. split; [done|]. filter_parts.
Qed.

Lemma convert_drops_entries_without_page_number_witness :
  outcome (convert_run (JObj [("pages", JArr five_entries)])) = Ok true /\
  final_state (convert_run (JObj [("pages", JArr five_entries)]))
  = World.put "/out/job/x_bookmarks.txt"
      (String.concat "" (map block_of_record three_records)) bookmark_state /\
  List.filter is_write (events (convert_run (JObj [("pages", JArr five_entries)])))
  = [EvWrite "/out/job/x_bookmarks.txt"
       (String.concat "" (map block_of_record three_records))].
Proof.
  apply (@convert_drops_entries_without_page_number quiet_env
           [("pages", JArr five_entries)] five_entries three_records
           "/out/job/x_bookmarks.txt" bookmark_state bookmark_state).
  - reflexivity.
  - repeat constructor; eexists; repeat split; reflexivity.
  - discriminate.
  - reflexivity.
  - reflexivity.
Defined.

(** X13. When no entry of the [pages] list has a page number, the list
    being empty or not, the empty text is written to the bookmark file,
    nothing else is done to the outside world, and the function returns
    [True]. *)
Theorem convert_no_entry_with_page_number `{Env}
    (d : list (string * json)) (pages_data : list json)
    (output_bmk_path : string) (st st' : os_state) :
  let run := convert_ai_response_to_pdftk (JObj d) output_bmk_path st in
  Dict.get "pages" d = Some (JArr pages_data) ->
  Forall (fun page_detail => has_page_number page_detail = false) pages_data ->
  open_write output_bmk_path "" st = (OsOk tt, st') ->
  outcome run = Ok true /\
  final_state run = st' /\
  List.filter is_action (events run) = [EvWrite output_bmk_path ""].
Proof.
  intros run Hpages Hnone Hwr. subst run.
  assert (Hkept : outcome (build_bookmarks pages_data [] st) = Ok []).
  { apply (build_bookmarks_kept pages_data [] [] st).
    replace (List.filter has_page_number pages_data) with (@nil json);
      [constructor|].
    clear -Hnone. induction Hnone as [|page_detail rest Hp _ IH]; [done|].
    cbn [List.filter]. by rewrite Hp. }
  destruct (build_bookmarks_total pages_data [] st) as (blocks & ev & Hrun & Hev).
  rewrite Hrun in Hkept. autorewrite with run in Hkept. injection Hkept as ->.
  unfold convert_ai_response_to_pdftk, pages_list_of. rewrite Hpages.
  rewrite run_log, run_try_except.
  destruct pages_data as [|page_detail rest] eqn:Hpd.
  - unfold write_text. run_step. rewrite Hwr. by run_step.
  - rewrite <- Hpd in *. clear Hpd page_detail rest.
    rewrite run_bind, Hrun. unfold write_text. run_step. rewrite Hwr. run_step.
    split; [done|]. split; [done|]. filter_parts.
Qed.

Lemma convert_no_entry_with_page_number_witness :
  outcome (convert_run (JObj [("pages", JArr [JStr "page 1"; JObj []])])) = Ok true /\
  final_state (convert_run (JObj [("pages", JArr [JStr "page 1"; JObj []])]))
  = World.put "/out/job/x_bookmarks.txt" "" bookmark_state /\
  List.filter is_action
    (events (convert_run (JObj [("pages", JArr [JStr "page 1"; JObj []])])))
  = [EvWrite "/out/job/x_bookmarks.txt" ""].
Proof.
  apply (@convert_no_entry_with_page_number quiet_env
           [("pages", JArr [JStr "page 1"; JObj []])] [JStr "page 1"; JObj []]
           "/out/job/x_bookmarks.txt" bookmark_state).
  - reflexivity.
  - by repeat constructor.
  - reflexivity.
Defined.

(** X14. [convert_ai_response_to_pdftk] returns [True] only after it has
    written the bookmark file: the world it leaves is the one a successful
    write to [output_bmk_path] left. *)
Theorem convert_true_means_written `{Env} (response_data : json)
    (output_bmk_path : string) (st : os_state) :
  let run := convert_ai_response_to_pdftk response_data output_bmk_path st in
  outcome run = Ok true ->
  exists text st1,
    open_write output_bmk_path text st1 = (OsOk tt, final_state run) /\
    EvWrite output_bmk_path text ∈ events run.
Proof.
  intros run. subst run.
  unfold convert_ai_response_to_pdftk. rewrite run_log, run_try_except.
  destruct (pages_list_of response_data) as [[pages_data|]|e];
    [|by run_step..].
  destruct pages_data as [|page_detail rest] eqn:Hpd.
  - unfold write_text. run_step.
    destruct (open_write output_bmk_path "" st) as [[[]|e] st'] eqn:Hwr;
      run_step; [|done].
    intros _. exists "", st. split; [done|]. set_solver.
  - rewrite <- Hpd. clear Hpd page_detail rest.
    destruct (build_bookmarks_total pages_data [] st)
      as (blocks & ev & Hrun & Hev).
    rewrite run_bind, Hrun. unfold write_text. run_step.
    destruct blocks as [|block blocks'] eqn:Hblocks.
    + run_step.
      destruct (open_write output_bmk_path "" st) as [[[]|e] st'] eqn:Hwr;
        run_step; [|done].
      intros _. exists "", st. split; [done|]. set_solver.
    + rewrite <- Hblocks in *. clear Hblocks block blocks'. run_step.
      destruct (os_makedirs (OsPath.dirname output_bmk_path) st)
        as [[[]|e] st1] eqn:Hmk; run_step; [|done].
      destruct (open_write output_bmk_path (String.concat "" blocks) st1)
        as [[[]|e] st2] eqn:Hwr; run_step; [|done].
      intros _. exists (String.concat "" blocks), st1. split; [done|]. set_solver.
Qed.

Lemma convert_true_means_written_witness :
  exists text st1,
    @open_write quiet_env "/out/job/x_bookmarks.txt" text st1
    = (OsOk tt, final_state (convert_run (JObj [("pages", JArr five_entries)]))) /\
    EvWrite "/out/job/x_bookmarks.txt" text
      ∈ events (convert_run (JObj [("pages", JArr five_entries)])).
Proof.
  apply (@convert_true_means_written quiet_env (JObj [("pages", JArr five_entries)])
           "/out/job/x_bookmarks.txt" bookmark_state).
  vm_compute. reflexivity.
Defined.

(** ** [apply_bookmarks] *)

(** X15. [apply_bookmarks] checks its arguments in the order PDFtk path,
    input PDF, bookmark file, and raises for the first that fails with
    the world untouched and no program called; otherwise PDFtk is called
    exactly once. *)
Theorem apply_bookmarks_calls_pdftk_once `{Env}
    (pdftk_path input_pdf_path bookmark_data_path output_pdf_path : string)
    (st : os_state) :
  let run :=
    apply_bookmarks pdftk_path input_pdf_path bookmark_data_path output_pdf_path st in
  let command :=
    pdftk_command pdftk_path input_pdf_path bookmark_data_path output_pdf_path in
  let rejected e :=
    outcome run = Raise e /\ final_state run = st /\
    List.filter is_action (events run) = [] in
  if String.eqb pdftk_path "" then
    rejected (ValueError "PDFtk path is not provided." None)
  else if negb (os_path_exists input_pdf_path st) then
    rejected (FileNotFoundError
                ("Input PDF for bookmarking not found: " +:+ input_pdf_path))
  else if negb (os_path_exists bookmark_data_path st) then
    rejected (FileNotFoundError
                ("Bookmark data file not found: " +:+ bookmark_data_path))
  else List.filter is_run (events run) = [EvRun command].
Proof.
  intros run command rejected. subst run rejected. cbv beta.
  destruct (String.eqb_spec pdftk_path "") as [Hp|Hp].
  { unfold apply_bookmarks. run_step. rewrite Hp. by run_step. }
  destruct (os_path_exists input_pdf_path st) eqn:Hin; cbn [negb].
  2: { unfold apply_bookmarks. run_step.
       destruct (String.eqb_spec pdftk_path "") as [|_]; [done|].
       run_step. rewrite Hin. by run_step. }
  destruct (os_path_exists bookmark_data_path st) eqn:Hdata; cbn [negb].
  2: { unfold apply_bookmarks. run_step.
       destruct (String.eqb_spec pdftk_path "") as [|_]; [done|].
       run_step. rewrite Hin. cbn [negb]. run_step. rewrite Hdata.
       by run_step. }
  rewrite apply_bookmarks_run by done. fold command.
  destruct (subprocess_run command 120 st) as [[rc out err| |e] st'];
    [|by run_step..].
  destruct (rc =? 0); [|by run_step].
  destruct (os_path_exists output_pdf_path st'); [|by run_step].
  destruct (os_path_getsize output_pdf_path st') as [size|e]; [|by run_step].
  destruct (size >? 0); by run_step.
Qed.

(** ** Counting events *)

Lemma filter_never (f : event -> bool) l :
  Forall (fun ev => f ev = false) l -> List.filter f l = [].
Proof.
  intros Hl. induction Hl as [|ev l Hev _ IH]; [done|].
  cbn [List.filter]. by rewrite Hev.
Qed.

Lemma filter_call_no_request l :
  Forall (fun ev => is_request ev = false) l ->
  List.filter is_call l = List.filter is_run l.
Proof.
  intros Hl. induction Hl as [|ev l Hev _ IH]; [done|].
  cbn [List.filter]. unfold is_call at 1. rewrite Hev, orb_false_r.
  by rewrite IH.
Qed.

Lemma filter_call_no_run l :
  Forall (fun ev => is_run ev = false) l ->
  List.filter is_call l = List.filter is_request l.
Proof.
  intros Hl. induction Hl as [|ev l Hev _ IH]; [done|].
  cbn [List.filter]. unfold is_call at 1. rewrite Hev, orb_false_l.
  by rewrite IH.
Qed.

Section AtMost.
Context `{Env} (f : event -> bool).

Lemma count_events_app l1 l2 :
  count_events f (l1 ++ l2) = (count_events f l1 + count_events f l2)%nat.
Proof. unfold count_events. by rewrite List.filter_app, length_app. Qed.

Lemma at_most_never {A} (m : M A) n : never f m -> at_most f n m.
Proof.
  intros Hm st. unfold count_events. rewrite (filter_never f _ (Hm st)).
  simpl. lia.
Qed.

Lemma at_most_bind {A B} n1 n2 n (m : M A) (k : A -> M B) :
  at_most f n1 m -> (forall a, at_most f n2 (k a)) -> (n1 + n2 <= n)%nat ->
  at_most f n (bind m k).
Proof.
  intros Hm Hk Hn st. rewrite run_bind. specialize (Hm st).
  destruct (outcome (m st)) as [a|e]; [|autorewrite with run; lia].
  rewrite events_after, count_events_app.
  specialize (Hk a (final_state (m st))). lia.
Qed.

Lemma at_most_try_except {A} n1 n2 n (m : M A) (h : exn -> M A) :
  at_most f n1 m -> (forall e, at_most f n2 (h e)) -> (n1 + n2 <= n)%nat ->
  at_most f n (try_except m h).
Proof.
  intros Hm Hh Hn st. rewrite run_try_except. specialize (Hm st).
  destruct (outcome (m st)) as [a|e]; [autorewrite with run; lia|].
  rewrite events_after, count_events_app.
  specialize (Hh e (final_state (m st))). lia.
Qed.

Lemma at_most_try_finally {A} n1 n2 n (m : M A) (c : M unit) :
  at_most f n1 m -> at_most f n2 c -> (n1 + n2 <= n)%nat ->
  at_most f n (try_finally m c).
Proof.
  intros Hm Hc Hn st. unfold try_finally. specialize (Hm st).
  destruct (m st) as [[r st1] ev1]. specialize (Hc st1).
  destruct (c st1) as [[[[]|e] st2] ev2];
    autorewrite with run in *; rewrite count_events_app; lia.
Qed.

Lemma at_most_check_run command t : at_most f 1 (check_run command t).
Proof.
  intros st. unfold check_run, count_events.
  destruct (subprocess_run command t st) as [[rc out err| |e] st'];
    [destruct (rc =? 0)|..]; autorewrite with run; cbn [List.filter];
    destruct (f _); simpl; lia.
Qed.

Lemma at_most_call_generate_content client model contents config :
  at_most f 1 (call_generate_content client model contents config).
Proof.
  intros st. unfold call_generate_content, count_events.
  destruct (generate_content client model contents config st) as [[e|text] st'];
    autorewrite with run; cbn [List.filter]; destruct (f _); simpl; lia.
Qed.

End AtMost.

(** Breaks [never f m] along the structure of [m]. *)
Ltac never_step := unfold never; repeat emits_step.

Section Calls.
Context `{Env}.

Lemma prepare_image_parts_never f image_paths image_parts :
  (forall lvl msg, f (EvLog lvl msg) = false) ->
  never f (prepare_image_parts image_paths image_parts).
Proof.
  intros Hf st.
  destruct (prepare_image_parts_run image_paths image_parts st) as (_ & Hev & _).
  eapply Forall_impl; [exact Hev|]. by intros [].
Qed.

Lemma clean_and_parse_json_never f raw_text :
  (forall lvl msg, f (EvLog lvl msg) = false) ->
  never f (clean_and_parse_json raw_text).
Proof.
  intros Hf st. eapply Forall_impl; [apply clean_and_parse_json_logs|].
  by intros [].
Qed.

Lemma build_bookmarks_never f pages_data pdftk_bookmarks :
  (forall lvl msg, f (EvLog lvl msg) = false) ->
  never f (build_bookmarks pages_data pdftk_bookmarks).
Proof.
  intros Hf st.
  destruct (build_bookmarks_total pages_data pdftk_bookmarks st)
    as (blocks & ev & -> & Hev).
  autorewrite with run. eapply Forall_impl; [exact Hev|]. by intros [].
Qed.

Lemma pdf_to_images_never_requests pdf_path output_dir gs_path resolution
    image_format :
  never is_request
    (pdf_to_images pdf_path output_dir gs_path resolution image_format).
Proof. unfold pdf_to_images. cbv zeta. never_step; done. Qed.

Lemma pdf_to_images_at_most_one_run pdf_path output_dir gs_path resolution
    image_format :
  at_most is_run 1
    (pdf_to_images pdf_path output_dir gs_path resolution image_format).
Proof.
  unfold pdf_to_images. cbv zeta.
  apply (at_most_bind _ 0 1); [apply at_most_never; never_step; done| |lia].
  intros _.
  apply (at_most_bind _ 0 1); [apply at_most_never; never_step; done| |lia].
  intros pdf_exists.
  destruct (negb pdf_exists); [apply at_most_never; never_step; done|].
  destruct (String.eqb gs_path ""); [apply at_most_never; never_step; done|].
  apply (at_most_try_except _ 1 0); [| |lia].
  - apply (at_most_bind _ 0 1); [apply at_most_never; never_step; done| |lia].
    intros _.
    apply (at_most_bind _ 1 0); [apply at_most_check_run| |lia].
    intros _. apply at_most_never. never_step; done.
  - intros e. apply at_most_never. never_step; done.
Qed.

Lemma generate_bookmarks_ai_never_runs client model_name temperature template
    image_paths response_schema :
  never is_run
    (generate_bookmarks_ai client model_name temperature template image_paths
       response_schema).
Proof.
  unfold generate_bookmarks_ai. cbv zeta.
  never_step;
    done || (by apply prepare_image_parts_never)
    || (by apply clean_and_parse_json_never).
Qed.

Lemma generate_bookmarks_ai_at_most_one_request client model_name temperature
    template image_paths response_schema :
  at_most is_request 1
    (generate_bookmarks_ai client model_name temperature template image_paths
       response_schema).
Proof.
  unfold generate_bookmarks_ai. cbv zeta.
  apply (at_most_bind _ 0 1); [apply at_most_never; never_step; done| |lia].
  intros _.
  destruct client as [client|]; [|apply at_most_never; never_step; done].
  destruct image_paths as [|path0 rest] eqn:Hpaths;
    [apply at_most_never; never_step; done|].
  rewrite <- Hpaths. clear Hpaths path0 rest.
  apply (at_most_bind _ 0 1); [| |lia].
  { apply at_most_never.
    never_step; done || (by apply prepare_image_parts_never). }
  intros image_parts.
  apply (at_most_bind _ 0 1); [apply at_most_never; never_step; done| |lia].
  intros prompt.
  apply (at_most_try_except _ 1 0); [| |lia].
  - apply (at_most_bind _ 0 1); [apply at_most_never; never_step; done| |lia].
    intros _.
    apply (at_most_bind _ 1 0); [apply at_most_call_generate_content| |lia].
    intros text. apply at_most_never.
    never_step; done || (by apply clean_and_parse_json_never).
  - intros e. apply at_most_never. never_step; done.
Qed.

Lemma convert_ai_response_to_pdftk_never_calls response_data output_bmk_path :
  never is_call (convert_ai_response_to_pdftk response_data output_bmk_path).
Proof.
  unfold convert_ai_response_to_pdftk. cbv zeta.
  never_step; done || (by apply build_bookmarks_never).
Qed.

Lemma apply_bookmarks_never_requests pdftk_path input_pdf_path bookmark_data_path
    output_pdf_path :
  never is_request
    (apply_bookmarks pdftk_path input_pdf_path bookmark_data_path output_pdf_path).
Proof. unfold apply_bookmarks. cbv zeta. never_step; done. Qed.

Lemma apply_bookmarks_at_most_one_run pdftk_path input_pdf_path bookmark_data_path
    output_pdf_path :
  at_most is_run 1
    (apply_bookmarks pdftk_path input_pdf_path bookmark_data_path output_pdf_path).
Proof.
  unfold apply_bookmarks. cbv zeta.
  apply (at_most_bind _ 0 1); [apply at_most_never; never_step; done| |lia].
  intros _.
  destruct (String.eqb pdftk_path ""); [apply at_most_never; never_step; done|].
  apply (at_most_bind _ 0 1); [apply at_most_never; never_step; done| |lia].
  intros input_exists.
  destruct (negb input_exists); [apply at_most_never; never_step; done|].
  apply (at_most_bind _ 0 1); [apply at_most_never; never_step; done| |lia].
  intros data_exists.
  destruct (negb data_exists); [apply at_most_never; never_step; done|].
  apply (at_most_try_except _ 1 0); [| |lia].
  - apply (at_most_bind _ 0 1); [apply at_most_never; never_step; done| |lia].
    intros _.
    apply (at_most_bind _ 1 0); [apply at_most_check_run| |lia].
    intros _. apply at_most_never. never_step; done.
  - intros e. apply at_most_never. never_step; done.
Qed.

Lemma workflow_finally_never_calls temp_dir_to_clean :
  never is_call (workflow_finally temp_dir_to_clean).
Proof. unfold workflow_finally. never_step; done. Qed.

End Calls.

(** ** The order of the stages *)

Section Stages.
Context `{Env}.

Lemma pdf_to_images_ok_calls pdf_path output_dir gs_path resolution image_format
    st image_files :
  let run := pdf_to_images pdf_path output_dir gs_path resolution image_format st in
  outcome run = Ok image_files ->
  List.filter is_call (events run)
  = [EvRun (gs_command gs_path image_format resolution
              (OsPath.join output_dir ("page_%04d." +:+ image_ext image_format))
              pdf_path)].
Proof.
  intros run. subst run.
  destruct (os_path_exists pdf_path st) eqn:Hpdf;
    [destruct (String.eqb_spec gs_path "") as [Hgs|Hgs]|].
  - rewrite Hgs, pdf_to_images_no_gs_path by done. by autorewrite with run.
  - rewrite pdf_to_images_run by done.
    destruct (subprocess_run _ 1200 st) as [[rc out err| |e] st'];
      [destruct (rc =? 0); [destruct (glob_glob _ st')|]|..];
      by autorewrite with run.
  - rewrite pdf_to_images_missing_input by done. by autorewrite with run.
Qed.

Lemma generate_bookmarks_ai_ok_inv client model_name temperature template
    image_paths response_schema st response :
  outcome (generate_bookmarks_ai client model_name temperature template
             image_paths response_schema st) = Ok response ->
  exists c image_parts prompt,
    client = Some c /\
    outcome (prepare_image_parts image_paths [] st) = Ok image_parts /\
    image_parts <> [] /\
    str_format template (Z.of_nat (length image_paths)) = Ok prompt.
Proof.
  unfold generate_bookmarks_ai. run_step.
  destruct client as [client|]; [|by run_step].
  destruct image_paths as [|path0 rest] eqn:Hpaths; [by run_step|].
  rewrite <- Hpaths in *. clear Hpaths path0 rest.
  rewrite run_bind, run_try_except, run_bind.
  destruct (prepare_image_parts image_paths [] st) as [[[parts|e0] st1] ev1];
    autorewrite with run; [|by run_step].
  destruct parts as [|part parts'] eqn:Hparts; [by run_step|].
  rewrite <- Hparts in *. run_step.
  destruct (str_format template (Z.of_nat (length image_paths)))
    as [prompt|e0] eqn:Hfmt.
  2: { destruct e0; by run_step. }
  intros _. exists client, parts, prompt. by rewrite Hparts.
Qed.

Lemma generate_bookmarks_ai_ok_calls client model_name temperature template
    image_paths response_schema st response :
  let run := generate_bookmarks_ai client model_name temperature template
               image_paths response_schema st in
  outcome run = Ok response ->
  exists contents prompt,
    List.filter is_call (events run)
    = [EvGenerateContent model_name contents
         (request_config temperature response_schema prompt)].
Proof.
  intros run Hok. subst run.
  destruct (generate_bookmarks_ai_ok_inv _ _ _ _ _ _ _ _ Hok)
    as (c & image_parts & prompt & -> & Hprep & Hne & Hfmt).
  exists image_parts, prompt.
  rewrite filter_call_no_run by apply generate_bookmarks_ai_never_runs.
  by apply generate_bookmarks_ai_request_run.
Qed.

Lemma apply_bookmarks_ok_calls pdftk_path input_pdf_path bookmark_data_path
    output_pdf_path st success :
  let run :=
    apply_bookmarks pdftk_path input_pdf_path bookmark_data_path output_pdf_path st in
  outcome run = Ok success ->
  List.filter is_call (events run)
  = [EvRun (pdftk_command pdftk_path input_pdf_path bookmark_data_path
              output_pdf_path)].
Proof.
  intros run. subst run.
  destruct (String.eqb_spec pdftk_path "") as [Hp|Hp].
  { unfold apply_bookmarks. run_step. rewrite Hp. by run_step. }
  destruct (os_path_exists input_pdf_path st) eqn:Hin.
  2: { unfold apply_bookmarks. run_step.
       destruct (String.eqb_spec pdftk_path "") as [|_]; [done|].
       run_step. rewrite Hin. by run_step. }
  destruct (os_path_exists bookmark_data_path st) eqn:Hdata.
  2: { unfold apply_bookmarks. run_step.
       destruct (String.eqb_spec pdftk_path "") as [|_]; [done|].
       run_step. rewrite Hin. cbn [negb]. run_step. rewrite Hdata.
       by run_step. }
  intros _.
  rewrite filter_call_no_request by apply apply_bookmarks_never_requests.
  rewrite apply_bookmarks_run by done.
  destruct (subprocess_run _ 120 st) as [[rc out err| |e] st'];
    [|by run_step..].
  destruct (rc =? 0); [|by run_step].
  destruct (os_path_exists output_pdf_path st'); [|by run_step].
  destruct (os_path_getsize output_pdf_path st') as [size|e]; [|by run_step].
  destruct (size >? 0); by run_step.
Qed.

End Stages.

(** The calls of a [try] suite that returns, stage by stage. *)
Lemma workflow_steps_ok_calls `{Env} input_pdf_path paths gs_path pdftk_path
    client config st final_pdf_path :
  let run :=
    workflow_steps input_pdf_path paths gs_path pdftk_path client config st in
  outcome run = Ok final_pdf_path ->
  paths !! "final_output_path" = Some final_pdf_path /\
  exists image_output_dir bookmark_file_path contents prompt,
    paths !! "image_output_dir" = Some image_output_dir /\
    paths !! "bookmark_file_path" = Some bookmark_file_path /\
    List.filter is_call (events run)
    = [ EvRun (gs_command gs_path (GS_IMAGE_FORMAT config) (GS_RESOLUTION config)
                 (OsPath.join image_output_dir
                    ("page_%04d." +:+ image_ext (GS_IMAGE_FORMAT config)))
                 input_pdf_path);
        EvGenerateContent (GEMINI_MODEL_NAME config) contents
          (request_config (GEMINI_TEMPERATURE config) ExtractedData prompt);
        EvRun (pdftk_command pdftk_path input_pdf_path bookmark_file_path
                 final_pdf_path) ].
Proof.
  intros run. subst run. unfold workflow_steps, getitem.
  destruct (paths !! "image_output_dir") as [image_output_dir|]; [|by run_step].
  run_step. rewrite run_bind.
  pose proof (pdf_to_images_ok_calls input_pdf_path image_output_dir gs_path
                (GS_RESOLUTION config) (GS_IMAGE_FORMAT config) st) as Hgs.
  destruct (pdf_to_images input_pdf_path image_output_dir gs_path
              (GS_RESOLUTION config) (GS_IMAGE_FORMAT config) st)
    as [[[image_paths|e] st1] ev1]; autorewrite with run in *; [|done].
  specialize (Hgs _ eq_refl).
  rewrite run_bind.
  pose proof (generate_bookmarks_ai_ok_calls client (GEMINI_MODEL_NAME config)
                (GEMINI_TEMPERATURE config) (GEMINI_SYSTEM_PROMPT_TEMPLATE config)
                image_paths ExtractedData st1) as Hai.
  destruct (generate_bookmarks_ai client (GEMINI_MODEL_NAME config)
              (GEMINI_TEMPERATURE config) (GEMINI_SYSTEM_PROMPT_TEMPLATE config)
              image_paths ExtractedData st1)
    as [[[ai_response_dict|e] st2] ev2]; autorewrite with run in *; [|done].
  destruct (Hai _ eq_refl) as (contents & prompt & Hreq). clear Hai.
  rewrite run_bind.
  match goal with
  | |- context [try_except ?m ?h st2] =>
      assert (Hsave : never is_call (try_except m h)) by (never_step; done);
      specialize (Hsave st2);
      destruct (try_except_total m h st2) as [[] Hsaved];
        [intros e st'; exists tt; by run_step|];
      destruct (try_except m h st2) as [[r3 st3] ev3]
  end.
  autorewrite with run in *. subst r3.
  destruct (paths !! "bookmark_file_path") as [bookmark_file_path|];
    [|by run_step].
  run_step. rewrite run_bind.
  pose proof (convert_ai_response_to_pdftk_never_calls ai_response_dict
                bookmark_file_path st3) as Hconv.
  destruct (convert_ai_response_to_pdftk ai_response_dict bookmark_file_path st3)
    as [[[[|]|e] st4] ev4]; autorewrite with run in *; [|by run_step..].
  cbn [negb].
  destruct (paths !! "final_output_path") as [output_pdf_path|]; [|by run_step].
  run_step. rewrite run_bind.
  pose proof (apply_bookmarks_ok_calls pdftk_path input_pdf_path
                bookmark_file_path output_pdf_path st4) as Happly.
  destruct (apply_bookmarks pdftk_path input_pdf_path bookmark_file_path
              output_pdf_path st4)
    as [[[[|]|e] st5] ev5]; autorewrite with run in *; [|by run_step..].
  specialize (Happly _ eq_refl). cbn [negb]. run_step.
  intros [= <-]. split; [done|].
  exists image_output_dir, bookmark_file_path, contents, prompt.
  split; [done|]. split; [done|].
  autorewrite with run in Hreq, Happly.
  rewrite !List.filter_app, Hgs, Hreq, Happly.
  rewrite (filter_never is_call ev3), (filter_never is_call ev4) by done.
  reflexivity.
Qed.

(** ** [process_pdf_workflow] *)



(** Closes [at_most f n m] for an [m] none of whose events satisfies [f]. *)
Ltac no_event :=
  apply at_most_never; never_step;
  first [ done
        | by apply pdf_to_images_never_requests
        | by apply generate_bookmarks_ai_never_runs
        | by apply apply_bookmarks_never_requests
        | intros ?; eapply Forall_impl;
          [ first [ apply convert_ai_response_to_pdftk_never_calls
                  | apply workflow_finally_never_calls ]
          | by intros ev [? ?]%orb_false_elim ] ].

Lemma workflow_steps_at_most_two_runs `{Env} input_pdf_path paths gs_path
    pdftk_path client config :
  at_most is_run 2
    (workflow_steps input_pdf_path paths gs_path pdftk_path client config).
Proof.
  unfold workflow_steps.
  apply (at_most_bind _ 0 2); [no_event| |lia]. intros image_output_dir.
  apply (at_most_bind _ 1 1); [apply pdf_to_images_at_most_one_run| |lia].
  intros image_paths.
  apply (at_most_bind _ 0 1); [no_event| |lia]. intros ai_response_dict.
  apply (at_most_bind _ 0 1); [no_event| |lia]. intros _.
  apply (at_most_bind _ 0 1); [no_event| |lia]. intros bookmark_file_path.
  apply (at_most_bind _ 0 1); [no_event| |lia]. intros success.
  destruct (negb success); [no_event|].
  apply (at_most_bind _ 0 1); [no_event| |lia]. intros bookmark_data_path.
  apply (at_most_bind _ 0 1); [no_event| |lia]. intros output_pdf_path.
  apply (at_most_bind _ 1 0); [apply apply_bookmarks_at_most_one_run| |lia].
  intros success'. no_event.
Qed.

Lemma workflow_steps_at_most_one_request `{Env} input_pdf_path paths gs_path
    pdftk_path client config :
  at_most is_request 1
    (workflow_steps input_pdf_path paths gs_path pdftk_path client config).
Proof.
  unfold workflow_steps.
  apply (at_most_bind _ 0 1); [no_event| |lia]. intros image_output_dir.
  apply (at_most_bind _ 0 1); [no_event| |lia]. intros image_paths.
  apply (at_most_bind _ 1 0);
    [apply generate_bookmarks_ai_at_most_one_request| |lia].
  intros ai_response_dict. no_event.
Qed.

Lemma process_pdf_workflow_at_most `{Env} f n input_pdf_path paths gs_path
    pdftk_path client config :
  (forall lvl msg, f (EvLog lvl msg) = false) ->
  (forall path, f (EvRmtree path) = false) ->
  at_most f n
    (workflow_steps input_pdf_path paths gs_path pdftk_path client config) ->
  at_most f n
    (process_pdf_workflow input_pdf_path paths gs_path pdftk_path client config).
Proof.
  intros Hlog Hrm Hsteps. unfold process_pdf_workflow.
  apply (at_most_bind _ 0 n); [apply at_most_never; never_step| |lia].
  intros temp_dir_to_clean.
  apply (at_most_bind _ 0 n); [apply at_most_never; never_step; done| |lia].
  intros _.
  apply (at_most_bind _ 0 n); [apply at_most_never; never_step; done| |lia].
  intros _.
  apply (at_most_bind _ 0 n); [apply at_most_never; never_step| |lia].
  intros _.
  apply (at_most_bind _ 0 n); [apply at_most_never; never_step; done| |lia].
  intros _.
  apply (at_most_try_finally _ n 0); [| |lia].
  - apply (at_most_try_except _ n 0); [done| |lia].
    intros e. apply at_most_never. unfold workflow_except. never_step; done.
  - apply at_most_never. unfold workflow_finally. never_step; done.
Qed.

(** X17. Nothing is tried twice: whatever happens, a job calls external
    programs at most twice and the extraction service at most once. *)
Theorem process_pdf_workflow_no_retry `{Env}
    (input_pdf_path : string) (paths : gmap string string)
    (gs_path pdftk_path : string) (client : option Client) (config : AppConfig)
    (st : os_state) :
  let run :=
    process_pdf_workflow input_pdf_path paths gs_path pdftk_path client config st in
  (count_events is_run (events run) <= 2)%nat /\
  (count_events is_request (events run) <= 1)%nat.
Proof.
  split.
  - by apply process_pdf_workflow_at_most, workflow_steps_at_most_two_runs.
  - by apply process_pdf_workflow_at_most, workflow_steps_at_most_one_request.
Qed.

(** X18. Without the key [temp_dir], or without the key
    [final_output_path], in [paths] the job ends with a [KeyError] before
    the [try] is entered: no stage runs and there is no cleanup. *)
Theorem process_pdf_workflow_missing_key `{Env}
    (input_pdf_path : string) (paths : gmap string string)
    (gs_path pdftk_path : string) (client : option Client) (config : AppConfig)
    (st : os_state) :
  let run :=
    process_pdf_workflow input_pdf_path paths gs_path pdftk_path client config st in
  paths !! "temp_dir" = None \/ paths !! "final_output_path" = None ->
  (exists k, outcome run = Raise (KeyError k)) /\
  final_state run = st /\
  Forall is_log (events run) /\
  List.filter is_teardown (events run) = [].
Proof.
  intros run Hmiss. subst run. unfold process_pdf_workflow, getitem.
  destruct (paths !! "temp_dir") as [temp_dir|].
  - destruct Hmiss as [|Hfo]; [done|]. rewrite Hfo. run_step.
    split; [by eexists|]. split; [done|]. split; [by repeat constructor|done].
  - run_step. split; [by eexists|]. split; [done|]. split; [constructor|done].
Qed.

Lemma process_pdf_workflow_missing_key_witness :
  (exists k,
     outcome (@process_pdf_workflow quiet_env "/up/x.pdf"
                (delete "temp_dir" job_paths) "gs" "pdftk" (Some tt) job_config
                job_state) = Raise (KeyError k)) /\
  final_state (@process_pdf_workflow quiet_env "/up/x.pdf"
                 (delete "temp_dir" job_paths) "gs" "pdftk" (Some tt) job_config
                 job_state) = job_state /\
  Forall is_log
    (events (@process_pdf_workflow quiet_env "/up/x.pdf"
               (delete "temp_dir" job_paths) "gs" "pdftk" (Some tt) job_config
               job_state)) /\
  List.filter is_teardown
    (events (@process_pdf_workflow quiet_env "/up/x.pdf"
               (delete "temp_dir" job_paths) "gs" "pdftk" (Some tt) job_config
               job_state)) = [].
Proof.
  apply (@process_pdf_workflow_missing_key quiet_env "/up/x.pdf"
           (delete "temp_dir" job_paths) "gs" "pdftk" (Some tt) job_config
           job_state).
  left. apply lookup_delete_eq.
Defined.

(** ** [get_processing_paths] *)

Lemma find_replace_char old new s :
  old <> new -> PyStr.find old (replace_char old new s) = -1.
Proof.
  intros Hne. unfold replace_char. induction s as [|c s IH]; [done|].
  cbn [PyStr.map PyStr.find]. rewrite IH.
  destruct (Ascii.eqb_spec c old) as [->|Hc].
  - destruct (Ascii.eqb_spec new old); [congruence|done].
  - destruct (Ascii.eqb_spec c old); [congruence|done].
Qed.

Lemma find_replace_char_other c old new s :
  c <> new -> PyStr.find c s = -1 -> PyStr.find c (replace_char old new s) = -1.
Proof.
  intros Hne. unfold replace_char. induction s as [|a s IH]; [done|].
  cbn [PyStr.map PyStr.find].
  destruct (Ascii.eqb_spec a c) as [->|Ha]; [done|].
  intros Hs.
  assert (PyStr.find c s = -1) as Hs'.
  { pose proof (find_lower c s). destruct (PyStr.find c s =? -1) eqn:E; lia. }
  rewrite (IH Hs').
  destruct (Ascii.eqb a old).
  - destruct (Ascii.eqb_spec new c); [congruence|done].
  - destruct (Ascii.eqb_spec a c); [congruence|done].
Qed.

Lemma length_replace_char old new s :
  String.length (replace_char old new s) = String.length s.
Proof.
  unfold replace_char. induction s as [|c s IH]; [done|].
  cbn [PyStr.map String.length]. by rewrite IH.
Qed.

Lemma length_take n s : (String.length (PyStr.take n s) <= n)%nat.
Proof.
  revert s. induction n as [|n IH]; intros [|c s]; cbn; try lia.
  specialize (IH s). lia.
Qed.

Lemma run_uuid4 `{Host} {B} (k : string -> M B) st :
  bind uuid4 k st = k (uuid4_hex st).1 (uuid4_hex st).2.
Proof.
  unfold bind, uuid4. destruct (uuid4_hex st) as [hex st']. cbn [fst snd].
  by destruct (k hex st') as [[r st2] ev2].
Qed.

(** The two outcomes of [get_processing_paths]: the dictionary after both
    directories were made, or the [OSError] of the first that was not. *)
Lemma get_processing_paths_cases `{Host} output_base_dir original_filename st :
  let run := get_processing_paths output_base_dir original_filename st in
  let safe_base_filename :=
    replace_char "." "_" (replace_char " " "_" (Path_stem original_filename)) in
  let temp_dir :=
    Path_div output_base_dir
      ("processing_" +:+ safe_base_filename +:+ "_"
       +:+ PyStr.take 8 (uuid4_hex st).1) in
  let image_output_dir := Path_div temp_dir "images" in
  (exists paths st1,
     outcome run = Ok paths /\
     os_makedirs image_output_dir (uuid4_hex st).2 = (OsOk tt, st1) /\
     os_makedirs output_base_dir st1 = (OsOk tt, final_state run) /\
     List.filter is_action (events run)
     = [EvMakedirs image_output_dir; EvMakedirs output_base_dir] /\
     Forall (fun ev => is_call ev = false /\ is_teardown ev = false) (events run) /\
     dom paths
     = ({[ "temp_dir"; "image_output_dir"; "response_file_path";
           "bookmark_file_path"; "final_output_path" ]} : gset string) /\
     paths !! "temp_dir" = Some temp_dir /\
     paths !! "image_output_dir" = Some image_output_dir /\
     paths !! "response_file_path"
     = Some (Path_div temp_dir (safe_base_filename +:+ "_response.json")) /\
     paths !! "bookmark_file_path"
     = Some (Path_div temp_dir (safe_base_filename +:+ "_bookmarks.txt")) /\
     paths !! "final_output_path"
     = Some (Path_div output_base_dir ("Autobookmarked_" +:+ original_filename)))
  \/
  (exists e,
     outcome run = Raise (OSError e) /\
     Forall (fun ev => is_call ev = false /\ is_teardown ev = false) (events run) /\
     last (events run)
     = Some (EvLog ERROR "Failed to create processing directories under ")).
Proof.
  intros run safe_base_filename temp_dir image_output_dir.
  destruct (os_makedirs image_output_dir (uuid4_hex st).2) as [[[]|e] st1]
    eqn:Hmk1.
  2: { right. exists e.
       assert (Hrun : run
                      = (Raise (OSError e), st1,
                         [EvMakedirs image_output_dir;
                          EvLog ERROR
                            "Failed to create processing directories under "])).
       { subst run. unfold get_processing_paths. rewrite run_uuid4. cbv zeta.
         fold safe_base_filename. fold temp_dir. fold image_output_dir.
         unfold bind, try_except, os_call, log, emit, raise.
         by rewrite Hmk1. }
       rewrite Hrun. autorewrite with run.
       split; [reflexivity|]. split; [by repeat constructor|reflexivity]. }
  destruct (os_makedirs output_base_dir st1) as [[[]|e] st2] eqn:Hmk2.
  2: { right. exists e.
       assert (Hrun : run
                      = (Raise (OSError e), st2,
                         [EvMakedirs image_output_dir; EvMakedirs output_base_dir;
                          EvLog ERROR
                            "Failed to create processing directories under "])).
       { subst run. unfold get_processing_paths. rewrite run_uuid4. cbv zeta.
         fold safe_base_filename. fold temp_dir. fold image_output_dir.
         unfold bind, try_except, os_call, log, emit, raise.
         by rewrite Hmk1, Hmk2. }
       rewrite Hrun. autorewrite with run.
       split; [reflexivity|]. split; [by repeat constructor|reflexivity]. }
  left.
  assert (Hrun : exists paths,
    run = (Ok paths, st2,
           [EvMakedirs image_output_dir; EvMakedirs output_base_dir;
            EvLog INFO "Created temporary processing directory for intermediates: ";
            EvLog INFO "Generated processing paths for '"]) /\
    paths
    = <["temp_dir" := temp_dir]>
      (<["image_output_dir" := image_output_dir]>
      (<["response_file_path" :=
           Path_div temp_dir (safe_base_filename +:+ "_response.json")]>
      (<["bookmark_file_path" :=
           Path_div temp_dir (safe_base_filename +:+ "_bookmarks.txt")]>
      (<["final_output_path" :=
           Path_div output_base_dir ("Autobookmarked_" +:+ original_filename)]>
         ∅))))).
  { eexists. split; [|reflexivity].
    subst run. unfold get_processing_paths. rewrite run_uuid4. cbv zeta.
    fold safe_base_filename. fold temp_dir. fold image_output_dir.
    unfold bind, try_except, os_call, log, emit, ret.
    by rewrite Hmk1, Hmk2. }
  destruct Hrun as (paths & -> & Hpaths).
  exists paths, st1. autorewrite with run.
  split; [reflexivity|]. split; [reflexivity|].
  split; [exact Hmk2|]. split; [reflexivity|].
  split; [by repeat constructor|]. rewrite Hpaths.
  split; [rewrite !dom_insert_L, dom_empty_L; set_solver|].
  repeat split; by simplify_map_eq.
Qed.

(** X19. When [get_processing_paths] returns, it has made the image
    directory and then the output directory, and nothing else; the
    dictionary has exactly the five keys the workflow reads; the image
    directory lies in the temporary directory and the final output is
    [Autobookmarked_<name>] in the output directory. *)
Theorem get_processing_paths_result `{Host}
    (output_base_dir original_filename : string) (st : os_state)
    (paths : gmap string string) :
  let run := get_processing_paths output_base_dir original_filename st in
  outcome run = Ok paths ->
  dom paths
  = ({[ "temp_dir"; "image_output_dir"; "response_file_path";
        "bookmark_file_path"; "final_output_path" ]} : gset string) /\
  paths !! "final_output_path"
  = Some (Path_div output_base_dir ("Autobookmarked_" +:+ original_filename)) /\
  exists temp_dir,
    paths !! "temp_dir" = Some temp_dir /\
    paths !! "image_output_dir" = Some (Path_div temp_dir "images") /\
    List.filter is_action (events run)
    = [EvMakedirs (Path_div temp_dir "images"); EvMakedirs output_base_dir].
Proof.
  intros run Hok.
  destruct (get_processing_paths_cases output_base_dir original_filename st)
    as [(paths' & st1 & Hout & _ & _ & Hev & _ & Hdom & Htd & Hiod & _ & _ & Hfo)
       |(e & Hout & _)]; [|subst run; congruence].
  assert (paths' = paths) as -> by (subst run; congruence).
  split; [done|]. split; [done|]. eexists. by repeat split.
Qed.

Lemma get_processing_paths_result_witness :
  dom job_upload_paths
  = ({[ "temp_dir"; "image_output_dir"; "response_file_path";
        "bookmark_file_path"; "final_output_path" ]} : gset string) /\
  job_upload_paths !! "final_output_path"
  = Some (@Path_div _ (upload_host gs_exits_one) "/out"
            ("Autobookmarked_" +:+ "x.pdf")) /\
  exists temp_dir,
    job_upload_paths !! "temp_dir" = Some temp_dir /\
    job_upload_paths !! "image_output_dir"
    = Some (@Path_div _ (upload_host gs_exits_one) temp_dir "images") /\
    List.filter is_action (events upload_paths_run)
    = [EvMakedirs (@Path_div _ (upload_host gs_exits_one) temp_dir "images");
       EvMakedirs "/out"].
Proof.
  apply (@get_processing_paths_result (upload_env gs_exits_one)
           (upload_host gs_exits_one) "/out" "x.pdf" upload_state).
  vm_compute. reflexivity.
Defined.

Lemma get_replace_char old new s i :
  String.get i (replace_char old new s)
  = (fun c => if Ascii.eqb c old then new else c) <$> String.get i s.
Proof.
  unfold replace_char. revert i. induction s as [|a s IH]; intros i; [done|].
  destruct i as [|i]; cbn [PyStr.map String.get]; [done|apply IH].
Qed.

Lemma take_drop_string n s : s = PyStr.take n s +:+ PyStr.drop n s.
Proof.
  revert s. induction n as [|n IH]; intros [|c s]; cbn; try done.
  by rewrite <- IH.
Qed.

Lemma length_take_min n s :
  String.length (PyStr.take n s) = Nat.min n (String.length s).
Proof.
  revert s. induction n as [|n IH]; intros [|c s]; cbn; try done.
  by rewrite IH.
Qed.

(** X20. The temporary directory is [processing_<safe>_<id>] in the output
    directory.  [<safe>] is the stem of the file name, character by
    character, with an underscore in the place of every space and of every
    dot, so it has the length of the stem and holds neither; [<id>] is the
    first eight characters of the hexadecimal form of the random
    identifier, or all of it when it is shorter.  The response file and
    the bookmark file are named after the same [<safe>], inside that
    directory. *)
Theorem get_processing_paths_temp_dir_name `{Host}
    (output_base_dir original_filename : string) (st : os_state)
    (paths : gmap string string) :
  let stem := Path_stem original_filename in
  let hex := (uuid4_hex st).1 in
  outcome (get_processing_paths output_base_dir original_filename st) = Ok paths ->
  exists safe_base_filename unique_id,
    let temp_dir :=
      Path_div output_base_dir
        ("processing_" +:+ safe_base_filename +:+ "_" +:+ unique_id) in
    paths !! "temp_dir" = Some temp_dir /\
    paths !! "response_file_path"
    = Some (Path_div temp_dir (safe_base_filename +:+ "_response.json")) /\
    paths !! "bookmark_file_path"
    = Some (Path_div temp_dir (safe_base_filename +:+ "_bookmarks.txt")) /\
    String.length safe_base_filename = String.length stem /\
    (forall i c,
       String.get i stem = Some c ->
       String.get i safe_base_filename
       = Some (if Ascii.eqb c " " || Ascii.eqb c "." then "_"%char else c)) /\
    PyStr.find " " safe_base_filename = -1 /\
    PyStr.find "." safe_base_filename = -1 /\
    (exists rest, hex = unique_id +:+ rest) /\
    String.length unique_id = Nat.min 8 (String.length hex).
Proof.
  intros stem hex Hok.
  destruct (get_processing_paths_cases output_base_dir original_filename st)
    as [(paths' & st1 & Hout & _ & _ & _ & _ & _ & Htd & _ & Hresp & Hbmk & _)
       |(e & Hout & _)];
    [|congruence].
  assert (paths' = paths) as -> by congruence.
  eexists _, _. cbv zeta.
  split; [exact Htd|]. split; [exact Hresp|]. split; [exact Hbmk|].
  split; [by rewrite !length_replace_char|]. split; [|split; [|split; [|split]]].
  - intros i c Hc. rewrite !get_replace_char. fold stem. rewrite Hc. cbn.
    destruct (Ascii.eqb_spec c " ") as [->|Hsp]; [done|].
    by destruct (Ascii.eqb c ".").
  - apply find_replace_char_other; [done|]. by apply find_replace_char.
  - by apply find_replace_char.
  - exists (PyStr.drop 8 hex). apply take_drop_string.
  - apply length_take_min.
Qed.

Lemma get_processing_paths_temp_dir_name_witness :
  exists safe_base_filename unique_id,
    job_upload_paths !! "temp_dir"
    = Some (@Path_div _ (upload_host gs_exits_one) "/out"
              ("processing_" +:+ safe_base_filename +:+ "_" +:+ unique_id)) /\
    job_upload_paths !! "response_file_path"
    = Some (@Path_div _ (upload_host gs_exits_one)
              (@Path_div _ (upload_host gs_exits_one) "/out"
                 ("processing_" +:+ safe_base_filename +:+ "_" +:+ unique_id))
              (safe_base_filename +:+ "_response.json")) /\
    job_upload_paths !! "bookmark_file_path"
    = Some (@Path_div _ (upload_host gs_exits_one)
              (@Path_div _ (upload_host gs_exits_one) "/out"
                 ("processing_" +:+ safe_base_filename +:+ "_" +:+ unique_id))
              (safe_base_filename +:+ "_bookmarks.txt")) /\
    String.length safe_base_filename
    = String.length (@Path_stem _ (upload_host gs_exits_one) "x.pdf") /\
    (forall i c,
       String.get i (@Path_stem _ (upload_host gs_exits_one) "x.pdf") = Some c ->
       String.get i safe_base_filename
       = Some (if Ascii.eqb c " " || Ascii.eqb c "." then "_"%char else c)) /\
    PyStr.find " " safe_base_filename = -1 /\
    PyStr.find "." safe_base_filename = -1 /\
    (exists rest,
       (@uuid4_hex _ (upload_host gs_exits_one) upload_state).1
       = unique_id +:+ rest) /\
    String.length unique_id
    = Nat.min 8
        (String.length (@uuid4_hex _ (upload_host gs_exits_one) upload_state).1).
Proof.
  apply (@get_processing_paths_temp_dir_name (upload_env gs_exits_one)
           (upload_host gs_exits_one) "/out" "x.pdf" upload_state).
  vm_compute. reflexivity.
Defined.

(** X21. [get_processing_paths] raises nothing but the [OSError] of a
    directory that could not be made, after an error record; it then
    starts no stage and removes nothing. *)
Theorem get_processing_paths_raises_only `{Host}
    (output_base_dir original_filename : string) (st : os_state) (e : exn) :
  let run := get_processing_paths output_base_dir original_filename st in
  outcome run = Raise e ->
  (exists msg, e = OSError msg) /\
  last (events run)
  = Some (EvLog ERROR "Failed to create processing directories under ") /\
  List.filter is_call (events run) = [] /\
  List.filter is_teardown (events run) = [].
Proof.
  intros run Hraise.
  destruct (get_processing_paths_cases output_base_dir original_filename st)
    as [(paths' & st1 & Hout & _)|(msg & Hout & Hev & Hlast)];
    [subst run; congruence|].
  split; [exists msg; subst run; congruence|]. split; [done|].
  split; apply filter_never; (eapply Forall_impl; [exact Hev|]); by intros ev [].
Qed.

Lemma get_processing_paths_raises_only_witness :
  (exists msg, OSError "No such file or directory" = OSError msg) /\
  last (events (@get_processing_paths (upload_env gs_exits_one)
                  (upload_host gs_exits_one) "" "x.pdf" upload_state))
  = Some (EvLog ERROR "Failed to create processing directories under ") /\
  List.filter is_call
    (events (@get_processing_paths (upload_env gs_exits_one)
               (upload_host gs_exits_one) "" "x.pdf" upload_state)) = [] /\
  List.filter is_teardown
    (events (@get_processing_paths (upload_env gs_exits_one)
               (upload_host gs_exits_one) "" "x.pdf" upload_state)) = [].
Proof.
  apply (@get_processing_paths_raises_only (upload_env gs_exits_one)
           (upload_host gs_exits_one) "" "x.pdf" upload_state).
  vm_compute. reflexivity.
Defined.

(** ** [handle_uploaded_pdf] *)

(** The run of [handle_uploaded_pdf]: the record of the start, the events
    of the path generation, those of the workflow when it is reached, and
    the record of the result. *)
Lemma handle_uploaded_pdf_run `{Host} uploaded_pdf_path config gs_path pdftk_path
    client st :
  let paths_run :=
    get_processing_paths (BASE_OUTPUT_DIR config)
      (OsPath.basename uploaded_pdf_path) st in
  handle_uploaded_pdf uploaded_pdf_path config gs_path pdftk_path client st
  = after (EvLog INFO "--- Starting processing request for file: "
           :: events paths_run)
      match outcome paths_run with
      | Ok paths =>
          let job :=
            process_pdf_workflow uploaded_pdf_path paths gs_path pdftk_path client
              config (final_state paths_run) in
          match outcome job with
          | Ok final_pdf_path =>
              (Ok (Some final_pdf_path), final_state job,
               events job ++ [EvLog INFO "Successfully processed '"])
          | Raise _ =>
              (Ok None, final_state job,
               events job ++ [EvLog ERROR "Processing failed for '"])
          end
      | Raise _ =>
          (Ok None, final_state paths_run, [EvLog ERROR "Processing failed for '"])
      end.
Proof.
  intros paths_run. unfold handle_uploaded_pdf.
  unfold bind at 1, log at 1, emit, try_except, bind at 1. fold paths_run.
  destruct paths_run as [[[paths|e] st1] ev1]; autorewrite with run.
  - unfold bind at 1.
    destruct (process_pdf_workflow uploaded_pdf_path paths gs_path pdftk_path
                client config st1) as [[[final_pdf_path|e] st2] ev2];
      autorewrite with run; cbn; by rewrite ?app_nil_r, <- ?app_assoc.
  - cbn. by rewrite ?app_nil_r.
Qed.

(** What a job that has its two keys leaves of the teardown: the record
    that starts the cleanup, and the removal of the temporary directory
    when it is there. *)
Lemma workflow_teardown_events `{Env} input_pdf_path paths gs_path
    pdftk_path client config st temp_dir final_output_path :
  paths !! "temp_dir" = Some temp_dir ->
  paths !! "final_output_path" = Some final_output_path ->
  let run :=
    process_pdf_workflow input_pdf_path paths gs_path pdftk_path client config st in
  (forall final_pdf_path,
     outcome run = Ok final_pdf_path -> final_pdf_path = final_output_path) /\
  (List.filter is_teardown (events run)
   = [EvLog INFO "Initiating cleanup for temporary directory: "] \/
   List.filter is_teardown (events run)
   = [EvLog INFO "Initiating cleanup for temporary directory: ";
      EvRmtree temp_dir]).
Proof.
  intros Htd Hfo run. subst run.
  rewrite (process_pdf_workflow_run _ _ _ _ _ _ _ _ _ Htd Hfo). cbv zeta.
  autorewrite with run. split.
  - intros final_pdf_path. rewrite workflow_except_outcome. intros Hok.
    destruct (workflow_steps_ok_calls _ _ _ _ _ _ _ _ Hok) as [Hfinal _].
    congruence.
  - rewrite !List.filter_app.
    rewrite (filter_never is_teardown _
               (workflow_steps_quiet input_pdf_path paths gs_path pdftk_path
                  client config st)).
    rewrite workflow_finally_run.
    destruct (negb (String.eqb temp_dir "") && os_path_exists temp_dir _);
      [destruct (shutil_rmtree temp_dir _) as [[[]|e] st2]|];
      autorewrite with run; cbn; auto.
Qed.

(** X22. [handle_uploaded_pdf] never raises, and what it returns is decided
    by the two steps it runs.  When the paths cannot be made it returns
    [None] and starts no job.  Otherwise it runs [process_pdf_workflow] on
    the upload with these paths, from the state the path generation left:
    it returns the path the workflow returns, which is [Autobookmarked_]
    followed by the base name of the upload, in the output directory of
    the configuration, and [None] when the workflow raises.  Its events are
    the record of the start, those of the path generation, those of the
    job, and the record of the success or of the failure; its final state
    is the job's. *)
Theorem handle_uploaded_pdf_result `{Host}
    (uploaded_pdf_path : string) (config : AppConfig)
    (gs_path pdftk_path : string) (client : option Client) (st : os_state) :
  let run :=
    handle_uploaded_pdf uploaded_pdf_path config gs_path pdftk_path client st in
  let paths_run :=
    get_processing_paths (BASE_OUTPUT_DIR config)
      (OsPath.basename uploaded_pdf_path) st in
  let started := EvLog INFO "--- Starting processing request for file: " in
  match outcome paths_run with
  | Raise _ =>
      run = (Ok None, final_state paths_run,
             started :: events paths_run
             ++ [EvLog ERROR "Processing failed for '"])
  | Ok paths =>
      let job :=
        process_pdf_workflow uploaded_pdf_path paths gs_path pdftk_path client
          config (final_state paths_run) in
      match outcome job with
      | Ok final_pdf_path =>
          run = (Ok (Some final_pdf_path), final_state job,
                 started :: events paths_run ++ events job
                 ++ [EvLog INFO "Successfully processed '"]) /\
          final_pdf_path
          = Path_div (BASE_OUTPUT_DIR config)
              ("Autobookmarked_" +:+ OsPath.basename uploaded_pdf_path)
      | Raise _ =>
          run = (Ok None, final_state job,
                 started :: events paths_run ++ events job
                 ++ [EvLog ERROR "Processing failed for '"])
      end
  end.
Proof.
  intros run paths_run started. subst run.
  rewrite handle_uploaded_pdf_run. cbv zeta. fold paths_run.
  destruct (get_processing_paths_cases (BASE_OUTPUT_DIR config)
              (OsPath.basename uploaded_pdf_path) st)
    as [(paths & st1 & Hout & _ & _ & _ & _ & _ & Htd & _ & _ & _ & Hfo)
       |(e & Hout & _)];
    fold paths_run in Hout; rewrite Hout.
  2: { by destruct paths_run as [[r st1] ev1]. }
  destruct (workflow_teardown_events uploaded_pdf_path paths gs_path
              pdftk_path client config (final_state paths_run) _ _ Htd Hfo)
    as [Hfinal _].
  destruct (process_pdf_workflow uploaded_pdf_path paths gs_path pdftk_path
              client config (final_state paths_run))
    as [[[final_pdf_path|e] st2] ev2]; autorewrite with run in *.
  - split; [|by apply Hfinal]. by destruct paths_run as [[r st1'] ev1].
  - by destruct paths_run as [[r st1'] ev1].
Qed.

(** X23. Once the directories of a job are made, [handle_uploaded_pdf]
    enters the cleanup exactly once, whatever the stages do, and removes
    no directory but the temporary one; when they cannot be made it
    returns [None] with no stage run and no cleanup. *)
Theorem handle_uploaded_pdf_cleanup `{Host}
    (uploaded_pdf_path : string) (config : AppConfig)
    (gs_path pdftk_path : string) (client : option Client) (st : os_state) :
  let run :=
    handle_uploaded_pdf uploaded_pdf_path config gs_path pdftk_path client st in
  match outcome (get_processing_paths (BASE_OUTPUT_DIR config)
                   (OsPath.basename uploaded_pdf_path) st) with
  | Ok paths =>
      exists temp_dir,
        paths !! "temp_dir" = Some temp_dir /\
        (List.filter is_teardown (events run)
         = [EvLog INFO "Initiating cleanup for temporary directory: "] \/
         List.filter is_teardown (events run)
         = [EvLog INFO "Initiating cleanup for temporary directory: ";
            EvRmtree temp_dir])
  | Raise _ =>
      outcome run = Ok None /\
      List.filter is_call (events run) = [] /\
      List.filter is_teardown (events run) = []
  end.
Proof.
  intros run. subst run. rewrite handle_uploaded_pdf_run. cbv zeta.
  destruct (get_processing_paths_cases (BASE_OUTPUT_DIR config)
              (OsPath.basename uploaded_pdf_path) st)
    as [(paths & st1 & Hout & _ & _ & _ & Hev & _ & Htd & _ & _ & _ & Hfo)
       |(e & Hout & Hev & _)];
    rewrite Hout; autorewrite with run.
  - eexists. split; [exact Htd|].
    destruct (workflow_teardown_events uploaded_pdf_path paths gs_path
                pdftk_path client config
                (final_state (get_processing_paths (BASE_OUTPUT_DIR config)
                                (OsPath.basename uploaded_pdf_path) st))
                _ _ Htd Hfo) as [_ Hdown].
    assert (Hquiet : List.filter is_teardown
                       (events (get_processing_paths (BASE_OUTPUT_DIR config)
                                  (OsPath.basename uploaded_pdf_path) st)) = []).
    { apply filter_never. eapply Forall_impl; [exact Hev|]. by intros ev []. }
    destruct (outcome (process_pdf_workflow _ _ _ _ _ _ _)) as [final_pdf_path|e];
      autorewrite with run; rewrite <- app_comm_cons; cbn [List.filter];
      change (is_teardown (EvLog INFO "--- Starting processing request for file: "))
        with false; cbv iota;
      rewrite !List.filter_app, Hquiet; cbn; rewrite app_nil_r; exact Hdown.
  - split; [done|]. rewrite <- app_comm_cons. cbn [List.filter].
    change (is_teardown (EvLog INFO "--- Starting processing request for file: "))
      with false.
    change (is_call (EvLog INFO "--- Starting processing request for file: "))
      with false.
    cbv iota. rewrite !List.filter_app.
    split.
    + rewrite (filter_never is_call); [done|].
      eapply Forall_impl; [exact Hev|]. by intros ev [].
    + rewrite (filter_never is_teardown); [done|].
      eapply Forall_impl; [exact Hev|]. by intros ev [].
Qed.

(** ** [find_executable] *)

Section Which.
Context `{Host}.

Lemma which_first_none common_names st :
  Forall (not_found st) common_names ->
  which_first common_names st = (Ok None, st, []).
Proof.
  intros Hall. induction Hall as [|name rest Hname _ IH]; [done|].
  cbn [which_first]. rewrite run_observe.
  by destruct Hname as [-> | ->].
Qed.

Lemma which_first_some missing name rest path st :
  Forall (not_found st) missing ->
  shutil_which name st = Some path ->
  path <> "" ->
  which_first (missing ++ name :: rest) st
  = (Ok (Some path), st, [EvLog INFO ""]).
Proof.
  intros Hall Hname Hpath. induction Hall as [|name' rest' Hname' _ IH].
  - cbn [app which_first]. rewrite run_observe, Hname.
    destruct path as [|c p]; [done|]. by run_step.
  - cbn [app which_first]. rewrite run_observe.
    by destruct Hname' as [-> | ->].
Qed.

(** The search returns nothing when no name is found, and otherwise the
    path of the first name that is. *)
Lemma which_first_cases common_names st :
  (Forall (not_found st) common_names /\
   which_first common_names st = (Ok None, st, [])) \/
  (exists missing name rest path,
     common_names = missing ++ name :: rest /\
     Forall (not_found st) missing /\
     shutil_which name st = Some path /\
     path <> "" /\
     which_first common_names st = (Ok (Some path), st, [EvLog INFO ""])).
Proof.
  induction common_names as [|name rest IH].
  - left. by split.
  - destruct (shutil_which name st) as [[|c p]|] eqn:Hname.
    + destruct IH as [[Hall Hrun]|(missing & name' & rest' & path & -> & Hall
                                   & Hname' & Hpath & Hrun)].
      * left. split; [constructor; [by right|done]|].
        apply which_first_none. constructor; [by right|done].
      * right. exists (name :: missing), name', rest', path.
        split; [done|]. split; [constructor; [by right|done]|].
        split; [done|]. split; [done|].
        apply (which_first_some (name :: missing)); [|done..].
        constructor; [by right|done].
    + right. exists [], name, rest, (String c p).
      split; [done|]. split; [constructor|]. split; [done|]. split; [done|].
      by apply (which_first_some []).
    + destruct IH as [[Hall Hrun]|(missing & name' & rest' & path & -> & Hall
                                   & Hname' & Hpath & Hrun)].
      * left. split; [constructor; [by left|done]|].
        apply which_first_none. constructor; [by left|done].
      * right. exists (name :: missing), name', rest', path.
        split; [done|]. split; [constructor; [by left|done]|].
        split; [done|]. split; [done|].
        apply (which_first_some (name :: missing)); [|done..].
        constructor; [by left|done].
Qed.

End Which.

(** X24. [find_executable] returns the path of the first of
    [common_names] that [shutil.which] finds, in the order of the list,
    whatever the later names would give; it then changes nothing and
    records the search only. *)
Theorem find_executable_first_found `{Host}
    (tool_name : string) (missing : list string) (name : string)
    (rest : list string) (path : string) (st : os_state) :
  let run := find_executable tool_name (missing ++ name :: rest) st in
  Forall (not_found st) missing ->
  shutil_which name st = Some path ->
  path <> "" ->
  outcome run = Ok path /\ final_state run = st /\ Forall is_log (events run).
Proof.
  intros run Hall Hname Hpath. subst run. unfold find_executable.
  rewrite run_log, run_bind, (which_first_some _ _ _ _ _ Hall Hname Hpath).
  autorewrite with run. split; [done|]. split; [done|]. by repeat constructor.
Qed.

Lemma find_executable_first_found_witness :
  outcome (find_gs_run None true gswin_state) = Ok "/usr/bin/gswin64c" /\
  final_state (find_gs_run None true gswin_state) = gswin_state /\
  Forall is_log (events (find_gs_run None true gswin_state)).
Proof.
  apply (@find_executable_first_found (colab_env None) (colab_host None true)
           "Ghostscript" ["gs"] "gswin64c" [] "/usr/bin/gswin64c" gswin_state).
  - constructor; [by left|constructor].
  - reflexivity.
  - discriminate.
Defined.

Section Install.
Context `{Host}.

Lemma check_run_cases command t st :
  check_run command t st
  = let (r, st') := subprocess_run command t st in
    (match r with
     | Completed rc out err =>
         if rc =? 0 then Ok (out, err) else Raise (CalledProcessError rc command)
     | TimedOut => Raise (TimeoutExpired command t)
     | SpawnFailed e => Raise (OSError e)
     end, st', [EvRun command]).
Proof.
  unfold check_run.
  destruct (subprocess_run command t st) as [[rc out err| |e] st']; [|done..].
  by destruct (rc =? 0).
Qed.

(** The installation attempt, case by case. *)
Lemma install_attempt_run tool_name common_names install_package st :
  install_attempt tool_name common_names install_package st
  = let (r1, st1) := subprocess_run apt_get_update 520 st in
    if exited_zero r1 then
      let (r2, st2) := subprocess_run (apt_get_install install_package) 580 st1 in
      if exited_zero r2 then
        match name_after_install tool_name common_names with
        | Some check_name =>
            match shutil_which check_name st2 with
            | Some (String c p) =>
                (Ok (inl (String c p)), st2,
                 [EvRun apt_get_update; EvRun (apt_get_install install_package);
                  EvLog INFO "Installation command for "; EvLog INFO ""])
            | _ =>
                (Ok (inr (still_not_found tool_name install_package check_name)),
                 st2,
                 [EvRun apt_get_update; EvRun (apt_get_install install_package);
                  EvLog INFO "Installation command for ";
                  EvLog ERROR
                    (still_not_found tool_name install_package check_name)])
            end
        | None =>
            (Ok (inr ("An unexpected error occurred during " +:+ tool_name
                      +:+ " installation.")),
             st2,
             [EvRun apt_get_update; EvRun (apt_get_install install_package);
              EvLog INFO "Installation command for ";
              EvLog ERROR "Unexpected error during "])
        end
      else
        (Ok (inr (install_failure_message tool_name r2)), st2,
         [EvRun apt_get_update; EvRun (apt_get_install install_package);
          EvLog ERROR (install_failure_record r2)])
    else
      (Ok (inr (install_failure_message tool_name r1)), st1,
       [EvRun apt_get_update; EvLog ERROR (install_failure_record r1)]).
Proof.
  unfold install_attempt, try_except.
  unfold bind at 1. rewrite check_run_cases. fold apt_get_update.
  destruct (subprocess_run apt_get_update 520 st) as [[rc out err| |e] st1];
    [|done..].
  cbn [exited_zero]. destruct (rc =? 0); [|done].
  unfold bind at 1. rewrite check_run_cases.
  fold (apt_get_install install_package).
  destruct (subprocess_run (apt_get_install install_package) 580 st1)
    as [[rc' out' err'| |e] st2]; [|done..].
  cbn [exited_zero]. destruct (rc' =? 0); [|done].
  unfold name_after_install, first_name.
  destruct (String.eqb tool_name "PDFtk").
  - unfold bind, log, emit, ret, observe.
    by destruct (shutil_which "pdftk" st2) as [[|c p]|].
  - destruct common_names as [|name0 rest]; [done|].
    unfold bind, log, emit, ret, observe. cbn [head].
    by destruct (shutil_which name0 st2) as [[|c p]|].
Qed.

End Install.

(** The run of [find_executable] when the search finds nothing. *)
Lemma find_executable_not_found_run `{Host} tool_name common_names st :
  Forall (not_found st) common_names ->
  let attempt :=
    match (if COLAB_ENV && PyStr.startswith "linux" sys_platform
           then install_package_of tool_name else None) with
    | Some install_package =>
        after [EvLog WARNING "Attempting to install "]
          (install_attempt tool_name common_names install_package st)
    | None => (Ok (inr (not_in_path tool_name common_names)), st, [])
    end in
  find_executable tool_name common_names st
  = after [EvLog INFO "Searching for "; EvLog WARNING ""]
      match outcome attempt with
      | Ok (inl path_after_install) =>
          (Ok path_after_install, final_state attempt, events attempt)
      | Ok (inr error_msg) =>
          (Raise (FileNotFoundError error_msg), final_state attempt,
           events attempt ++ [EvLog ERROR error_msg])
      | Raise e => (Raise e, final_state attempt, events attempt)
      end.
Proof.
  intros Hall attempt. unfold find_executable.
  rewrite run_log, run_bind, (which_first_none _ _ Hall).
  autorewrite with run. rewrite after_after. cbn [app]. f_equal.
  fold (not_in_path tool_name common_names).
  subst attempt.
  destruct (COLAB_ENV && PyStr.startswith "linux" sys_platform).
  - destruct (install_package_of tool_name) as [install_package|].
    + unfold bind, log, emit, ret, raise, after.
      destruct (install_attempt tool_name common_names install_package st)
        as [[[[path|msg]|e] st1] ev1]; autorewrite with run;
        cbn; by rewrite ?app_nil_r.
    + by autorewrite with run.
  - by autorewrite with run.
Qed.

(** X25. [find_executable] raises nothing but [FileNotFoundError], after
    logging its message as an error; a path it returns is never empty. *)
Theorem find_executable_outcomes `{Host}
    (tool_name : string) (common_names : list string) (st : os_state) :
  let run := find_executable tool_name common_names st in
  match outcome run with
  | Ok path => path <> ""
  | Raise e =>
      exists error_msg,
        e = FileNotFoundError error_msg /\
        last (events run) = Some (EvLog ERROR error_msg)
  end.
Proof.
  intros run. subst run.
  destruct (which_first_cases common_names st)
    as [[Hall _]|(missing & name & rest & path & -> & Hall & Hname & Hpath & Hrun)].
  2: { unfold find_executable. rewrite run_log, run_bind, Hrun.
       by autorewrite with run. }
  rewrite (find_executable_not_found_run _ _ _ Hall). cbv zeta.
  destruct (if COLAB_ENV && PyStr.startswith "linux" sys_platform
            then install_package_of tool_name else None) as [install_package|].
  2: { autorewrite with run. by eexists. }
  rewrite install_attempt_run.
  destruct (subprocess_run apt_get_update 520 st) as [r1 st1].
  destruct (exited_zero r1).
  2: { autorewrite with run. by eexists. }
  destruct (subprocess_run (apt_get_install install_package) 580 st1) as [r2 st2].
  destruct (exited_zero r2).
  2: { autorewrite with run. by eexists. }
  destruct (name_after_install tool_name common_names) as [check_name|].
  2: { autorewrite with run. by eexists. }
  destruct (shutil_which check_name st2) as [[|c p]|]; autorewrite with run;
    first [ done | by eexists ].
Qed.

(** X26. Off Colab, off Linux, or for a tool other than Ghostscript and
    PDFtk, nothing is installed: when no name is found [find_executable]
    raises [FileNotFoundError] with the message that names the tool and the
    names tried, runs no program and leaves the world as it is. *)
Theorem find_executable_no_install `{Host}
    (tool_name : string) (common_names : list string) (st : os_state) :
  let run := find_executable tool_name common_names st in
  Forall (not_found st) common_names ->
  COLAB_ENV && PyStr.startswith "linux" sys_platform = false \/
  install_package_of tool_name = None ->
  outcome run = Raise (FileNotFoundError (not_in_path tool_name common_names)) /\
  final_state run = st /\
  Forall is_log (events run).
Proof.
  intros run Hall Hno. subst run.
  rewrite (find_executable_not_found_run _ _ _ Hall). cbv zeta.
  assert ((if COLAB_ENV && PyStr.startswith "linux" sys_platform
           then install_package_of tool_name else None) = None) as ->.
  { destruct Hno as [-> | ->]; [done|]. by destruct (_ && _). }
  autorewrite with run. split; [done|]. split; [done|]. by repeat constructor.
Qed.

Lemma find_executable_no_install_witness :
  outcome (find_gs_run None false empty_state)
  = Raise (FileNotFoundError
             (@not_in_path _ (colab_host None false) "Ghostscript"
                ["gs"; "gswin64c"])) /\
  final_state (find_gs_run None false empty_state) = empty_state /\
  Forall is_log (events (find_gs_run None false empty_state)).
Proof.
  apply (@find_executable_no_install (colab_env None) (colab_host None false)
           "Ghostscript" ["gs"; "gswin64c"] empty_state).
  - repeat constructor.
  - by left.
Defined.

(** X27. The only programs [find_executable] runs are [apt-get update] and
    then [apt-get install] of the package of the tool, each at most once
    and the second only after the first. *)
Theorem find_executable_runs_apt_get_only `{Host}
    (tool_name : string) (common_names : list string) (st : os_state) :
  let run := find_executable tool_name common_names st in
  match install_package_of tool_name with
  | Some install_package =>
      List.filter is_run (events run) = [] \/
      List.filter is_run (events run) = [EvRun apt_get_update] \/
      List.filter is_run (events run)
      = [EvRun apt_get_update; EvRun (apt_get_install install_package)]
  | None => List.filter is_run (events run) = []
  end.
Proof.
  intros run. subst run.
  assert (Hnone : forall (P : Prop),
            (List.filter is_run (events (find_executable tool_name common_names st))
             = [] -> P) ->
            (forall missing name rest path,
               common_names = missing ++ name :: rest ->
               Forall (not_found st) missing ->
               shutil_which name st = Some path -> path <> "" -> P)).
  { intros P HP missing name rest path -> Hall Hname Hpath. apply HP.
    unfold find_executable.
    rewrite run_log, run_bind, (which_first_some _ _ _ _ _ Hall Hname Hpath).
    by autorewrite with run. }
  destruct (which_first_cases common_names st)
    as [[Hall _]|(missing & name & rest & path & Heq & Hall & Hname & Hpath & _)].
  2: { eapply Hnone; [|done..]. intros ->.
       destruct (install_package_of tool_name); auto. }
  clear Hnone.
  rewrite (find_executable_not_found_run _ _ _ Hall). cbv zeta.
  destruct (COLAB_ENV && PyStr.startswith "linux" sys_platform).
  2: { autorewrite with run. destruct (install_package_of tool_name); auto. }
  destruct (install_package_of tool_name) as [install_package|];
    [|by autorewrite with run].
  rewrite install_attempt_run.
  destruct (subprocess_run apt_get_update 520 st) as [r1 st1].
  destruct (exited_zero r1); [|autorewrite with run; auto].
  destruct (subprocess_run (apt_get_install install_package) 580 st1) as [r2 st2].
  destruct (exited_zero r2); [|autorewrite with run; auto].
  destruct (name_after_install tool_name common_names) as [check_name|];
    [|autorewrite with run; auto].
  destruct (shutil_which check_name st2) as [[|c p]|]; autorewrite with run; auto.
Qed.

(** X28. After an installation whose two commands exit with code zero,
    one name is searched for, [pdftk] for PDFtk and the first of
    [common_names] for any other tool: its path is returned when found, and
    otherwise [find_executable] raises, whatever the other names give. *)
Theorem find_executable_after_install `{Host}
    (tool_name : string) (common_names : list string)
    (install_package check_name : string) (st st1 st2 : os_state)
    (r1 r2 : proc_outcome) :
  let run := find_executable tool_name common_names st in
  Forall (not_found st) common_names ->
  COLAB_ENV && PyStr.startswith "linux" sys_platform = true ->
  install_package_of tool_name = Some install_package ->
  subprocess_run apt_get_update 520 st = (r1, st1) ->
  exited_zero r1 = true ->
  subprocess_run (apt_get_install install_package) 580 st1 = (r2, st2) ->
  exited_zero r2 = true ->
  name_after_install tool_name common_names = Some check_name ->
  outcome run
  = match shutil_which check_name st2 with
    | Some (String c p) => Ok (String c p)
    | _ =>
        Raise (FileNotFoundError
                 (still_not_found tool_name install_package check_name))
    end /\
  final_state run = st2.
Proof.
  intros run Hall Hcolab Hpkg Hup Hz1 Hin Hz2 Hname. subst run.
  rewrite (find_executable_not_found_run _ _ _ Hall). cbv zeta.
  rewrite Hcolab, Hpkg, install_attempt_run, Hup, Hz1, Hin, Hz2, Hname.
  destruct (shutil_which check_name st2) as [[|c p]|]; by autorewrite with run.
Qed.

Lemma find_executable_after_install_witness :
  outcome (find_gs_run (Some "/usr/bin/gswin64c") true empty_state)
  = match @shutil_which _ (colab_host (Some "/usr/bin/gswin64c") true) "gs"
            (World.put "/usr/bin/gswin64c" "ELF" empty_state) with
    | Some (String c p) => Ok (String c p)
    | _ =>
        Raise (FileNotFoundError (still_not_found "Ghostscript" "ghostscript" "gs"))
    end /\
  final_state (find_gs_run (Some "/usr/bin/gswin64c") true empty_state)
  = World.put "/usr/bin/gswin64c" "ELF" empty_state.
Proof.
  apply (@find_executable_after_install (colab_env (Some "/usr/bin/gswin64c"))
           (colab_host (Some "/usr/bin/gswin64c") true) "Ghostscript"
           ["gs"; "gswin64c"] "ghostscript" "gs" empty_state empty_state
           (World.put "/usr/bin/gswin64c" "ELF" empty_state)
           (Completed 0 "" "") (Completed 0 "" ""));
    first [ reflexivity | repeat constructor ].
Defined.

(** The installation above puts Ghostscript on the path under its second
    name; the search after it looks for the first name only and fails. *)
Example installed_under_second_name :
  outcome (find_gs_run (Some "/usr/bin/gswin64c") true empty_state)
  = Raise (FileNotFoundError
             "Ghostscript installation attempted (ghostscript), but executable 'gs' still not found.") /\
  HostWorld.which "gswin64c"
    (final_state (find_gs_run (Some "/usr/bin/gswin64c") true empty_state))
  = Some "/usr/bin/gswin64c".
Proof. split; vm_compute; reflexivity. Qed.

(** X29. When [apt-get update] does not exit with code zero, the
    installation is not attempted: [apt-get install] is not run, and
    [find_executable] raises [FileNotFoundError] with the message of the
    kind of failure. *)
Theorem find_executable_update_failure `{Host}
    (tool_name : string) (common_names : list string)
    (install_package : string) (st st1 : os_state) (r1 : proc_outcome) :
  let run := find_executable tool_name common_names st in
  Forall (not_found st) common_names ->
  COLAB_ENV && PyStr.startswith "linux" sys_platform = true ->
  install_package_of tool_name = Some install_package ->
  subprocess_run apt_get_update 520 st = (r1, st1) ->
  exited_zero r1 = false ->
  outcome run = Raise (FileNotFoundError (install_failure_message tool_name r1)) /\
  final_state run = st1 /\
  List.filter is_run (events run) = [EvRun apt_get_update].
Proof.
  intros run Hall Hcolab Hpkg Hup Hz1. subst run.
  rewrite (find_executable_not_found_run _ _ _ Hall). cbv zeta.
  rewrite Hcolab, Hpkg, install_attempt_run, Hup, Hz1.
  by autorewrite with run.
Qed.

Lemma find_executable_update_failure_witness :
  outcome broken_apt_run
  = Raise (FileNotFoundError
             (install_failure_message "PDFtk"
                (Completed 1 "" "Error: /undefinedfilename"))) /\
  final_state broken_apt_run = empty_state /\
  List.filter is_run (events broken_apt_run) = [EvRun apt_get_update].
Proof.
  apply (@find_executable_update_failure (tool_env gs_exits_one) broken_apt_host
           "PDFtk" ["pdftk"] "pdftk-java" empty_state empty_state
           (Completed 1 "" "Error: /undefinedfilename"));
    first [ reflexivity | repeat constructor ].
Defined.

(** * Failures of the stages *)

(** A [False] of [convert_ai_response_to_pdftk] comes after an error record
    of its own. *)
Lemma convert_false_logs `{Env} response_data output_bmk_path st :
  let run := convert_ai_response_to_pdftk response_data output_bmk_path st in
  outcome run = Ok false -> exists msg, EvLog ERROR msg ∈ events run.
Proof.
  intros run. subst run. unfold convert_ai_response_to_pdftk.
  rewrite run_log, run_try_except.
  match goal with
  | |- context [outcome (?m st)] => destruct (m st) as [[[b|e] st1] ev1] eqn:Hbody
  end; autorewrite with run.
  2: { intros _. exists "Error converting AI response to PDFtk format: ".
       set_solver. }
  intros [= ->]. revert Hbody.
  destruct (pages_list_of response_data) as [[pages_data|]|e]; [| |by run_step].
  - destruct pages_data as [|page_detail rest] eqn:Hpd.
    + unfold write_text. run_step.
      destruct (open_write output_bmk_path "" st) as [[[]|e] st']; by run_step.
    + rewrite <- Hpd. clear Hpd page_detail rest.
      destruct (build_bookmarks_total pages_data [] st)
        as (blocks & ev & Hrun & Hev).
      rewrite run_bind, Hrun. unfold write_text. run_step.
      destruct blocks as [|block blocks'] eqn:Hblocks.
      * run_step.
        destruct (open_write output_bmk_path "" st) as [[[]|e] st']; by run_step.
      * rewrite <- Hblocks in *. clear Hblocks block blocks'. run_step.
        destruct (os_makedirs (OsPath.dirname output_bmk_path) st)
          as [[[]|e] st2]; run_step; [|done].
        destruct (open_write output_bmk_path (String.concat "" blocks) st2)
          as [[[]|e] st3]; by run_step.
  - run_step. intros [= <- <-].
    exists "AI response JSON is missing the 'pages' list or it's not a list.".
    set_solver.
Qed.

(** A [False] of [apply_bookmarks] comes after an error record of its own. *)
Lemma apply_false_logs `{Env} pdftk_path input_pdf_path bookmark_data_path
    output_pdf_path st :
  let run :=
    apply_bookmarks pdftk_path input_pdf_path bookmark_data_path output_pdf_path st in
  outcome run = Ok false -> exists msg, EvLog ERROR msg ∈ events run.
Proof.
  intros run. subst run.
  destruct (String.eqb_spec pdftk_path "") as [Hp|Hp].
  { unfold apply_bookmarks, bind, log, emit, raise. by rewrite Hp. }
  destruct (os_path_exists input_pdf_path st) eqn:Hin.
  2: { unfold apply_bookmarks, bind, log, emit, raise, observe.
       destruct (String.eqb_spec pdftk_path "") as [|_]; [done|].
       by rewrite Hin. }
  destruct (os_path_exists bookmark_data_path st) eqn:Hdata.
  2: { unfold apply_bookmarks. run_step.
       destruct (String.eqb_spec pdftk_path "") as [|_]; [done|].
       run_step. rewrite Hin. cbn [negb]. run_step. rewrite Hdata.
       by run_step. }
  rewrite apply_bookmarks_run by done.
  destruct (subprocess_run _ 120 st) as [[rc out err| |e] st'];
    [destruct (rc =? 0);
       [destruct (os_path_exists output_pdf_path st');
          [destruct (os_path_getsize output_pdf_path st') as [size|e];
             [destruct (size >? 0)|]|]|]|..];
    autorewrite with run; try done; intros _; eexists;
    apply list_elem_of_In; cbn; repeat (first [left; reflexivity | right]).
Qed.

(** C9, as the code has it.  The outcome of [process_pdf_workflow] is the
    outcome of its [try] suite, and the suite stops at the first stage that
    fails: its state and its events are those of the stages run so far.  An
    exception raised by a stage function is raised to the caller as it is,
    after the error record of the [except] clause.  Stages 3 and 4 report a
    failure by returning [False] after an error record of their own; the
    orchestrator then raises a [RuntimeError] of its own, with a fixed
    message and no cause.  A failure of Ghostscript is, inside
    [pdf_to_images], logged and raised as a [RuntimeError]: caused by the
    [CalledProcessError] for an exit code other than zero, without cause for
    a timeout, caused by the [OSError] when it cannot be started; that
    [RuntimeError] is what the caller of [process_pdf_workflow] receives. *)
Theorem process_pdf_workflow_stage_failures `{Env}
    (input_pdf_path : string) (paths : gmap string string)
    (gs_path pdftk_path : string) (client : option Client) (config : AppConfig)
    (st : os_state)
    (temp_dir image_output_dir response_file_path bookmark_file_path
     final_output_path : string) :
  paths !! "temp_dir" = Some temp_dir ->
  paths !! "image_output_dir" = Some image_output_dir ->
  paths !! "response_file_path" = Some response_file_path ->
  paths !! "bookmark_file_path" = Some bookmark_file_path ->
  paths !! "final_output_path" = Some final_output_path ->
  let steps :=
    workflow_steps input_pdf_path paths gs_path pdftk_path client config in
  let run :=
    process_pdf_workflow input_pdf_path paths gs_path pdftk_path client config st in
  let r1 :=
    pdf_to_images input_pdf_path image_output_dir gs_path
      (GS_RESOLUTION config) (GS_IMAGE_FORMAT config) st in
  let command :=
    gs_command gs_path (GS_IMAGE_FORMAT config) (GS_RESOLUTION config)
      (OsPath.join image_output_dir
         ("page_%04d." +:+ image_ext (GS_IMAGE_FORMAT config)))
      input_pdf_path in
  outcome run = outcome (steps st) /\
  (forall e, outcome (steps st) = Raise e ->
     EvLog ERROR "PDF processing workflow failed for " ∈ events run) /\
  (os_path_exists input_pdf_path st = true ->
   gs_path <> "" ->
   forall e,
     ghostscript_failure input_pdf_path command
       (subprocess_run command 1200 st).1 = Some e ->
     outcome r1 = Raise e /\
     outcome run = Raise e /\
     exists msg, last (events r1) = Some (EvLog ERROR msg)) /\
  match outcome r1 with
  | Raise e => steps st = (Raise e, final_state r1, events r1)
  | Ok image_paths =>
      let r2 :=
        generate_bookmarks_ai client (GEMINI_MODEL_NAME config)
          (GEMINI_TEMPERATURE config) (GEMINI_SYSTEM_PROMPT_TEMPLATE config)
          image_paths ExtractedData (final_state r1) in
      match outcome r2 with
      | Raise e => steps st = (Raise e, final_state r2, events r1 ++ events r2)
      | Ok ai_response_dict =>
          let saved :=
            try_except
              (write_text response_file_path (json_dumps ai_response_dict) ;;
               log INFO "Saved raw AI response JSON to ")
              (fun _ => log WARNING "Could not write AI response file: ")
              (final_state r2) in
          let r3 :=
            convert_ai_response_to_pdftk ai_response_dict bookmark_file_path
              (final_state saved) in
          let so_far := events r1 ++ events r2 ++ events saved ++ events r3 in
          match outcome r3 with
          | Raise e => steps st = (Raise e, final_state r3, so_far)
          | Ok false =>
              steps st
              = (Raise (RuntimeError
                          "Failed to convert AI response to PDFtk bookmark format."
                          None),
                 final_state r3, so_far) /\
              exists msg, EvLog ERROR msg ∈ events r3
          | Ok true =>
              let r4 :=
                apply_bookmarks pdftk_path input_pdf_path bookmark_file_path
                  final_output_path (final_state r3) in
              match outcome r4 with
              | Raise e => steps st = (Raise e, final_state r4, so_far ++ events r4)
              | Ok false =>
                  steps st
                  = (Raise (RuntimeError
                              "Failed to apply PDFtk bookmarks to the PDF." None),
                     final_state r4, so_far ++ events r4) /\
                  exists msg, EvLog ERROR msg ∈ events r4
              | Ok true =>
                  steps st
                  = (Ok final_output_path, final_state r4,
                     so_far ++ events r4
                     ++ [EvLog INFO "Workflow completed successfully for "])
              end
          end
      end
  end.
Proof.
  intros Htd Himg Hresp Hbmk Hfo steps run r1 command.
  assert (Houtcome : outcome run = outcome (steps st)).
  { subst run. rewrite (process_pdf_workflow_run _ _ _ _ _ _ _ _ _ Htd Hfo).
    autorewrite with run. apply workflow_except_outcome. }
  assert (Hstages :
    match outcome r1 with
    | Raise e => steps st = (Raise e, final_state r1, events r1)
    | Ok image_paths =>
        let r2 :=
          generate_bookmarks_ai client (GEMINI_MODEL_NAME config)
            (GEMINI_TEMPERATURE config) (GEMINI_SYSTEM_PROMPT_TEMPLATE config)
            image_paths ExtractedData (final_state r1) in
        match outcome r2 with
        | Raise e => steps st = (Raise e, final_state r2, events r1 ++ events r2)
        | Ok ai_response_dict =>
            let saved :=
              try_except
                (write_text response_file_path (json_dumps ai_response_dict) ;;
                 log INFO "Saved raw AI response JSON to ")
                (fun _ => log WARNING "Could not write AI response file: ")
                (final_state r2) in
            let r3 :=
              convert_ai_response_to_pdftk ai_response_dict bookmark_file_path
                (final_state saved) in
            let so_far := events r1 ++ events r2 ++ events saved ++ events r3 in
            match outcome r3 with
            | Raise e => steps st = (Raise e, final_state r3, so_far)
            | Ok false =>
                steps st
                = (Raise (RuntimeError
                            "Failed to convert AI response to PDFtk bookmark format."
                            None),
                   final_state r3, so_far) /\
                exists msg, EvLog ERROR msg ∈ events r3
            | Ok true =>
                let r4 :=
                  apply_bookmarks pdftk_path input_pdf_path bookmark_file_path
                    final_output_path (final_state r3) in
                match outcome r4 with
                | Raise e =>
                    steps st = (Raise e, final_state r4, so_far ++ events r4)
                | Ok false =>
                    steps st
                    = (Raise (RuntimeError
                                "Failed to apply PDFtk bookmarks to the PDF." None),
                       final_state r4, so_far ++ events r4) /\
                    exists msg, EvLog ERROR msg ∈ events r4
                | Ok true =>
                    steps st
                    = (Ok final_output_path, final_state r4,
                       so_far ++ events r4
                       ++ [EvLog INFO "Workflow completed successfully for "])
                end
            end
        end
    end).
  { subst steps. unfold workflow_steps, getitem.
    rewrite Himg, Hresp, Hbmk, Hfo. run_step.
    rewrite run_bind. fold r1.
    destruct r1 as [[[image_paths|e1] st1] ev1]; autorewrite with run; [|done].
    rewrite run_bind.
    destruct (generate_bookmarks_ai _ _ _ _ image_paths ExtractedData st1)
      as [[[ai|e2] st2] ev2]; autorewrite with run; [|done].
    cbv zeta. rewrite run_bind.
    replace (try_except
               (let* response_file_path0 := ret response_file_path in
                write_text response_file_path0 (json_dumps ai) ;;
                log INFO "Saved raw AI response JSON to ")
               (fun _ => log WARNING "Could not write AI response file: ") st2)
      with (try_except
              (write_text response_file_path (json_dumps ai) ;;
               log INFO "Saved raw AI response JSON to ")
              (fun _ => log WARNING "Could not write AI response file: ") st2)
      by (unfold try_except; by rewrite run_ret).
    set (saved := try_except _ _ st2).
    assert (Hsaved : exists u, outcome saved = Ok u).
    { subst saved. rewrite run_try_except. unfold write_text. run_step.
      destruct (open_write response_file_path (json_dumps ai) st2)
        as [[[]|e] st']; run_step; by eexists. }
    destruct Hsaved as [u Hsaved]. rewrite Hsaved. run_step.
    rewrite run_bind.
    pose proof (convert_false_logs ai bookmark_file_path (final_state saved))
      as Hconv.
    destruct (convert_ai_response_to_pdftk ai bookmark_file_path
                (final_state saved))
      as [[[[|]|e3] st3] ev3]; autorewrite with run in *; cbn [negb].
    - run_step. rewrite run_bind.
      pose proof (apply_false_logs pdftk_path input_pdf_path bookmark_file_path
                    final_output_path st3) as Happly.
      destruct (apply_bookmarks pdftk_path input_pdf_path bookmark_file_path
                  final_output_path st3) as [[[[|]|e4] st4] ev4];
        autorewrite with run in *; cbn [negb]; run_step;
        rewrite <- ?app_assoc, ?app_nil_r; [done| |done].
      split; [done|]. by apply Happly.
    - run_step. rewrite <- ?app_assoc, ?app_nil_r.
      split; [done|]. by apply Hconv.
    - by rewrite <- ?app_assoc, ?app_nil_r. }
  split; [exact Houtcome|]. split; [|split; [|exact Hstages]].
  - intros e Hraise. subst run.
    rewrite (process_pdf_workflow_run _ _ _ _ _ _ _ _ _ Htd Hfo).
    autorewrite with run. rewrite run_try_except. fold steps. rewrite Hraise.
    unfold workflow_except. run_step. set_solver.
  - intros Hpdf Hgs e Hfail.
    assert (Hr1 : outcome r1 = Raise e /\
                  exists msg, last (events r1) = Some (EvLog ERROR msg)).
    { subst r1. rewrite pdf_to_images_run by done. fold command.
      destruct (subprocess_run command 1200 st) as [[rc out err| |e'] st'];
        cbn [fst ghostscript_failure] in Hfail.
      - destruct (rc =? 0); [done|]. injection Hfail as <-.
        autorewrite with run. split; [done|]. by eexists.
      - injection Hfail as <-. autorewrite with run. split; [done|]. by eexists.
      - injection Hfail as <-. autorewrite with run. split; [done|]. by eexists. }
    destruct Hr1 as [Hr1 Hlast]. split; [done|]. split; [|done].
    rewrite Houtcome. rewrite Hr1 in Hstages. by rewrite Hstages.
Qed.

Lemma process_pdf_workflow_stage_failures_witness :
  outcome (job_run gs_three_pages 0 None job_state)
  = Raise (RuntimeError "Failed to apply PDFtk bookmarks to the PDF." None) /\
  outcome (job_run gs_exits_one 0 None job_state)
  = Raise (RuntimeError "Ghostscript conversion failed for x.pdf"
             (Some (CalledProcessError 1
                      (gs_command "gs" "pnggray" 120
                         "/out/job/images/page_%04d.png" "/up/x.pdf")))).
Proof.
  unfold job_run. split.
  - destruct (@process_pdf_workflow_stage_failures (job_env gs_three_pages 0 None)
                "/up/x.pdf" job_paths "gs" "pdftk" (Some tt) job_config job_state
                "/out/job" "/out/job/images" "/out/job/x_response.json"
                "/out/job/x_bookmarks.txt" "/out/Autobookmarked_x.pdf")
      as [Houtcome _]; [reflexivity..|].
    rewrite Houtcome. vm_compute. reflexivity.
  - destruct (@process_pdf_workflow_stage_failures (job_env gs_exits_one 0 None)
                "/up/x.pdf" job_paths "gs" "pdftk" (Some tt) job_config job_state
                "/out/job" "/out/job/images" "/out/job/x_response.json"
                "/out/job/x_bookmarks.txt" "/out/Autobookmarked_x.pdf")
      as (_ & _ & Hgs & _); [reflexivity..|].
    apply Hgs; [reflexivity|discriminate|reflexivity].
Defined.

(** C9, as stated, fails.  PDFtk exits with code one: [apply_bookmarks] logs
    the [CalledProcessError] and returns [False], and the caller of
    [process_pdf_workflow] receives a [RuntimeError] without cause.
    Ghostscript exits with code one: the caller receives the [RuntimeError]
    that [pdf_to_images] raised in place of the [CalledProcessError]. *)
Lemma process_pdf_workflow_replaces_errors :
  (outcome (job_run gs_three_pages 1 None job_state)
   = Raise (RuntimeError "Failed to apply PDFtk bookmarks to the PDF." None) /\
   In (EvLog ERROR "PDFtk failed. Command: '")
      (events (job_run gs_three_pages 1 None job_state))) /\
  outcome (job_run gs_exits_one 0 None job_state)
  = Raise (RuntimeError "Ghostscript conversion failed for x.pdf"
             (Some (CalledProcessError 1
                      (gs_command "gs" "pnggray" 120
                         "/out/job/images/page_%04d.png" "/up/x.pdf")))).
Proof.
  split; [split|].
  - vm_compute. reflexivity.
  - vm_compute. repeat (first [left; reflexivity | right]).
  - vm_compute. reflexivity.
Qed.
